(** * SimVerse water-pollution simulator: the simulation core of [app.py]

    The Streamlit script keeps its whole state in [st.session_state] and
    re-runs top to bottom on every user interaction.  The development embeds
    the parts of the script that carry logic:

    - the session-state initialisation block (lines 45-61),
    - [run_simulation_step] (lines 64-117),
    - the sidebar controller: policy check-boxes, the [game_over] gate in
      front of the "Next Day" button and the "Reset Simulation" button
      (lines 130-149),
    - the welcome page with its "Start Simulation" button, which ends the
      run before the dashboard until it was clicked (lines 152-174),
    - the final report with its grade (lines 179-202),
    - the values the dashboard draws: water colour, scum, fish and bubbles
      (lines 230-311).

    Python [float]s and numpy [float64]s are IEEE-754 binary64 numbers; they
    are modelled by Rocq's primitive floats, whose operations are specified
    bit for bit by [SpecFloat] through [FloatAxioms].  Decimal literals are
    read, as in Python, as the nearest binary64 value. *)

From Stdlib Require Import ZArith List Bool String Floats Lia.
Import ListNotations.

#[local] Set Warnings "-inexact-float".
#[local] Open Scope float_scope.

(** ** Python and numpy primitives used by the script *)

Module Py.

(** [int -> float] conversion, as done by [int * float] and [int + float]:
    the integer is rounded to the nearest binary64 number, ties to even.
    (Beyond the range of binary64 Python raises [OverflowError]; the model
    gives an infinity there.) *)
Definition float_of_int (n : Z) : float :=
  SF2Prim (binary_normalize prec emax n 0 false).

(** The builtin [max(a, b)] on two arguments: it keeps [a] and replaces it
    by [b] only when [b > a]. *)
Definition max (a b : float) : float := if a <? b then b else a.

(** [np.clip(x, lo, hi)] on float64: [minimum(maximum(x, lo), hi)], where a
    NaN [x] propagates. *)
Definition np_maximum (a b : float) : float :=
  if is_nan a then a else if b <? a then a else b.
Definition np_minimum (a b : float) : float :=
  if is_nan a then a else if a <? b then a else b.
Definition np_clip (x lo hi : float) : float :=
  np_minimum (np_maximum x lo) hi.

End Py.

(** ** Session state *)

(** [st.session_state.policies]: a dict with three fixed keys. *)
Record Policies := mkPolicies {
  Treatment_Plant : bool;
  Regulation : bool;
  Cleanup_Drive : bool
}.

(** [st.session_state.history]: a dict of four lists that grow together. *)
Record History := mkHistory {
  Day : list Z;
  Pollution : list float;
  Oxygen : list float;
  Health : list float
}.

Record session_state := mkSession {
  day : Z;
  pollution_level : float;
  dissolved_oxygen : float;
  aquatic_health : float;
  history : History;
  policies : Policies;
  started : bool
}.

(** Lines 45-61: the values written when ['day'] is not yet in the session. *)
Definition initial_session_state : session_state :=
  {| day := 1;
     pollution_level := 10.0;
     dissolved_oxygen := 8.0;
     aquatic_health := 100.0;
     history := {| Day := [1%Z]; Pollution := [10.0]; Oxygen := [8.0];
                   Health := [100.0] |};
     policies := {| Treatment_Plant := false; Regulation := false;
                    Cleanup_Drive := false |};
     started := false |}.

(** What the script keeps between two runs: the keys of
    [st.session_state] ([None] is the store without any key) and the state
    of the three check-boxes.  The check-boxes are declared without a
    [key] (lines 130-132), so their state is Streamlit's and is not among
    the keys of [st.session_state]. *)
Record store := mkStore {
  session_keys : option session_state;
  checkbox_widgets : Policies
}.

(** Lines 45-61 on the keys of the store. *)
Definition session_init (keys : option session_state) : session_state :=
  match keys with
  | None => initial_session_state
  | Some ss => ss
  end.

(** ** Simulation engine (lines 64-117) *)

(** Lines 66-75: pollution generated today, after the policy multipliers. *)
Definition daily_pollution (factory_input farm_input : Z) (p : Policies) : float :=
  let daily_pollution :=
    Py.float_of_int factory_input * 1.5 + Py.float_of_int farm_input * 1.0 in
  let daily_pollution :=
    if Treatment_Plant p then daily_pollution * 0.3 else daily_pollution in
  let daily_pollution :=
    if Regulation p then daily_pollution * 0.6 else daily_pollution in
  daily_pollution.

(** Lines 69, 77-82. *)
Definition net_pollution (factory_input farm_input : Z) (p : Policies) : float :=
  let natural_recovery := 2.0 in
  let decay_booster := if Cleanup_Drive p then 2.5 else 1.0 in
  daily_pollution factory_input farm_input p - natural_recovery * decay_booster.

(** Line 87. *)
Definition target_do (pollution_level : float) : float :=
  Py.max 0.5 (8.0 - pollution_level * 0.15).

(** Lines 92-108: three independent [if]s accumulate into [health_impact]. *)
Definition health_impact (dissolved_oxygen pollution_level : float) (p : Policies)
  : float :=
  let health_impact := 0 in
  let health_impact :=
    if dissolved_oxygen <? 6.0
    then health_impact - (6.0 - dissolved_oxygen) * 2.5
    else health_impact in
  let health_impact :=
    if 20 <? pollution_level
    then health_impact - (pollution_level - 20) * 0.5
    else health_impact in
  let health_impact :=
    if (6.0 <? dissolved_oxygen) && (pollution_level <? 20)
    then
      let base_recovery := 3.0 in
      let base_recovery :=
        if Cleanup_Drive p then base_recovery + 5.0 else base_recovery in
      health_impact + base_recovery
    else health_impact in
  health_impact.

Definition history_append (h : History) (d : Z) (p o a : float) : History :=
  {| Day := Day h ++ [d];
     Pollution := Pollution h ++ [p];
     Oxygen := Oxygen h ++ [o];
     Health := Health h ++ [a] |}.

Definition run_simulation_step (factory_input farm_input : Z) (ss : session_state)
  : session_state :=
  let net_pollution := net_pollution factory_input farm_input (policies ss) in
  let pollution_level' := Py.max 0 (pollution_level ss + net_pollution) in
  let target_do := target_do pollution_level' in
  let dissolved_oxygen' :=
    dissolved_oxygen ss + (target_do - dissolved_oxygen ss) * 0.4 in
  let health_impact :=
    health_impact dissolved_oxygen' pollution_level' (policies ss) in
  let aquatic_health' :=
    Py.np_clip (aquatic_health ss + health_impact) 0 100 in
  let day' := (day ss + 1)%Z in
  {| day := day';
     pollution_level := pollution_level';
     dissolved_oxygen := dissolved_oxygen';
     aquatic_health := aquatic_health';
     history := history_append (history ss) day' pollution_level'
                  dissolved_oxygen' aquatic_health';
     policies := policies ss;
     started := started ss |}.

(** ** Sidebar controller (lines 130-149) *)

(** Lines 130-132: the three check-boxes are written into the session. *)
Definition set_policies (p : Policies) (ss : session_state) : session_state :=
  {| day := day ss;
     pollution_level := pollution_level ss;
     dissolved_oxygen := dissolved_oxygen ss;
     aquatic_health := aquatic_health ss;
     history := history ss;
     policies := p;
     started := started ss |}.

(** Line 137. *)
Definition game_over (ss : session_state) : bool := (30 <=? day ss)%Z.

(** Lines 139-144: a click on "Next Day"; the button only exists while the
    campaign is running. *)
Definition next_day (factory_val farm_val : Z) (ss : session_state) : session_state :=
  if negb (game_over ss)
  then run_simulation_step factory_val farm_val ss
  else ss.

(** Lines 146-148: "Reset Simulation" deletes every key of
    [st.session_state]; the state of the check-boxes is not a key and
    stays. *)
Definition reset_button (s : store) : store :=
  {| session_keys := None; checkbox_widgets := checkbox_widgets s |}.

(** A run of the script down to the sidebar: the initialisation block
    (lines 45-61), then the check-boxes write what they hold into the
    session (lines 130-132). *)
Definition rerun (s : store) : session_state :=
  set_policies (checkbox_widgets s) (session_init (session_keys s)).

(** The reset command: a click on "Reset Simulation" in a run whose
    check-boxes hold [checkboxes], and the re-run that follows
    ([st.rerun()], line 149). *)
Definition reset (checkboxes : Policies) (ss : session_state) : session_state :=
  rerun (reset_button {| session_keys := Some ss;
                         checkbox_widgets := checkboxes |}).

(** One "advance day" command: the script run in which the sliders read
    [factory_val] and [farm_val], the check-boxes read [checkboxes] and
    "Next Day" is clicked. *)
Record command := mkCommand {
  factory_val : Z;
  farm_val : Z;
  checkboxes : Policies
}.

Definition advance (c : command) (ss : session_state) : session_state :=
  next_day (factory_val c) (farm_val c) (set_policies (checkboxes c) ss).

(** The sliders are declared with bounds 0 and 10 (lines 123 and 126). *)
Definition valid_command (c : command) : Prop :=
  (0 <= factory_val c <= 10)%Z /\ (0 <= farm_val c <= 10)%Z.

(** A campaign: the commands applied in order. *)
Fixpoint campaign (cs : list command) (ss : session_state) : session_state :=
  match cs with
  | [] => ss
  | c :: cs' => campaign cs' (advance c ss)
  end.

(** States the user can reach from a fresh session. *)
Definition reachable (ss : session_state) : Prop :=
  exists cs, Forall valid_command cs /\ ss = campaign cs initial_session_state.

(** ** Welcome page and whole sessions (lines 152-174) *)

(** Lines 171-173: a click on "Start Simulation", in a run whose
    check-boxes hold [checkboxes]. *)
Definition start_simulation (checkboxes : Policies) (ss : session_state)
  : session_state :=
  {| day := day ss;
     pollution_level := pollution_level ss;
     dissolved_oxygen := dissolved_oxygen ss;
     aquatic_health := aquatic_health ss;
     history := history ss;
     policies := checkboxes;
     started := true |}.

(** Everything the user can do on the page.  Each event is one run of the
    script (and the re-run it asks for); every run writes the check-boxes
    into the session before it looks at the buttons. *)
Inductive event :=
| Next_Day (c : command)
| Reset_Simulation (checkboxes : Policies)
| Start_Simulation (checkboxes : Policies)
| Widget_Change (checkboxes : Policies).

(** "Start Simulation" is only drawn while [started] is false; on a started
    session [start_simulation] is the plain re-run. *)
Definition click (e : event) (ss : session_state) : session_state :=
  match e with
  | Next_Day c => advance c ss
  | Reset_Simulation p => reset p ss
  | Start_Simulation p => start_simulation p ss
  | Widget_Change p => set_policies p ss
  end.

Definition valid_event (e : event) : Prop :=
  match e with
  | Next_Day c => valid_command c
  | _ => True
  end.

Fixpoint session (es : list event) (ss : session_state) : session_state :=
  match es with
  | [] => ss
  | e :: es' => session es' (click e ss)
  end.

(** The states in which the script gets past the welcome page (line 174)
    and computes the dashboard: those of a session from a fresh store in
    which "Start Simulation" was clicked. *)
Definition dashboard_shown (ss : session_state) : Prop :=
  exists es, Forall valid_event es /\
             ss = session es initial_session_state /\ started ss = true.

(** ** Final report (lines 179-202) *)

Record report := mkReport {
  grade : string;
  desc : string;
  avg_health : float;
  final_pollution : float
}.

(** Lines 187-202: the grade ladder. *)
Definition grade_of (avg_health final_pollution : float) : string * string :=
  if (90 <? avg_health) && (final_pollution <? 5) then
    ("A+", "Environmental Champion! You've successfully restored the ecosystem.")%string
  else if 70 <? avg_health then
    ("B", "Sustainable Manager. The river is healthy, but there's room for improvement.")%string
  else if 40 <? avg_health then
    ("C", "Warning: Critical Stress. The ecosystem is struggling to survive.")%string
  else
    ("F", "Ecological Collapse. Immediate intervention was failed.")%string.

Section Report.

(** [np.mean] belongs to numpy; the report is stated for any
    implementation of it. *)
Variable np_mean : list float -> float.

(** Lines 152-174 and 179-202: until "Start Simulation" was clicked the
    script ends at [st.stop()] (line 174) and computes no report; after
    that the report exists once the campaign is over. *)
Definition final_report (ss : session_state) : option report :=
  if negb (started ss) then None
  else if (30 <=? day ss)%Z then
    let avg_health := np_mean (Health (history ss)) in
    let final_pollution := pollution_level ss in
    let '(grade, desc) := grade_of avg_health final_pollution in
    Some {| grade := grade; desc := desc; avg_health := avg_health;
            final_pollution := final_pollution |}
  else None.

End Report.

(** ** The transition as section 4.1 of the specification words it

    [max] and [clip] of the specification are the Python and numpy
    functions of the same name. *)

Module Spec.

Definition dailyPollution (factoryInput farmInput : Z)
           (TreatmentPlant Regulation : bool) : float :=
  let base := Py.float_of_int factoryInput * 1.5
              + Py.float_of_int farmInput * 1.0 in
  let afterTreatment := if TreatmentPlant then base * 0.3 else base in
  if Regulation then afterTreatment * 0.6 else afterTreatment.

Definition decayBooster (CleanupDrive : bool) : float :=
  if CleanupDrive then 2.5 else 1.0.

Definition netPollution (dailyPollution : float) (CleanupDrive : bool) : float :=
  dailyPollution - 2.0 * decayBooster CleanupDrive.

Definition pollutionLevel' (pollutionLevel netPollution : float) : float :=
  Py.max 0 (pollutionLevel + netPollution).

Definition targetDO (pollutionLevel' : float) : float :=
  Py.max 0.5 (8.0 - pollutionLevel' * 0.15).

Definition dissolvedOxygen' (dissolvedOxygen targetDO : float) : float :=
  dissolvedOxygen + (targetDO - dissolvedOxygen) * 0.4.

(** The three branches, each applied to the running total. *)
Definition oxygenPenalty (DO' acc : float) : float :=
  if DO' <? 6.0 then acc - (6.0 - DO') * 2.5 else acc.

Definition toxicityPenalty (pollutionLevel' acc : float) : float :=
  if 20 <? pollutionLevel' then acc - (pollutionLevel' - 20) * 0.5 else acc.

Definition recovery (DO' pollutionLevel' : float) (CleanupDrive : bool)
           (acc : float) : float :=
  if (6.0 <? DO') && (pollutionLevel' <? 20)
  then acc + (if CleanupDrive then 3.0 + 5.0 else 3.0)
  else acc.

Definition healthImpact (DO' pollutionLevel' : float) (CleanupDrive : bool)
  : float :=
  recovery DO' pollutionLevel' CleanupDrive
    (toxicityPenalty pollutionLevel' (oxygenPenalty DO' 0)).

Definition aquaticHealth' (aquaticHealth healthImpact : float) : float :=
  Py.np_clip (aquaticHealth + healthImpact) 0 100.

End Spec.

(** ** Reading binary64 numbers

    The invariants of the simulation are stated on the exact value of a
    float.  Every finite binary64 number is an integer multiple of
    [2 ^ -1074]; [SFval] is that integer. *)

#[local] Open Scope Z_scope.

Definition SFfin (z : spec_float) : bool :=
  match z with
  | S754_zero _ | S754_finite _ _ _ => true
  | _ => false
  end.

Definition SFval (z : spec_float) : Z :=
  match z with
  | S754_finite s m e => cond_Zopp s (Zpos m) * 2 ^ (e + 1074)
  | _ => 0
  end.

(** The magnitude of a finite number in units of [2 ^ -O]. *)
Definition mag (O : Z) (z : spec_float) : Z :=
  match z with
  | S754_finite _ m e => Zpos m * 2 ^ (e + O)
  | _ => 0
  end.

Definition sign_is (s : bool) (z : spec_float) : Prop :=
  match z with
  | S754_zero s' | S754_infinity s' => s' = s
  | S754_finite s' _ e => s' = s /\ -1074 <= e
  | S754_nan => False
  end.

(** Format numbers: a mantissa below [2 ^ 53] at an exponent of the format. *)
Definition fmt (mr er : Z) : Prop := 0 <= mr < 2 ^ 53 /\ -1074 <= er <= 971.

Definition in_format (v : Z) : Prop :=
  exists mr er, fmt mr er /\
    (v = mr * 2 ^ (er + 1074) \/ v = - (mr * 2 ^ (er + 1074))).

(** What [n] right shifts of [SpecFloat.shr_1] keep of the original
    mantissa [orig]: its quotient by [2 ^ k], and whether bits were lost. *)
Definition shr_rel (orig k : Z) (r : shr_record) : Prop :=
  0 <= shr_m r /\
  shr_m r * 2 ^ k <= orig < (shr_m r + 1) * 2 ^ k /\
  (orb (shr_r r) (shr_s r) = true -> shr_m r * 2 ^ k < orig).

Definition fin (a : float) : Prop := SFfin (Prim2SF a) = true.

Definition val (a : float) : Z := SFval (Prim2SF a).

(** The common unit of the constants of the script: [ONE] is the value of
    [1.0], and every literal is a multiple of [u]. *)
Definition u : Z := 2 ^ 1019.

Definition ONE : Z := 2 ^ 55 * u.

(** [a] is finite and at most [n] in absolute value. *)
Definition bnd (n : Z) (a : float) : Prop :=
  fin a /\ - (n * ONE) <= val a <= n * ONE.

(** ** Invariant of a campaign

    Within the thirty days pollution is finite and non-negative, dissolved
    oxygen is finite and at least [0.5], and health is within [0, 100]. *)
Definition campaign_inv (ss : session_state) : Prop :=
  1 <= day ss <= 30 /\
  (fin (pollution_level ss) /\
   0 <= val (pollution_level ss) <= (10 + 25 * (day ss - 1)) * ONE) /\
  (fin (dissolved_oxygen ss) /\
   ONE <= 2 * val (dissolved_oxygen ss) /\
   val (dissolved_oxygen ss) <= 8 * day ss * ONE) /\
  (fin (aquatic_health ss) /\ 0 <= val (aquatic_health ss) <= 100 * ONE).

(** The four history columns have [n] entries. *)
Definition history_length (h : History) (n : nat) : Prop :=
  List.length (Day h) = n /\ List.length (Pollution h) = n /\
  List.length (Oxygen h) = n /\ List.length (Health h) = n.

(** Every position of the sliders and of the check-boxes. *)
Definition slider_values : list Z := [0; 1; 2; 3; 4; 5; 6; 7; 8; 9; 10].

Definition all_policies : list Policies :=
  [ mkPolicies false false false; mkPolicies false false true;
    mkPolicies false true false; mkPolicies false true true;
    mkPolicies true false false; mkPolicies true false true;
    mkPolicies true true false; mkPolicies true true true ].

Definition net_pollution_in_range : bool :=
  forallb (fun f =>
    forallb (fun m =>
      forallb (fun p =>
        ((-5 <=? net_pollution f m p) && (net_pollution f m p <=? 25))%float)
        all_policies)
      slider_values)
    slider_values.

(** The states after each command of a campaign, in order. *)
Fixpoint trajectory (cs : list command) (ss : session_state)
  : list session_state :=
  match cs with
  | [] => []
  | c :: cs' => advance c ss :: trajectory cs' (advance c ss)
  end.

(** The comparisons the claims are read with. *)
Definition oxygen_below_floor (ss : session_state) : bool :=
  (dissolved_oxygen ss <? 0.5)%float.

Definition oxygen_at_least_floor (ss : session_state) : bool :=
  (0.5 <=? dissolved_oxygen ss)%float.

Definition health_in_range (ss : session_state) : bool :=
  ((0 <=? aquatic_health ss) && (aquatic_health ss <=? 100))%float.

Definition pollution_non_negative (ss : session_state) : bool :=
  ((0 <=? pollution_level ss) && negb (pollution_level ss <? 0))%float.

(** A mean computed from left to right, to run the report on examples. *)
Definition mean_left_to_right (l : list float) : float :=
  (fold_left PrimFloat.add l 0 / Py.float_of_int (Z.of_nat (List.length l)))%float.

(** The sample commands of the scenarios. *)
Definition no_policies : Policies := mkPolicies false false false.

Definition scenario_1_command : command := mkCommand 5 3 no_policies.

Definition heavy_discharge : command := mkCommand 10 10 no_policies.

(** ** Dashboard (lines 215-323)

    The values the page derives from the session state before it renders
    them: the water colour, the scum layer, the fish and the bubbles. *)

Module Builtin.

(** The builtin [min(a, b)] on two arguments: it keeps [a] and replaces it
    by [b] only when [b < a]. *)
Definition min (a b : float) : float := (if b <? a then b else a)%float.

(** [int(x)] on a float: truncation towards zero; it raises on a NaN or an
    infinity ([None]). *)
Definition int (a : float) : option Z :=
  match Prim2SF a with
  | S754_zero _ => Some 0
  | S754_finite s m e => Some (cond_Zopp s (Z.shiftl (Zpos m) e))
  | _ => None
  end.

(** [range(n)]. *)
Definition range (n : nat) : list Z := map Z.of_nat (seq 0 n).

End Builtin.

(** Lines 230-232: the water colour in HSL. *)
Definition hue (ss : session_state) : float :=
  Py.max 40 (200 - pollution_level ss * 1.6)%float.

Definition saturation (ss : session_state) : float :=
  Builtin.min 80 (40 + pollution_level ss * 0.4)%float.

Definition lightness (ss : session_state) : float :=
  Py.max 20 (40 - pollution_level ss * 0.2)%float.

(** Line 236. *)
Definition scum_opacity (ss : session_state) : float :=
  Builtin.min 0.8 (pollution_level ss / 100.0)%float.

(** Line 240. *)
Definition fish_count (ss : session_state) : option Z :=
  Builtin.int (aquatic_health ss / 100.0 * 8)%float.

(** Lines 298-305: the eight fish, each drawn with opacity "1" or "0". *)
Definition fish_opacity (fish_count i : Z) : string :=
  if i <? fish_count then "1"%string else "0"%string.

Definition fish_opacities (fish_count : Z) : list string :=
  map (fish_opacity fish_count) (Builtin.range 8).

(** Line 311: the opacity of the oxygen bubbles. *)
Definition bubble_opacity (ss : session_state) : float :=
  Py.max 0 ((dissolved_oxygen ss - 2) / 10)%float.

(** Line 103: the condition of the recovery branch, on the values of the
    day. *)
Definition clean_day (ss : session_state) : bool :=
  ((6.0 <? dissolved_oxygen ss) && (pollution_level ss <? 20))%float.

(** [q] has every policy of [p] switched on, and maybe more. *)
Definition more_policies (p q : Policies) : bool :=
  implb (Treatment_Plant p) (Treatment_Plant q)
  && implb (Regulation p) (Regulation q)
  && implb (Cleanup_Drive p) (Cleanup_Drive q).

(** Checked on every position of the sliders and of the check-boxes: more
    policies never give more net pollution, and without the cleanup drive
    net pollution is at least [-2]. *)
Definition policies_help : bool :=
  forallb (fun f =>
    forallb (fun m =>
      forallb (fun p =>
        ((Cleanup_Drive p || (-2 <=? net_pollution f m p)%float)
         && forallb (fun q =>
              implb (more_policies p q)
                (net_pollution f m q <=? net_pollution f m p)%float)
              all_policies))
        all_policies)
      slider_values)
    slider_values.

(** ** Properties of a state used by the further theorems *)

(** What the log looks like: the days in order, and a last row that is the
    current state. *)
Definition log_matches_state (ss : session_state) : Prop :=
  1 <= day ss /\
  Day (history ss) = map Z.of_nat (seq 1 (Z.to_nat (day ss))) /\
  last (Pollution (history ss)) 0%float = pollution_level ss /\
  last (Oxygen (history ss)) 0%float = dissolved_oxygen ss /\
  last (Health (history ss)) 0%float = aquatic_health ss.

(** Dissolved oxygen is at most its seed value [8.0], the largest target. *)
Definition oxygen_at_most_8 (ss : session_state) : Prop :=
  val (dissolved_oxygen ss) <= 8 * ONE.

(** The grades of the ladder, from worst to best. *)
Definition grade_rank (g : string) : nat :=
  if String.eqb g "A+" then 3
  else if String.eqb g "B" then 2
  else if String.eqb g "C" then 1
  else 0.

(** What the charts plot: every row of the history within the range of its
    column. *)
Definition pollution_row_ok (p : float) : bool := (0 <=? p)%float.

Definition oxygen_row_ok (d : float) : bool :=
  ((0.5 <=? d) && (d <=? 8.0))%float.

Definition health_row_ok (a : float) : bool :=
  ((0 <=? a) && (a <=? 100))%float.

Definition chart_rows_in_range (h : History) : bool :=
  forallb pollution_row_ok (Pollution h)
  && forallb oxygen_row_ok (Oxygen h)
  && forallb health_row_ok (Health h).

(** * Facts about binary64 rounding *)

(** ** Digits and right shifts *)

Lemma digits2_bounds (m : positive) :
  2 ^ (Zpos (digits2_pos m) - 1) <= Zpos m < 2 ^ Zpos (digits2_pos m).
Proof.
  induction m as [m IH|m IH|]; cbn [digits2_pos].
  - rewrite Pos2Z.inj_succ.
    replace (Z.succ (Zpos (digits2_pos m)) - 1) with (Z.succ (Zpos (digits2_pos m) - 1)) by lia.
    rewrite !Z.pow_succ_r by lia. rewrite (Pos2Z.inj_xI m). lia.
  - rewrite Pos2Z.inj_succ.
    replace (Z.succ (Zpos (digits2_pos m)) - 1) with (Z.succ (Zpos (digits2_pos m) - 1)) by lia.
    rewrite !Z.pow_succ_r by lia. rewrite (Pos2Z.inj_xO m). lia.
  - cbv. split; congruence.
Qed.

Lemma shr_1_rel orig k r :
  0 <= k -> shr_rel orig k r -> shr_rel orig (k + 1) (shr_1 r).
Proof.
  intros Hk (Hm & Hb & Hx). destruct r as [m rb sb].
  unfold shr_rel. cbn [shr_m shr_r shr_s] in Hm, Hb, Hx.
  rewrite Z.pow_add_r by lia. change (2 ^ 1) with 2.
  assert (Hp : 0 < 2 ^ k) by (apply Z.pow_pos_nonneg; lia).
  set (X := 2 ^ k) in *. clearbody X.
  destruct m as [|[p|p|]|p]; cbn [shr_1 shr_m shr_r shr_s];
    rewrite ?(Pos2Z.inj_xI p), ?(Pos2Z.inj_xO p) in *.
  all: try lia.
  all: (split; [lia|]); (split; [lia|]).
  all: intros H.
  all: try lia.
  all: destruct (rb || sb); [specialize (Hx eq_refl); lia | discriminate].
Qed.

Lemma iter_pos_shr_rel orig (p : positive) : forall k r,
  0 <= k -> shr_rel orig k r -> shr_rel orig (k + Zpos p) (iter_pos shr_1 p r).
Proof.
  induction p as [p IH|p IH|]; intros k r Hk H; simpl.
  - replace (k + Zpos p~1) with (k + 1 + Zpos p + Zpos p) by lia.
    apply IH; [lia|]. apply IH; [lia|]. now apply shr_1_rel.
  - replace (k + Zpos p~0) with (k + Zpos p + Zpos p) by lia.
    apply IH; [lia|]. now apply IH.
  - now apply shr_1_rel.
Qed.

Lemma fexp_eq e : fexp prec emax e = Z.max (e - 53) (-1074).
Proof. reflexivity. Qed.

Lemma shr_fexp_rel m e :
  0 <= m ->
  exists r,
    shr_fexp prec emax m e loc_Exact
    = (r, e + Z.max (fexp prec emax (Zdigits2 m + e) - e) 0) /\
    shr_rel m (Z.max (fexp prec emax (Zdigits2 m + e) - e) 0) r.
Proof.
  intros Hm. unfold shr_fexp, shr. cbn [shr_record_of_loc].
  assert (H0 : shr_rel m 0 {| shr_m := m; shr_r := false; shr_s := false |}).
  { unfold shr_rel; cbn. repeat split; try lia; try discriminate. }
  destruct (fexp prec emax (Zdigits2 m + e) - e) as [|p|p] eqn:En.
  - eexists; split; [rewrite Z.add_0_r; reflexivity|exact H0].
  - eexists; split.
    + rewrite Z.max_l by lia. reflexivity.
    + rewrite Z.max_l by lia.
      apply (iter_pos_shr_rel m p 0); [lia|exact H0].
  - eexists; split; [rewrite Z.max_r by lia; rewrite Z.add_0_r; reflexivity|].
    rewrite Z.max_r by lia. exact H0.
Qed.

Lemma round_nearest_even_cases r :
  let m1 := shr_m r in
  let m2 := round_nearest_even m1 (loc_of_shr_record r) in
  m2 = m1 \/ (m2 = m1 + 1 /\ orb (shr_r r) (shr_s r) = true).
Proof.
  destruct r as [m [|] [|]]; cbn; try (destruct (Z.even m)); auto.
Qed.

Lemma pow2_pos k : 0 <= k -> 0 < 2 ^ k.
Proof. intros; apply Z.pow_pos_nonneg; lia. Qed.

Lemma pow2_le a b : a <= b -> 0 <= a -> 2 ^ a <= 2 ^ b.
Proof. intros; apply Z.pow_le_mono_r; lia. Qed.

Lemma le_cancel a b c : 0 < c -> a * c <= b * c -> a <= b.
Proof. intros Hc H. now apply Z.mul_le_mono_pos_r in H. Qed.

Lemma lt_cancel a b c : 0 < c -> a * c < b * c -> a < b.
Proof. intros Hc H. now apply Z.mul_lt_mono_pos_r in H. Qed.

(** ** One rounding stage

    A stage shifts a mantissa right until its exponent is the one the format
    gives to a number of that size.  [floor_stage]: a format number below
    the exact value stays below the truncated one.  [ceil_stage]: a format
    number above the exact value stays above the rounded one. *)

Lemma pow2_split3 a b c s :
  0 <= a -> 0 <= b -> 0 <= c -> s = a + b + c -> 2 ^ s = 2 ^ a * 2 ^ b * 2 ^ c.
Proof. intros; subst; rewrite !Z.pow_add_r by lia; ring. Qed.

Lemma pow2_split2 a b s :
  0 <= a -> 0 <= b -> s = a + b -> 2 ^ s = 2 ^ a * 2 ^ b.
Proof. intros; subst; rewrite !Z.pow_add_r by lia; ring. Qed.

Lemma floor_stage m d e n m' mr er O :
  2 ^ (d - 1) <= m < 2 ^ d -> 1 <= d ->
  n = Z.max (fexp prec emax (d + e) - e) 0 ->
  m' * 2 ^ n <= m < (m' + 1) * 2 ^ n ->
  1074 <= O -> 0 <= e + O ->
  fmt mr er ->
  mr * 2 ^ (er + O) <= m * 2 ^ (e + O) ->
  mr * 2 ^ (er + O) <= m' * 2 ^ (e + n + O).
Proof.
  intros Hd Hd1 Hn Hm' HO HeO [Hmr Her] Hle.
  rewrite fexp_eq in Hn.
  assert (HA : 0 < 2 ^ (e + O)) by (apply pow2_pos; lia).
  assert (Hcase : n = 0 \/ (0 < n /\ n = -1074 - e /\ d + e - 53 <= -1074)
                  \/ (0 < n /\ n = d - 53 /\ -1074 <= d + e - 53)) by lia.
  clear Hn. destruct Hcase as [->|[(Hn0 & -> & Hsub)|(Hn0 & -> & Hnorm)]].
  - rewrite Z.add_0_r. change (2 ^ 0) with 1 in Hm'.
    replace m' with m by lia. exact Hle.
  - (* subnormal target exponent: every format number is a multiple *)
    rewrite (pow2_split2 (-1074 - e) (e + O) (e + (-1074 - e) + O)) by lia.
    rewrite (pow2_split3 (er + 1074) (-1074 - e) (e + O) (er + O)) in * by lia.
    set (K := 2 ^ (er + 1074)) in *.
    set (N := 2 ^ (-1074 - e)) in *.
    set (A := 2 ^ (e + O)) in *.
    assert (0 < N) by (apply pow2_pos; lia).
    assert (0 < K) by (apply pow2_pos; lia).
    assert (H1 : mr * K * N <= m) by (apply (le_cancel _ _ A); lia).
    assert (H2 : mr * K < m' + 1) by (apply (lt_cancel _ _ N); lia).
    assert (H3 : mr * K <= m') by lia.
    apply (Z.mul_le_mono_nonneg_r _ _ (N * A)) in H3; [lia|nia].
  - rewrite (pow2_split2 (d - 53) (e + O) (e + (d - 53) + O)) by lia.
    assert (HN : 0 < 2 ^ (d - 53)) by (apply pow2_pos; lia).
    assert (Hm52 : 2 ^ 52 <= m').
    { rewrite (pow2_split2 52 (d - 53) (d - 1)) in Hd by lia.
      set (N := 2 ^ (d - 53)) in *. set (C := 2 ^ 52) in *.
      assert (C < m' + 1) by (apply (lt_cancel _ _ N); lia). lia. }
    destruct (Z_le_gt_dec (d + e - 53) er) as [Hge|Hlt].
    + rewrite (pow2_split3 (er - (d + e - 53)) (d - 53) (e + O) (er + O)) in * by lia.
      set (K := 2 ^ (er - (d + e - 53))) in *.
      set (N := 2 ^ (d - 53)) in *.
      set (A := 2 ^ (e + O)) in *.
      assert (0 < K) by (apply pow2_pos; lia).
      assert (H1 : mr * K * N <= m) by (apply (le_cancel _ _ A); lia).
      assert (H2 : mr * K < m' + 1) by (apply (lt_cancel _ _ N); lia).
      assert (H3 : mr * K <= m') by lia.
      apply (Z.mul_le_mono_nonneg_r _ _ (N * A)) in H3; [lia|nia].
    + assert (H4 : 2 ^ (er + O) * 2 <= 2 ^ (d - 53) * 2 ^ (e + O)).
      { rewrite <- (pow2_split2 (d - 53) (e + O) (d - 53 + (e + O))) by lia.
        change 2 with (2 ^ 1) at 2.
        rewrite <- (pow2_split2 (er + O) 1 (er + O + 1)) by lia.
        apply pow2_le; lia. }
      set (N := 2 ^ (d - 53)) in *.
      set (A := 2 ^ (e + O)) in *.
      set (B := 2 ^ (er + O)) in *.
      assert (0 < B) by (apply pow2_pos; lia).
      change (2 ^ 53) with (2 ^ 52 * 2) in Hmr.
      set (C := 2 ^ 52) in *.
      assert (H1 : mr * B <= C * 2 * B)
        by (apply Z.mul_le_mono_nonneg_r; lia).
      assert (H2 : C * (N * A) <= m' * (N * A))
        by (apply Z.mul_le_mono_nonneg_r; [nia|lia]).
      assert (H3 : C * (B * 2) <= C * (N * A))
        by (apply Z.mul_le_mono_nonneg_l; [subst C; lia|lia]).
      lia.
Qed.

Lemma ceil_stage m d e n m1 m2 mr er O :
  2 ^ (d - 1) <= m < 2 ^ d -> 1 <= d ->
  n = Z.max (fexp prec emax (d + e) - e) 0 ->
  0 <= m1 -> m1 * 2 ^ n <= m ->
  (m2 = m1 \/ (m2 = m1 + 1 /\ m1 * 2 ^ n < m)) ->
  1074 <= O -> 0 <= e + O ->
  fmt mr er ->
  m * 2 ^ (e + O) <= mr * 2 ^ (er + O) ->
  m2 * 2 ^ (e + n + O) <= mr * 2 ^ (er + O).
Proof.
  intros Hd Hd1 Hn Hm1 Hfl Hm2 HO HeO [Hmr Her] Hle.
  rewrite fexp_eq in Hn.
  assert (HA : 0 < 2 ^ (e + O)) by (apply pow2_pos; lia).
  assert (Hcase : n = 0 \/ (0 < n /\ n = -1074 - e /\ d + e - 53 <= -1074)
                  \/ (0 < n /\ n = d - 53 /\ -1074 <= d + e - 53)) by lia.
  clear Hn. destruct Hcase as [->|[(Hn0 & -> & Hsub)|(Hn0 & -> & Hnorm)]].
  - rewrite Z.add_0_r. change (2 ^ 0) with 1 in Hfl, Hm2.
    assert (m2 <= m) by lia.
    apply Z.le_trans with (m * 2 ^ (e + O)); [|exact Hle].
    apply Z.mul_le_mono_nonneg_r; lia.
  - rewrite (pow2_split2 (-1074 - e) (e + O) (e + (-1074 - e) + O)) by lia.
    rewrite (pow2_split3 (er + 1074) (-1074 - e) (e + O) (er + O)) in * by lia.
    set (K := 2 ^ (er + 1074)) in *.
    set (N := 2 ^ (-1074 - e)) in *.
    set (A := 2 ^ (e + O)) in *.
    assert (0 < N) by (apply pow2_pos; lia).
    assert (0 < K) by (apply pow2_pos; lia).
    assert (H1 : m <= mr * K * N) by (apply (le_cancel _ _ A); lia).
    assert (H3 : m2 <= mr * K).
    { destruct Hm2 as [->|[-> Hlt]].
      - apply (le_cancel _ _ N); lia.
      - assert (m1 < mr * K) by (apply (lt_cancel _ _ N); lia). lia. }
    apply (Z.mul_le_mono_nonneg_r _ _ (N * A)) in H3; [lia|nia].
  - rewrite (pow2_split2 (d - 53) (e + O) (e + (d - 53) + O)) by lia.
    assert (HN : 0 < 2 ^ (d - 53)) by (apply pow2_pos; lia).
    destruct (Z_le_gt_dec (d + e - 53) er) as [Hge|Hlt].
    + rewrite (pow2_split3 (er - (d + e - 53)) (d - 53) (e + O) (er + O)) in * by lia.
      set (K := 2 ^ (er - (d + e - 53))) in *.
      set (N := 2 ^ (d - 53)) in *.
      set (A := 2 ^ (e + O)) in *.
      assert (0 < K) by (apply pow2_pos; lia).
      assert (H1 : m <= mr * K * N) by (apply (le_cancel _ _ A); lia).
      assert (H3 : m2 <= mr * K).
      { destruct Hm2 as [->|[-> Hlt]].
        - apply (le_cancel _ _ N); lia.
        - assert (m1 < mr * K) by (apply (lt_cancel _ _ N); lia). lia. }
      apply (Z.mul_le_mono_nonneg_r _ _ (N * A)) in H3; [lia|nia].
    + exfalso.
      assert (H4 : 2 ^ (er + O) * 2 <= 2 ^ (d - 53) * 2 ^ (e + O)).
      { rewrite <- (pow2_split2 (d - 53) (e + O) (d - 53 + (e + O))) by lia.
        change 2 with (2 ^ 1) at 2.
        rewrite <- (pow2_split2 (er + O) 1 (er + O + 1)) by lia.
        apply pow2_le; lia. }
      rewrite (pow2_split2 52 (d - 53) (d - 1)) in Hd by lia.
      set (N := 2 ^ (d - 53)) in *.
      set (A := 2 ^ (e + O)) in *.
      set (B := 2 ^ (er + O)) in *.
      assert (0 < B) by (apply pow2_pos; lia).
      change (2 ^ 53) with (2 ^ 52 * 2) in Hmr.
      set (C := 2 ^ 52) in *.
      assert (H1 : mr * B < C * 2 * B)
        by (apply Z.mul_lt_mono_pos_r; lia).
      assert (H2 : C * N * A <= m * A)
        by (apply Z.mul_le_mono_nonneg_r; lia).
      assert (H3 : C * (B * 2) <= C * (N * A))
        by (apply Z.mul_le_mono_nonneg_l; [subst C; lia|lia]).
      lia.
Qed.

Lemma stage_top m d e n m' :
  2 ^ (d - 1) <= m < 2 ^ d -> 1 <= d ->
  n = Z.max (fexp prec emax (d + e) - e) 0 ->
  m < (m' + 1) * 2 ^ n ->
  e <= fexp prec emax (d + e) ->
  -1074 < e + n ->
  2 ^ 52 <= m'.
Proof.
  intros Hd Hd1 Hn Hm' Hpre Hbig. rewrite fexp_eq in *.
  assert (Hcase : (n = 0 /\ d = 53) \/ (0 < n /\ n = d - 53)) by lia.
  destruct Hcase as [[-> ->]|[Hn0 ->]].
  - change (2 ^ 0) with 1 in Hm'. change (53 - 1) with 52 in Hd. lia.
  - rewrite (pow2_split2 52 (d - 53) (d - 1)) in Hd by lia.
    assert (HN : 0 < 2 ^ (d - 53)) by (apply pow2_pos; lia).
    set (N := 2 ^ (d - 53)) in *. set (C := 2 ^ 52) in *.
    assert (C < m' + 1) by (apply (lt_cancel _ _ N); lia). lia.
Qed.

(** ** Rounding to nearest even, as [SpecFloat] computes it *)

Lemma Zdigits2_pos_bounds m :
  0 < m -> 1 <= Zdigits2 m /\ 2 ^ (Zdigits2 m - 1) <= m < 2 ^ Zdigits2 m.
Proof.
  destruct m as [|p|p]; try lia. intros _. cbn [Zdigits2].
  split; [lia|apply digits2_bounds].
Qed.

Lemma round_aux_spec sx mx ex O :
  1074 <= O -> 0 <= ex + O ->
  ex <= fexp prec emax (Zpos (digits2_pos mx) + ex) ->
  let z := binary_round_aux prec emax sx (Zpos mx) ex loc_Exact in
  sign_is sx z /\
  (forall mr er, fmt mr er ->
     mr * 2 ^ (er + O) <= Zpos mx * 2 ^ (ex + O) ->
     SFfin z = true -> mr * 2 ^ (er + O) <= mag O z) /\
  (forall mr er, fmt mr er ->
     Zpos mx * 2 ^ (ex + O) <= mr * 2 ^ (er + O) ->
     SFfin z = true /\ mag O z <= mr * 2 ^ (er + O)).
Proof.
  intros HO HeO Hpre z. subst z. unfold binary_round_aux.
  destruct (shr_fexp_rel (Zpos mx) ex) as (r1 & E1 & R1); [lia|].
  rewrite E1. cbv beta iota. change (Zdigits2 (Zpos mx)) with (Zpos (digits2_pos mx)) in *.
  set (d := Zpos (digits2_pos mx)) in *.
  set (n1 := Z.max (fexp prec emax (d + ex) - ex) 0) in *.
  assert (Hd := digits2_bounds mx). fold d in Hd.
  assert (Hd1 : 1 <= d) by (subst d; lia).
  destruct R1 as (Hm1 & Hb1 & Hx1).
  pose proof (round_nearest_even_cases r1) as Hr. cbv zeta in Hr.
  set (m1 := shr_m r1) in *.
  set (m2 := round_nearest_even m1 (loc_of_shr_record r1)) in *.
  assert (Hm2c : m2 = m1 \/ (m2 = m1 + 1 /\ m1 * 2 ^ n1 < Zpos mx)).
  { destruct Hr as [Hr|[Hr Hi]]; [now left|right; split; auto]. }
  assert (Hm2 : 0 <= m2) by lia.
  assert (He1 : -1074 <= ex + n1) by (subst n1; rewrite fexp_eq; lia).
  assert (Hn1 : 0 <= n1) by (subst n1; lia).
  destruct (shr_fexp_rel m2 (ex + n1) Hm2) as (r2 & E2 & R2).
  rewrite E2.
  set (n2 := Z.max (fexp prec emax (Zdigits2 m2 + (ex + n1)) - (ex + n1)) 0) in *.
  assert (Hn2 : 0 <= n2) by (subst n2; lia).
  destruct R2 as (Hm3 & Hb2 & _).
  set (m3 := shr_m r2) in *.
  (* what the two stages give for a format number below the exact value *)
  assert (Hfloor : forall mr er, fmt mr er ->
            mr * 2 ^ (er + O) <= Zpos mx * 2 ^ (ex + O) ->
            mr * 2 ^ (er + O) <= m3 * 2 ^ (ex + n1 + n2 + O)).
  { intros mr er Hf Hle.
    assert (H1 : mr * 2 ^ (er + O) <= m1 * 2 ^ (ex + n1 + O)).
    { apply (floor_stage (Zpos mx) d ex n1 m1 mr er O); auto. }
    assert (H2 : mr * 2 ^ (er + O) <= m2 * 2 ^ (ex + n1 + O)).
    { apply Z.le_trans with (1 := H1).
      apply Z.mul_le_mono_nonneg_r; [apply Z.pow_nonneg|]; lia. }
    destruct (Z.eq_dec m2 0) as [Ez|Nz].
    - rewrite Ez in *. assert (m3 = 0).
      { assert (0 < 2 ^ n2) by (apply pow2_pos; lia). nia. }
      lia.
    - destruct (Zdigits2_pos_bounds m2) as [Hd2 Hdb2]; [lia|].
      apply (floor_stage m2 (Zdigits2 m2) (ex + n1) n2 m3 mr er O); auto; lia. }
  assert (Hceil : forall mr er, fmt mr er ->
            Zpos mx * 2 ^ (ex + O) <= mr * 2 ^ (er + O) ->
            m3 * 2 ^ (ex + n1 + n2 + O) <= mr * 2 ^ (er + O)).
  { intros mr er Hf Hle.
    assert (H1 : m2 * 2 ^ (ex + n1 + O) <= mr * 2 ^ (er + O)).
    { apply (ceil_stage (Zpos mx) d ex n1 m1 m2 mr er O); auto; lia. }
    apply Z.le_trans with (2 := H1).
    rewrite (pow2_split2 n2 (ex + n1 + O) (ex + n1 + n2 + O)) by lia.
    assert (0 <= 2 ^ (ex + n1 + O)) by (apply Z.pow_nonneg; lia).
    rewrite Z.mul_assoc. apply Z.mul_le_mono_nonneg_r; lia. }
  assert (Htop : -1074 < ex + n1 + n2 -> 0 < m2 -> 2 ^ 52 <= m3).
  { intros Hbig Hpos.
    destruct (Zdigits2_pos_bounds m2) as [Hd2 Hdb2]; [lia|].
    apply (stage_top m2 (Zdigits2 m2) (ex + n1) n2 m3); auto; try lia.
    rewrite fexp_eq.
    destruct (Z_le_gt_dec (ex + n1) (-1074)); [lia|].
    assert (2 ^ 52 <= m1).
    { apply (stage_top (Zpos mx) d ex n1 m1); auto; lia. }
    assert (52 < Zdigits2 m2).
    { apply (Z.pow_lt_mono_r_iff 2); lia. }
    lia. }
  cbv beta iota. fold m3.
  destruct m3 as [|p3|p3] eqn:Em3; [| |lia].
  - (* the result is a zero *)
    cbn [sign_is SFfin mag]. split; [reflexivity|]. split.
    + intros mr er Hf Hle _. rewrite (Hfloor mr er Hf Hle). lia.
    + intros mr er Hf Hle. split; [reflexivity|].
      destruct Hf as [Hmr _].
      apply Z.mul_nonneg_nonneg; [lia|apply Z.pow_nonneg; lia].
  - destruct (ex + n1 + n2 <=? emax - prec) eqn:Eov.
    + apply Z.leb_le in Eov. cbn [sign_is SFfin mag].
      split; [split; [reflexivity|lia]|]. split.
      * intros mr er Hf Hle _. apply Hfloor; auto.
      * intros mr er Hf Hle. split; [reflexivity|]. apply Hceil; auto.
    + apply Z.leb_gt in Eov. change (emax - prec) with 971 in Eov.
      cbn [sign_is SFfin mag]. split; [reflexivity|]. split.
      * intros mr er Hf Hle Hfin. discriminate.
      * intros mr er Hf Hle. exfalso.
        pose proof (Hceil mr er Hf Hle) as Hc.
        assert (Hp2 : 0 < m2).
        { assert (0 < 2 ^ n2) by (apply pow2_pos; lia). nia. }
        assert (Ht := Htop ltac:(lia) Hp2).
        destruct Hf as [Hmr Her].
        assert (H4 : 2 ^ (er + O) * 2 <= 2 ^ (ex + n1 + n2 + O)).
        { change 2 with (2 ^ 1) at 2.
          rewrite <- (pow2_split2 (er + O) 1 (er + O + 1)) by lia.
          apply pow2_le; lia. }
        set (A := 2 ^ (ex + n1 + n2 + O)) in *.
        set (B := 2 ^ (er + O)) in *.
        assert (0 < B) by (apply pow2_pos; lia).
        change (2 ^ 53) with (2 ^ 52 * 2) in Hmr.
        set (C := 2 ^ 52) in *.
        assert (H1 : mr * B < C * 2 * B)
          by (apply Z.mul_lt_mono_pos_r; lia).
        assert (H2 : C * A <= Zpos p3 * A)
          by (apply Z.mul_le_mono_nonneg_r; lia).
        assert (H3 : C * (B * 2) <= C * A)
          by (apply Z.mul_le_mono_nonneg_l; [subst C; lia|lia]).
        lia.
Qed.

Lemma iter_xO_spec mx (d : positive) :
  Zpos (Pos.iter xO mx d) = Zpos mx * 2 ^ Zpos d /\
  Zpos (digits2_pos (Pos.iter xO mx d)) = Zpos (digits2_pos mx) + Zpos d.
Proof.
  induction d as [|d IH] using Pos.peano_ind.
  - cbn [Pos.iter digits2_pos]. rewrite Pos2Z.inj_succ. split; lia.
  - rewrite Pos.iter_succ. cbn [digits2_pos].
    rewrite !Pos2Z.inj_succ, Z.pow_succ_r by lia.
    rewrite (Pos2Z.inj_xO (Pos.iter xO mx d)). destruct IH as [-> ->].
    split; lia.
Qed.

Lemma shl_align_spec mx ex ex' :
  let me' := shl_align mx ex ex' in
  snd me' = Z.min ex ex' /\
  Zpos (fst me') = Zpos mx * 2 ^ (ex - snd me') /\
  Zpos (digits2_pos (fst me')) = Zpos (digits2_pos mx) + (ex - snd me').
Proof.
  unfold shl_align. destruct (ex' - ex) as [|p|p] eqn:E; cbn [fst snd].
  - rewrite Z.sub_diag. change (2 ^ 0) with 1. lia.
  - rewrite Z.sub_diag. change (2 ^ 0) with 1. lia.
  - destruct (iter_xO_spec mx p) as [H1 H2].
    replace (ex - ex') with (Zpos p) by lia. lia.
Qed.

Lemma round_spec sx mx ex O :
  1074 <= O -> 0 <= ex + O ->
  let z := binary_round prec emax sx mx ex in
  sign_is sx z /\
  (forall mr er, fmt mr er ->
     mr * 2 ^ (er + O) <= Zpos mx * 2 ^ (ex + O) ->
     SFfin z = true -> mr * 2 ^ (er + O) <= mag O z) /\
  (forall mr er, fmt mr er ->
     Zpos mx * 2 ^ (ex + O) <= mr * 2 ^ (er + O) ->
     SFfin z = true /\ mag O z <= mr * 2 ^ (er + O)).
Proof.
  intros HO HeO z. subst z. unfold binary_round.
  pose proof (shl_align_spec mx ex (fexp prec emax (Zpos (digits2_pos mx) + ex)))
    as (Hs & Hm & Hd). cbv zeta in *.
  destruct (shl_align mx ex (fexp prec emax (Zpos (digits2_pos mx) + ex)))
    as [mz ez]. cbn [fst snd] in *.
  assert (Hfe : -1074 <= fexp prec emax (Zpos (digits2_pos mx) + ex))
    by (rewrite fexp_eq; lia).
  assert (HX : Zpos mz * 2 ^ (ez + O) = Zpos mx * 2 ^ (ex + O)).
  { rewrite Hm. rewrite (pow2_split2 (ex - ez) (ez + O) (ex + O)) by lia. ring. }
  rewrite <- HX.
  apply round_aux_spec; try lia.
  rewrite Hd. replace (Zpos (digits2_pos mx) + (ex - ez) + ez)
    with (Zpos (digits2_pos mx) + ex) by lia.
  lia.
Qed.

(** ** Values and format numbers *)

Lemma in_format_opp v : in_format v -> in_format (- v).
Proof.
  intros (mr & er & Hf & [->| ->]); exists mr, er; (split; [exact Hf|]).
  - right. reflexivity.
  - left. lia.
Qed.

Lemma in_format_0 : in_format 0.
Proof. exists 0, 0. split; [split; lia|]. left. reflexivity. Qed.

Lemma bounded_spec m e :
  bounded prec emax m e = true ->
  -1074 <= e <= 971 /\ Zpos m < 2 ^ 53 /\
  Zpos (digits2_pos m) <= 53 /\
  (e = -1074 \/ (Zpos (digits2_pos m) = 53 /\ 2 ^ 52 <= Zpos m)).
Proof.
  unfold bounded, canonical_mantissa. rewrite andb_true_iff, fexp_eq.
  intros [Hc He]. apply Z.eqb_eq in Hc. apply Z.leb_le in He.
  change (emax - prec) with 971 in He.
  pose proof (digits2_bounds m) as Hd.
  assert (Hd53 : Zpos (digits2_pos m) <= 53) by lia.
  repeat split; try lia.
  - apply Z.lt_le_trans with (1 := proj2 Hd). apply pow2_le; lia.
  - destruct (Z.eq_dec e (-1074)); [now left|right].
    assert (E : Zpos (digits2_pos m) = 53) by lia.
    rewrite E in Hd. change (53 - 1) with 52 in Hd. split; [exact E|lia].
Qed.

Lemma SFval_in_format z :
  valid_binary z = true -> in_format (SFval z).
Proof.
  destruct z as [s|s| |s m e]; cbn [SFval valid_binary]; intros Hv;
    try apply in_format_0.
  apply bounded_spec in Hv. exists (Zpos m), e. split; [split; lia|].
  destruct s; cbn [cond_Zopp]; [right|left]; lia.
Qed.

Lemma in_format_int n : Z.abs n < 2 ^ 53 -> in_format (n * 2 ^ 1074).
Proof.
  intros Hn. exists (Z.abs n), 0. split; [split; lia|].
  change (0 + 1074) with 1074. destruct (Z.abs_spec n) as [[_ ->]|[_ ->]]; [left|right]; lia.
Qed.

Lemma mag_shift J z :
  0 <= J ->
  sign_is false z \/ sign_is true z ->
  mag (1074 + J) z = mag 1074 z * 2 ^ J.
Proof.
  intros HJ Hs. destruct z as [s|s| |s m e]; cbn [mag]; try lia.
  assert (-1074 <= e) by (destruct Hs as [[_ H]|[_ H]]; exact H).
  rewrite (pow2_split2 (e + 1074) J (e + (1074 + J))) by lia. ring.
Qed.

Lemma SFval_mag s z :
  sign_is s z -> SFval z = cond_Zopp s (mag 1074 z).
Proof.
  destruct z as [s'|s'| |s' m e]; cbn [sign_is SFval mag];
    try (intros; destruct s; reflexivity).
  intros [-> _]. destruct s; cbn [cond_Zopp]; lia.
Qed.

Lemma mag_nonneg O z : 0 <= mag O z.
Proof.
  destruct z; cbn [mag]; lia.
Qed.

(** From the two one-sided rounding facts to an interval around the exact
    value [cond_Zopp s X], scaled by [2 ^ J]. *)
Lemma round_result_bounds s z X J lo hi :
  0 <= J -> 0 < X ->
  sign_is s z ->
  (forall mr er, fmt mr er ->
     mr * 2 ^ (er + (1074 + J)) <= X ->
     SFfin z = true -> mr * 2 ^ (er + (1074 + J)) <= mag (1074 + J) z) ->
  (forall mr er, fmt mr er ->
     X <= mr * 2 ^ (er + (1074 + J)) ->
     SFfin z = true /\ mag (1074 + J) z <= mr * 2 ^ (er + (1074 + J))) ->
  in_format lo -> in_format hi ->
  lo * 2 ^ J <= cond_Zopp s X <= hi * 2 ^ J ->
  SFfin z = true /\ lo <= SFval z <= hi.
Proof.
  intros HJ HX Hs Hge Hle Hlo Hhi Hb.
  assert (HP : 0 < 2 ^ J) by (apply pow2_pos; lia).
  assert (Hsh : mag (1074 + J) z = mag 1074 z * 2 ^ J).
  { apply mag_shift; auto. destruct s; auto. }
  rewrite (SFval_mag s z Hs).
  pose proof (mag_nonneg 1074 z) as Hm0.
  assert (Hsplit : forall mr er, fmt mr er ->
            mr * 2 ^ (er + (1074 + J)) = mr * 2 ^ (er + 1074) * 2 ^ J).
  { intros mr er [_ He].
    rewrite (pow2_split2 (er + 1074) J (er + (1074 + J))) by lia. ring. }
  (* the bound on the far side of zero gives finiteness *)
  assert (Hup : forall b, in_format b -> X <= b * 2 ^ J ->
            SFfin z = true /\ mag 1074 z <= b).
  { intros b (mr & er & Hf & [->| ->]) Hxb.
    - destruct (Hle mr er Hf) as [Hfin Hmag].
      + rewrite Hsplit by auto. exact Hxb.
      + split; [exact Hfin|]. rewrite Hsh, Hsplit in Hmag by auto.
        now apply (le_cancel _ _ (2 ^ J)).
    - exfalso. destruct Hf as [[Hmr _] [He _]].
      assert (0 <= mr * 2 ^ (er + 1074))
        by (apply Z.mul_nonneg_nonneg; [lia|apply Z.pow_nonneg; lia]).
      nia. }
  assert (Hdown : forall b, in_format b -> b * 2 ^ J <= X ->
            SFfin z = true -> b <= mag 1074 z).
  { intros b (mr & er & Hf & [->| ->]) Hxb Hfin.
    - pose proof (Hge mr er Hf) as Hmag.
      rewrite Hsh, Hsplit in Hmag by auto.
      apply (le_cancel _ _ (2 ^ J)); auto.
    - destruct Hf as [[Hmr _] [He _]].
      assert (0 <= mr * 2 ^ (er + 1074))
        by (apply Z.mul_nonneg_nonneg; [lia|apply Z.pow_nonneg; lia]).
      lia. }
  destruct s; cbn [cond_Zopp] in *.
  - destruct (Hup (- lo)) as [Hfin Hm]; [now apply in_format_opp|lia|].
    split; [exact Hfin|]. split; [lia|].
    pose proof (Hdown (- hi) (in_format_opp _ Hhi)) as Hd.
    assert (- hi <= mag 1074 z) by (apply Hd; [lia|exact Hfin]). lia.
  - destruct (Hup hi) as [Hfin Hm]; [exact Hhi|lia|].
    split; [exact Hfin|]. split; [|lia].
    apply Hdown; auto; lia.
Qed.

(** ** Addition, subtraction and multiplication

    An operation on finite numbers whose exact result lies between two
    format numbers returns a finite number between the same two. *)

Lemma normalize_bounds M ez lo hi :
  -1074 <= ez -> in_format lo -> in_format hi ->
  lo <= M * 2 ^ (ez + 1074) <= hi ->
  let z := binary_normalize prec emax M ez false in
  SFfin z = true /\ lo <= SFval z <= hi.
Proof.
  intros Hez Hlo Hhi Hb z. subst z. unfold binary_normalize.
  assert (HP : 0 < 2 ^ (ez + 1074)) by (apply pow2_pos; lia).
  destruct M as [|p|p].
  - cbn [SFfin SFval]. split; [reflexivity|lia].
  - destruct (round_spec false p ez (1074 + 0)) as (Hs & Hge & Hle); try lia.
    apply (round_result_bounds false _ (Zpos p * 2 ^ (ez + 1074)) 0 lo hi);
      auto; try lia.
    cbn [cond_Zopp]. change (2 ^ 0) with 1. lia.
  - destruct (round_spec true p ez (1074 + 0)) as (Hs & Hge & Hle); try lia.
    apply (round_result_bounds true _ (Zpos p * 2 ^ (ez + 1074)) 0 lo hi);
      auto; try lia.
    cbn [cond_Zopp]. change (2 ^ 0) with 1. lia.
Qed.

Lemma align_val s mx ex ez :
  ez <= ex -> -1074 <= ez ->
  cond_Zopp s (Zpos (fst (shl_align mx ex ez))) * 2 ^ (ez + 1074)
  = cond_Zopp s (Zpos mx) * 2 ^ (ex + 1074).
Proof.
  intros Hle Hez.
  pose proof (shl_align_spec mx ex ez) as (Hs & Hm & _). cbv zeta in *.
  rewrite Hm, Hs, Z.min_r by lia.
  rewrite (pow2_split2 (ex - ez) (ez + 1074) (ex + 1074)) by lia.
  destruct s; cbn [cond_Zopp]; ring.
Qed.

Lemma SFadd_bounds x y lo hi :
  valid_binary x = true -> valid_binary y = true ->
  SFfin x = true -> SFfin y = true ->
  in_format lo -> in_format hi ->
  lo <= SFval x + SFval y <= hi ->
  SFfin (SF64add x y) = true /\ lo <= SFval (SF64add x y) <= hi.
Proof.
  intros Vx Vy Fx Fy Hlo Hhi Hb.
  destruct x as [sx|sx| |sx mx ex]; try discriminate;
    destruct y as [sy|sy| |sy my ey]; try discriminate.
  - cbn [SFval] in Hb. unfold SF64add, SFadd.
    destruct sx, sy; cbn [SFfin SFval]; split; auto; lia.
  - exact (conj Fy Hb).
  - unfold SF64add, SFadd. split; [exact Fx|]. cbn [SFval] in *. lia.
  - apply bounded_spec in Vx, Vy. unfold SF64add, SFadd.
    apply normalize_bounds; auto; [lia|].
    rewrite Z.mul_add_distr_r, !align_val by lia. exact Hb.
Qed.

Lemma SFsub_bounds x y lo hi :
  valid_binary x = true -> valid_binary y = true ->
  SFfin x = true -> SFfin y = true ->
  in_format lo -> in_format hi ->
  lo <= SFval x - SFval y <= hi ->
  SFfin (SF64sub x y) = true /\ lo <= SFval (SF64sub x y) <= hi.
Proof.
  intros Vx Vy Fx Fy Hlo Hhi Hb.
  destruct x as [sx|sx| |sx mx ex]; try discriminate;
    destruct y as [sy|sy| |sy my ey]; try discriminate.
  - cbn [SFval] in Hb. unfold SF64sub, SFsub.
    destruct sx, sy; cbn [SFfin SFval]; split; auto; lia.
  - unfold SF64sub, SFsub. cbn [SFfin SFval] in *. split; [reflexivity|].
    destruct sy; cbn [negb cond_Zopp] in *; lia.
  - unfold SF64sub, SFsub. split; [exact Fx|]. cbn [SFval] in *. lia.
  - apply bounded_spec in Vx, Vy. unfold SF64sub, SFsub.
    apply normalize_bounds; auto; [lia|].
    rewrite Z.mul_sub_distr_r, !align_val by lia. exact Hb.
Qed.

Lemma SFmul_bounds x y lo hi :
  valid_binary x = true -> valid_binary y = true ->
  SFfin x = true -> SFfin y = true ->
  in_format lo -> in_format hi ->
  lo * 2 ^ 1074 <= SFval x * SFval y <= hi * 2 ^ 1074 ->
  SFfin (SF64mul x y) = true /\ lo <= SFval (SF64mul x y) <= hi.
Proof.
  intros Vx Vy Fx Fy Hlo Hhi Hb.
  assert (HU : 0 < 2 ^ 1074) by (apply pow2_pos; lia).
  destruct x as [sx|sx| |sx mx ex]; try discriminate;
    destruct y as [sy|sy| |sy my ey]; try discriminate;
    unfold SF64mul, SFmul.
  1-3: cbn [SFfin SFval] in *; split; [reflexivity|];
       rewrite ?Z.mul_0_l, ?Z.mul_0_r in Hb; nia.
  apply bounded_spec in Vx, Vy.
  destruct Vx as (Hex & Hmx & Hdx & Hcx), Vy as (Hey & Hmy & Hdy & Hcy).
  pose proof (digits2_bounds mx) as Bx.
  pose proof (digits2_bounds my) as By.
  pose proof (digits2_bounds (mx * my)) as Bxy.
  set (dx := Zpos (digits2_pos mx)) in *.
  set (dy := Zpos (digits2_pos my)) in *.
  set (dxy := Zpos (digits2_pos (mx * my))) in *.
  assert (Hdx1 : 1 <= dx) by (subst dx; lia).
  assert (Hdy1 : 1 <= dy) by (subst dy; lia).
  assert (Hdxy : dx + dy - 2 < dxy).
  { apply (Z.pow_lt_mono_r_iff 2); [lia|subst dxy; lia|].
    rewrite (pow2_split2 (dx - 1) (dy - 1) (dx + dy - 2)) by lia.
    rewrite Pos2Z.inj_mul in Bxy.
    assert (0 < 2 ^ (dx - 1)) by (apply pow2_pos; lia).
    assert (0 < 2 ^ (dy - 1)) by (apply pow2_pos; lia).
    apply Z.le_lt_trans with (2 := proj2 Bxy).
    apply Z.mul_le_mono_nonneg; lia. }
  destruct (round_aux_spec (xorb sx sy) (mx * my) (ex + ey) (1074 + 1074))
    as (Hs & Hge & Hle); try lia.
  { fold dxy. rewrite fexp_eq. lia. }
  apply (round_result_bounds (xorb sx sy) _
           (Zpos (mx * my) * 2 ^ (ex + ey + (1074 + 1074))) 1074 lo hi);
    auto; try lia.
  replace (cond_Zopp (xorb sx sy)
             (Zpos (mx * my) * 2 ^ (ex + ey + (1074 + 1074))))
    with (SFval (S754_finite sx mx ex) * SFval (S754_finite sy my ey));
    [exact Hb|].
  cbn [SFval].
  rewrite (pow2_split2 (ex + 1074) (ey + 1074) (ex + ey + (1074 + 1074))) by lia.
  rewrite Pos2Z.inj_mul.
  destruct sx, sy; cbn [xorb cond_Zopp]; ring.
Qed.

(** ** Comparison *)

Lemma canon_lt m1 e1 m2 e2 :
  bounded prec emax m1 e1 = true -> bounded prec emax m2 e2 = true ->
  e1 < e2 ->
  Zpos m1 * 2 ^ (e1 + 1074) < Zpos m2 * 2 ^ (e2 + 1074).
Proof.
  intros H1 H2 Hlt. apply bounded_spec in H1, H2.
  destruct H1 as (He1 & Hm1 & _ & _), H2 as (He2 & _ & _ & [Hc|[_ Hm2]]); [lia|].
  assert (H4 : 2 ^ (e1 + 1074) * 2 <= 2 ^ (e2 + 1074)).
  { change 2 with (2 ^ 1) at 2.
    rewrite <- (pow2_split2 (e1 + 1074) 1 (e1 + 1074 + 1)) by lia.
    apply pow2_le; lia. }
  assert (HA : 0 < 2 ^ (e1 + 1074)) by (apply pow2_pos; lia).
  set (A := 2 ^ (e1 + 1074)) in *. set (B := 2 ^ (e2 + 1074)) in *.
  change (2 ^ 53) with (2 ^ 52 * 2) in Hm1. set (C := 2 ^ 52) in *.
  assert (Zpos m1 * A < C * 2 * A) by (apply Z.mul_lt_mono_pos_r; lia).
  assert (C * B <= Zpos m2 * B) by (apply Z.mul_le_mono_nonneg_r; lia).
  assert (C * (A * 2) <= C * B)
    by (apply Z.mul_le_mono_nonneg_l; [subst C; lia|lia]).
  lia.
Qed.

Lemma SFcompare_val x y :
  valid_binary x = true -> valid_binary y = true ->
  SFfin x = true -> SFfin y = true ->
  SFcompare x y = Some (SFval x ?= SFval y).
Proof.
  intros Vx Vy Fx Fy.
  destruct x as [sx|sx| |sx mx ex]; try discriminate;
    destruct y as [sy|sy| |sy my ey]; try discriminate;
    cbn [SFcompare SFval].
  - reflexivity.
  - assert (0 < Zpos my * 2 ^ (ey + 1074)) by
      (apply bounded_spec in Vy; apply Z.mul_pos_pos; [lia|apply pow2_pos; lia]).
    f_equal. symmetry. destruct sy; cbn [cond_Zopp].
    + apply Z.compare_gt_iff. lia.
    + apply Z.compare_lt_iff. lia.
  - assert (0 < Zpos mx * 2 ^ (ex + 1074)) by
      (apply bounded_spec in Vx; apply Z.mul_pos_pos; [lia|apply pow2_pos; lia]).
    f_equal. symmetry. destruct sx; cbn [cond_Zopp].
    + apply Z.compare_lt_iff. lia.
    + apply Z.compare_gt_iff. lia.
  - cbn [valid_binary] in Vx, Vy.
    pose proof (canon_lt mx ex my ey Vx Vy) as Hlt.
    pose proof (canon_lt my ey mx ex Vy Vx) as Hgt.
    pose proof Vx as Bx. pose proof Vy as By_.
    apply bounded_spec in Bx, By_.
    assert (0 < 2 ^ (ex + 1074)) by (apply pow2_pos; lia).
    assert (0 < 2 ^ (ey + 1074)) by (apply pow2_pos; lia).
    assert (0 < Zpos mx * 2 ^ (ex + 1074)) by (apply Z.mul_pos_pos; lia).
    assert (0 < Zpos my * 2 ^ (ey + 1074)) by (apply Z.mul_pos_pos; lia).
    f_equal. symmetry.
    destruct sx, sy; cbn [cond_Zopp].
    + destruct (Z.compare_spec ex ey) as [E|E|E].
      * subst ey. change (Pos.compare_cont Eq mx my) with (Pos.compare mx my).
        destruct (Pos.compare_spec mx my) as [E'|E'|E']; cbn [CompOpp].
        -- subst. apply Z.compare_eq_iff. reflexivity.
        -- apply Z.compare_gt_iff. apply Pos2Z.pos_lt_pos in E'. nia.
        -- apply Z.compare_lt_iff. apply Pos2Z.pos_lt_pos in E'. nia.
      * apply Z.compare_gt_iff. specialize (Hlt E). lia.
      * apply Z.compare_lt_iff. specialize (Hgt E). lia.
    + apply Z.compare_lt_iff. lia.
    + apply Z.compare_gt_iff. lia.
    + destruct (Z.compare_spec ex ey) as [E|E|E].
      * subst ey. change (Pos.compare_cont Eq mx my) with (Pos.compare mx my).
        destruct (Pos.compare_spec mx my) as [E'|E'|E'].
        -- subst. apply Z.compare_eq_iff. reflexivity.
        -- apply Z.compare_lt_iff. apply Pos2Z.pos_lt_pos in E'. nia.
        -- apply Z.compare_gt_iff. apply Pos2Z.pos_lt_pos in E'. nia.
      * apply Z.compare_lt_iff. specialize (Hlt E). lia.
      * apply Z.compare_gt_iff. specialize (Hgt E). lia.
Qed.

(** ** Primitive floats through their specification *)

Lemma u_pos : 0 < u.
Proof. unfold u. apply pow2_pos. lia. Qed.

Lemma ONE_eq : ONE = 2 ^ 1074.
Proof. reflexivity. Qed.

Lemma val_in_format a : in_format (val a).
Proof. apply SFval_in_format, Prim2SF_valid. Qed.

Lemma in_format_ONE n : Z.abs n < 2 ^ 53 -> in_format (n * ONE).
Proof. rewrite ONE_eq. apply in_format_int. Qed.

Lemma add_bounds a b lo hi :
  fin a -> fin b -> in_format lo -> in_format hi ->
  lo <= val a + val b <= hi ->
  fin (a + b) /\ lo <= val (a + b) <= hi.
Proof.
  unfold fin, val. rewrite FloatAxioms.add_spec. intros.
  apply SFadd_bounds; auto using Prim2SF_valid.
Qed.

Lemma sub_bounds a b lo hi :
  fin a -> fin b -> in_format lo -> in_format hi ->
  lo <= val a - val b <= hi ->
  fin (a - b) /\ lo <= val (a - b) <= hi.
Proof.
  unfold fin, val. rewrite FloatAxioms.sub_spec. intros.
  apply SFsub_bounds; auto using Prim2SF_valid.
Qed.

Lemma mul_bounds a b lo hi :
  fin a -> fin b -> in_format lo -> in_format hi ->
  lo * ONE <= val a * val b <= hi * ONE ->
  fin (a * b) /\ lo <= val (a * b) <= hi.
Proof.
  unfold fin, val. rewrite FloatAxioms.mul_spec, ONE_eq. intros.
  apply SFmul_bounds; auto using Prim2SF_valid.
Qed.

(** Multiplication by a constant whose value is [k * u]. *)
Lemma mul_const_bounds a c k lo hi :
  fin a -> fin c -> val c = k * u -> in_format lo -> in_format hi ->
  lo * 2 ^ 55 <= val a * k <= hi * 2 ^ 55 ->
  fin (a * c) /\ lo <= val (a * c) <= hi.
Proof.
  intros Fa Fc Hc Hlo Hhi Hb. apply mul_bounds; auto.
  rewrite Hc. unfold ONE. pose proof u_pos.
  replace (lo * (2 ^ 55 * u)) with (lo * 2 ^ 55 * u) by ring.
  replace (hi * (2 ^ 55 * u)) with (hi * 2 ^ 55 * u) by ring.
  replace (val a * (k * u)) with (val a * k * u) by ring.
  split; apply Z.mul_le_mono_nonneg_r; lia.
Qed.

Lemma compare_val a b :
  fin a -> fin b ->
  SFcompare (Prim2SF a) (Prim2SF b) = Some (val a ?= val b).
Proof. intros; apply SFcompare_val; auto using Prim2SF_valid. Qed.

Lemma ltb_val a b : fin a -> fin b -> (a <? b)%float = (val a <? val b).
Proof.
  intros Fa Fb. rewrite FloatAxioms.ltb_spec. unfold SFltb.
  rewrite (compare_val a b Fa Fb). unfold Z.ltb.
  destruct (val a ?= val b); reflexivity.
Qed.

Lemma leb_val a b : fin a -> fin b -> (a <=? b)%float = (val a <=? val b).
Proof.
  intros Fa Fb. rewrite FloatAxioms.leb_spec. unfold SFleb.
  rewrite (compare_val a b Fa Fb). unfold Z.leb.
  destruct (val a ?= val b); reflexivity.
Qed.

Lemma is_nan_fin a : fin a -> is_nan a = false.
Proof.
  intros Fa. unfold is_nan. rewrite FloatAxioms.eqb_spec. unfold SFeqb.
  rewrite (compare_val a a Fa Fa), Z.compare_refl. reflexivity.
Qed.

(** A float between two finite floats is finite. *)
Lemma between_fin lo hi a :
  fin lo -> fin hi ->
  (lo <=? a)%float = true -> (a <=? hi)%float = true ->
  fin a /\ val lo <= val a <= val hi.
Proof.
  intros Flo Fhi Hl Hh.
  assert (Fa : fin a).
  { rewrite FloatAxioms.leb_spec in Hl, Hh. unfold fin in *. unfold SFleb in *.
    destruct (Prim2SF a) as [s|s| |s m e]; try reflexivity; exfalso.
    all: destruct (Prim2SF lo) as [[|]|[|]| |[|] ? ?]; try discriminate Flo.
    all: destruct (Prim2SF hi) as [[|]|[|]| |[|] ? ?]; try discriminate Fhi.
    all: try destruct s; cbn in Hl, Hh; discriminate. }
  split; [exact Fa|].
  rewrite leb_val in Hl, Hh by auto. apply Z.leb_le in Hl, Hh. lia.
Qed.

(** * Facts about the simulation step *)

(** ** The literals of the script *)

Lemma val_0 : fin 0 /\ val 0 = 0.
Proof. split; vm_compute; reflexivity. Qed.

Lemma val_0_5 : fin 0.5 /\ 2 * val 0.5 = ONE /\ val 0.5 = 2 ^ 54 * u.
Proof. repeat split; vm_compute; reflexivity. Qed.

Lemma val_8 : fin 8.0 /\ val 8.0 = 8 * ONE.
Proof. split; vm_compute; reflexivity. Qed.

Lemma val_0_15 : fin 0.15 /\ val 0.15 = 5404319552844595 * u.
Proof. split; vm_compute; reflexivity. Qed.

Lemma val_0_4 : fin 0.4 /\ val 0.4 = 14411518807585588 * u.
Proof. split; vm_compute; reflexivity. Qed.

Lemma val_6 : fin 6.0 /\ val 6.0 = 6 * ONE.
Proof. split; vm_compute; reflexivity. Qed.

Lemma val_2_5 : fin 2.5 /\ val 2.5 = 5 * 2 ^ 54 * u.
Proof. split; vm_compute; reflexivity. Qed.

Lemma val_20 : fin 20 /\ val 20 = 20 * ONE.
Proof. split; vm_compute; reflexivity. Qed.

Lemma val_3 : fin 3.0 /\ val 3.0 = 3 * ONE.
Proof. split; vm_compute; reflexivity. Qed.

Lemma val_3_5 : fin (3.0 + 5.0) /\ val (3.0 + 5.0) = 8 * ONE.
Proof. split; vm_compute; reflexivity. Qed.

Lemma val_100 : fin 100 /\ val 100 = 100 * ONE.
Proof. split; vm_compute; reflexivity. Qed.

Lemma val_m5 : fin (-5) /\ val (-5) = -5 * ONE.
Proof. split; vm_compute; reflexivity. Qed.

Lemma val_25 : fin 25 /\ val 25 = 25 * ONE.
Proof. split; vm_compute; reflexivity. Qed.

Lemma val_10 : fin 10.0 /\ val 10.0 = 10 * ONE.
Proof. split; vm_compute; reflexivity. Qed.

Lemma ONE_pos : 0 < ONE.
Proof. unfold ONE. pose proof u_pos. lia. Qed.

(** ** [max], [clip] and magnitude bounds *)

Lemma py_max_val a b :
  fin a -> fin b ->
  fin (Py.max a b) /\ val (Py.max a b) = Z.max (val a) (val b).
Proof.
  intros Fa Fb. unfold Py.max. rewrite (ltb_val a b Fa Fb).
  destruct (Z.ltb_spec (val a) (val b)); split; auto; lia.
Qed.

Lemma np_clip_range x :
  fin x ->
  fin (Py.np_clip x 0 100) /\ 0 <= val (Py.np_clip x 0 100) <= 100 * ONE.
Proof.
  intros Fx. destruct val_0 as [F0 V0], val_100 as [F100 V100].
  pose proof ONE_pos as HO.
  unfold Py.np_clip, Py.np_maximum.
  rewrite (is_nan_fin x Fx), (ltb_val 0 x F0 Fx).
  set (y := if val 0 <? val x then x else 0%float).
  assert (Hy : fin y /\ 0 <= val y).
  { subst y. destruct (Z.ltb_spec (val 0) (val x)); split; auto; lia. }
  destruct Hy as [Fy Vy]. unfold Py.np_minimum.
  rewrite (is_nan_fin y Fy), (ltb_val y 100 Fy F100).
  destruct (Z.ltb_spec (val y) (val 100)); split; auto; lia.
Qed.

Lemma bnd_add n m a b :
  0 <= n -> 0 <= m -> n + m < 2 ^ 53 ->
  bnd n a -> bnd m b -> bnd (n + m) (a + b).
Proof.
  intros Hn Hm Hs [Fa Va] [Fb Vb]. unfold bnd.
  replace (- ((n + m) * ONE)) with ((- (n + m)) * ONE) by ring.
  apply add_bounds; auto; try (apply in_format_ONE; lia); lia.
Qed.

Lemma bnd_sub n m a b :
  0 <= n -> 0 <= m -> n + m < 2 ^ 53 ->
  bnd n a -> bnd m b -> bnd (n + m) (a - b).
Proof.
  intros Hn Hm Hs [Fa Va] [Fb Vb]. unfold bnd.
  replace (- ((n + m) * ONE)) with ((- (n + m)) * ONE) by ring.
  apply sub_bounds; auto; try (apply in_format_ONE; lia); lia.
Qed.

Lemma bnd_mul_const n q a c k :
  0 <= n -> 0 <= q -> n * q < 2 ^ 53 ->
  bnd n a -> fin c -> val c = k * u -> 0 <= k <= q * 2 ^ 55 ->
  bnd (n * q) (a * c).
Proof.
  intros Hn Hq Hs [Fa Va] Fc Vc Hk. unfold bnd.
  replace (- (n * q * ONE)) with ((- (n * q)) * ONE) by ring.
  apply (mul_const_bounds a c k); auto; try (apply in_format_ONE; lia).
  pose proof ONE_pos as HO.
  assert (H1 : - (n * ONE) * k <= val a * k <= n * ONE * k)
    by (split; apply Z.mul_le_mono_nonneg_r; lia).
  assert (H2 : n * ONE * k <= n * ONE * (q * 2 ^ 55))
    by (apply Z.mul_le_mono_nonneg_l; nia).
  lia.
Qed.

Lemma bnd_weaken n m a : n <= m -> bnd n a -> bnd m a.
Proof.
  intros Hnm [Fa Va]. split; [exact Fa|]. pose proof ONE_pos. nia.
Qed.

(** ** Net pollution of a day *)

Lemma net_pollution_in_range_true : net_pollution_in_range = true.
Proof. vm_compute. reflexivity. Qed.

Lemma net_pollution_range f m p :
  0 <= f <= 10 -> 0 <= m <= 10 ->
  fin (net_pollution f m p) /\
  -5 * ONE <= val (net_pollution f m p) <= 25 * ONE.
Proof.
  intros Hf Hm.
  assert (If : In f slider_values) by (unfold slider_values; simpl; lia).
  assert (Im : In m slider_values) by (unfold slider_values; simpl; lia).
  assert (Ip : In p all_policies)
    by (destruct p as [[|] [|] [|]]; simpl; tauto).
  pose proof net_pollution_in_range_true as H. unfold net_pollution_in_range in H.
  rewrite forallb_forall in H. specialize (H f If).
  rewrite forallb_forall in H. specialize (H m Im).
  rewrite forallb_forall in H. specialize (H p Ip).
  apply andb_true_iff in H. destruct H as [H1 H2].
  destruct val_m5 as [Fl Vl], val_25 as [Fh Vh].
  destruct (between_fin (-5) 25 _ Fl Fh H1 H2) as [Fn Vn].
  split; [exact Fn|lia].
Qed.

(** ** One day of the simulation *)

(** Line 83: the new pollution level. *)
Lemma pollution_step p net n :
  0 <= n < 2 ^ 52 ->
  fin p -> 0 <= val p <= n * ONE ->
  fin net -> -5 * ONE <= val net <= 25 * ONE ->
  fin (Py.max 0 (p + net)) /\
  0 <= val (Py.max 0 (p + net)) <= (n + 25) * ONE.
Proof.
  intros Hn Fp Vp Fn Vn. destruct val_0 as [F0 V0].
  destruct (add_bounds p net (-5 * ONE) ((n + 25) * ONE)) as [Fs Vs]; auto;
    try (apply in_format_ONE; lia); [lia|].
  destruct (py_max_val 0 (p + net) F0 Fs) as [Fm Vm].
  split; [exact Fm|]. rewrite Vm, V0. pose proof ONE_pos. nia.
Qed.

(** Line 87: the oxygen target lies in [0.5, 8]. *)
Lemma target_do_range p :
  fin p -> 0 <= val p ->
  fin (target_do p) /\ ONE <= 2 * val (target_do p) /\
  val (target_do p) <= 8 * ONE.
Proof.
  intros Fp Vp.
  destruct val_0_15 as [F15 V15], val_8 as [F8 V8],
    val_0_5 as (F05 & V05 & _).
  destruct (mul_const_bounds p 0.15 5404319552844595 0 (val p))
    as [Fz Vz]; auto using in_format_0, val_in_format; [lia|].
  destruct (sub_bounds 8.0 (p * 0.15) (- val p) (8 * ONE)) as [Fy Vy]; auto.
  { apply in_format_opp, val_in_format. }
  { apply in_format_ONE; lia. }
  { pose proof ONE_pos. lia. }
  unfold target_do. pose proof ONE_pos as HO.
  destruct (py_max_val 0.5 (8.0 - p * 0.15) F05 Fy) as [Fm Vm].
  split; [exact Fm|]. rewrite Vm. lia.
Qed.

(** [a - 0.5] is a binary64 number when [a] is between [0.5] and [2 ^ 52]. *)
Lemma in_format_sub_half a :
  fin a -> ONE <= 2 * val a -> val a < 2 ^ 52 * ONE ->
  in_format (val a - val 0.5).
Proof.
  intros Fa Hlo Hhi. destruct val_0_5 as (_ & V05 & _).
  pose proof ONE_pos as HO. rewrite ONE_eq in *.
  unfold fin, val in *. pose proof (Prim2SF_valid a) as Va.
  destruct (Prim2SF a) as [s|s| |s m e]; cbn [SFval] in *; try lia.
  apply bounded_spec in Va. destruct Va as (He & Hm & _ & Hc).
  assert (HP : 0 < 2 ^ (e + 1074)) by (apply pow2_pos; lia).
  destruct s; cbn [cond_Zopp] in *; [nia|].
  assert (Hneg : e <= -1).
  { destruct (Z_le_gt_dec e (-1)) as [|Hpos]; [assumption|exfalso].
    destruct Hc as [Hc|[_ Hc]]; [lia|].
    assert (2 ^ 1074 <= 2 ^ (e + 1074)) by (apply pow2_le; lia).
    assert (2 ^ 52 * 2 ^ 1074 <= Zpos m * 2 ^ (e + 1074))
      by (apply Z.mul_le_mono_nonneg; lia).
    lia. }
  assert (Hsplit : 2 ^ 1074 = 2 * (2 ^ (-1 - e) * 2 ^ (e + 1074))).
  { rewrite <- (pow2_split2 (-1 - e) (e + 1074) 1073) by lia.
    reflexivity. }
  assert (HQ : 0 < 2 ^ (-1 - e)) by (apply pow2_pos; lia).
  exists (Zpos m - 2 ^ (-1 - e)), e. split.
  - split; [|lia]. split; [|lia].
    assert (2 ^ (-1 - e) * 2 ^ (e + 1074) <= Zpos m * 2 ^ (e + 1074)) by lia.
    apply le_cancel in H; lia.
  - left. lia.
Qed.

(** Line 88: the smoothing step never leaves the interval between the
    floor [0.5] and the largest of its operands. *)
Lemma oxygen_step d t n :
  0 <= n < 2 ^ 51 ->
  fin d -> ONE <= 2 * val d -> val d <= n * ONE ->
  fin t -> ONE <= 2 * val t -> val t <= 8 * ONE ->
  fin (d + (t - d) * 0.4) /\
  ONE <= 2 * val (d + (t - d) * 0.4) /\
  val (d + (t - d) * 0.4) <= (n + 8) * ONE.
Proof.
  intros Hn Fd Ld Ud Ft Lt Ut.
  destruct val_0_4 as [F04 V04], val_0_5 as (F05 & V05 & _).
  pose proof ONE_pos as HO.
  destruct (Z_le_gt_dec (val d) (val t)) as [Hup|Hdown].
  - (* moving up towards the target *)
    destruct (sub_bounds t d 0 (8 * ONE)) as [Fw Vw]; auto;
      try apply in_format_0; try (apply in_format_ONE; lia); [lia|].
    destruct (mul_const_bounds (t - d) 0.4 14411518807585588 0 (8 * ONE))
      as [Fv Vv]; auto;
      try apply in_format_0; try (apply in_format_ONE; lia); [lia|].
    destruct (add_bounds d ((t - d) * 0.4) (val d) ((n + 8) * ONE))
      as [Fr Vr]; auto using val_in_format;
      try (apply in_format_ONE; lia); [lia|].
    split; [exact Fr|]. lia.
  - (* moving down: the step is at most the distance to [0.5] *)
    assert (Hfmt : in_format (val d - val 0.5)).
    { apply in_format_sub_half; auto. nia. }
    destruct (sub_bounds t d (- (val d - val 0.5)) 0) as [Fw Vw]; auto;
      try apply in_format_0; [now apply in_format_opp|lia|].
    destruct (mul_const_bounds (t - d) 0.4 14411518807585588
                (- (val d - val 0.5)) 0) as [Fv Vv]; auto;
      try apply in_format_0; [now apply in_format_opp|lia|].
    destruct (add_bounds d ((t - d) * 0.4) (val 0.5) (val d))
      as [Fr Vr]; auto using val_in_format; [lia|].
    split; [exact Fr|]. lia.
Qed.

(** Lines 92-108: the health impact is a finite number. *)
Lemma health_impact_bnd d p pol :
  bnd 300 d -> bnd 1000 p -> bnd 2000 (health_impact d p pol).
Proof.
  intros Bd Bp.
  destruct val_0 as [F0 V0], val_6 as [F6 V6], val_2_5 as [F25 V25],
    val_20 as [F20 V20], val_0_5 as (F05 & _ & V05), val_3 as [F3 V3],
    val_3_5 as [F35 V35].
  pose proof ONE_pos as HO.
  assert (B0 : bnd 0 0%float) by (split; [exact F0|lia]).
  assert (B6 : bnd 6 6.0%float) by (split; [exact F6|lia]).
  assert (B20 : bnd 20 20%float) by (split; [exact F20|lia]).
  assert (Bo : bnd 918 (0 - (6.0 - d) * 2.5)%float).
  { apply (bnd_weaken (0 + 306 * 3)); [lia|].
    apply bnd_sub; auto; try lia.
    apply (bnd_mul_const 306 3 _ 2.5 (5 * 2 ^ 54)); auto; try lia.
    apply (bnd_weaken (6 + 300)); [lia|]. apply bnd_sub; auto; lia. }
  assert (Bt : bnd 1020 ((p - 20) * 0.5)%float).
  { apply (bnd_weaken (1020 * 1)); [lia|].
    apply (bnd_mul_const 1020 1 _ 0.5 (2 ^ 54)); auto; try lia.
    apply (bnd_weaken (1000 + 20)); [lia|]. apply bnd_sub; auto; lia. }
  assert (Br : bnd 8 (if Cleanup_Drive pol then 3.0 + 5.0 else 3.0)%float).
  { destruct (Cleanup_Drive pol); split; auto; lia. }
  unfold health_impact. cbv zeta.
  set (i1 := (if (d <? 6.0)%float then (0 - (6.0 - d) * 2.5)%float else 0%float)).
  assert (B1 : bnd 918 i1).
  { subst i1. destruct (d <? 6.0)%float; [exact Bo|].
    apply (bnd_weaken 0); [lia|exact B0]. }
  set (i2 := (if (20 <? p)%float then (i1 - (p - 20) * 0.5)%float else i1)).
  assert (B2 : bnd 1938 i2).
  { subst i2. destruct (20 <? p)%float.
    - apply (bnd_weaken (918 + 1020)); [lia|]. apply bnd_sub; auto; lia.
    - apply (bnd_weaken 918); [lia|exact B1]. }
  destruct ((6.0 <? d)%float && (p <? 20)%float).
  - apply (bnd_weaken (1938 + 8)); [lia|]. apply bnd_add; auto; lia.
  - apply (bnd_weaken 1938); [lia|exact B2].
Qed.

(** Line 110: health stays within [0, 100]. *)
Lemma health_step h imp :
  fin h -> 0 <= val h <= 100 * ONE -> bnd 2000 imp ->
  fin (Py.np_clip (h + imp) 0 100) /\
  0 <= val (Py.np_clip (h + imp) 0 100) <= 100 * ONE.
Proof.
  intros Fh Vh Bi. pose proof ONE_pos as HO.
  assert (Bs : bnd (100 + 2000) (h + imp)%float).
  { apply bnd_add; auto; try lia. split; [exact Fh|lia]. }
  apply np_clip_range. exact (proj1 Bs).
Qed.

(** ** The invariant along a campaign *)

Lemma initial_inv : campaign_inv initial_session_state.
Proof.
  destruct val_10 as [F10 V10], val_8 as [F8 V8], val_100 as [F100 V100].
  pose proof ONE_pos as HO. unfold campaign_inv, initial_session_state.
  cbn [day pollution_level dissolved_oxygen aquatic_health].
  repeat split; auto; lia.
Qed.

Lemma run_simulation_step_inv f m ss :
  0 <= f <= 10 -> 0 <= m <= 10 ->
  campaign_inv ss -> day ss < 30 ->
  campaign_inv (run_simulation_step f m ss).
Proof.
  intros Hf Hm (Hday & (Fp & Vp) & (Fd & Ld & Ud) & (Fh & Vh)) Hlt.
  pose proof ONE_pos as HO.
  destruct (net_pollution_range f m (policies ss) Hf Hm) as [Fn Vn].
  destruct (pollution_step (pollution_level ss)
              (net_pollution f m (policies ss)) (10 + 25 * (day ss - 1)))
    as [Fp' Vp']; auto; try lia.
  set (p' := Py.max 0 (pollution_level ss + net_pollution f m (policies ss))) in *.
  destruct (target_do_range p' Fp') as (Ft & Lt & Ut); [lia|].
  destruct (oxygen_step (dissolved_oxygen ss) (target_do p') (8 * day ss))
    as (Fd' & Ld' & Ud'); auto; try lia.
  set (d' := (dissolved_oxygen ss
              + (target_do p' - dissolved_oxygen ss) * 0.4)%float) in *.
  assert (Bi : bnd 2000 (health_impact d' p' (policies ss))).
  { apply health_impact_bnd; split; auto; nia. }
  destruct (health_step (aquatic_health ss) _ Fh Vh Bi) as [Fh' Vh'].
  unfold campaign_inv, run_simulation_step.
  cbn [day pollution_level dissolved_oxygen aquatic_health].
  fold p'. fold d'.
  repeat split; auto; try lia; nia.
Qed.

Lemma set_policies_inv p ss : campaign_inv ss -> campaign_inv (set_policies p ss).
Proof. intros H. exact H. Qed.

Lemma advance_inv c ss :
  valid_command c -> campaign_inv ss -> campaign_inv (advance c ss).
Proof.
  intros [Hf Hm] Hinv. unfold advance, next_day, game_over.
  cbn [day set_policies].
  destruct (Z.leb_spec 30 (day ss)); cbn [negb].
  - apply set_policies_inv, Hinv.
  - apply run_simulation_step_inv; auto.
Qed.

Lemma trajectory_inv cs : forall ss,
  Forall valid_command cs -> campaign_inv ss ->
  Forall campaign_inv (trajectory cs ss).
Proof.
  induction cs as [|c cs IH]; intros ss Hv Hinv; cbn [trajectory].
  - constructor.
  - inversion Hv as [|? ? Hc Hcs]; subst.
    assert (Hn : campaign_inv (advance c ss)) by now apply advance_inv.
    constructor; [exact Hn|]. now apply IH.
Qed.

(** The float comparisons of the claims, read off the invariant. *)
Lemma inv_oxygen_floor ss :
  campaign_inv ss ->
  oxygen_at_least_floor ss = true /\ oxygen_below_floor ss = false.
Proof.
  intros (_ & _ & (Fd & Ld & _) & _). destruct val_0_5 as (F05 & V05 & _).
  unfold oxygen_at_least_floor, oxygen_below_floor.
  rewrite (leb_val _ _ F05 Fd), (ltb_val _ _ Fd F05).
  split; [apply Z.leb_le|apply Z.ltb_ge]; lia.
Qed.

Lemma inv_health_range ss : campaign_inv ss -> health_in_range ss = true.
Proof.
  intros (_ & _ & _ & (Fh & Vh)).
  destruct val_0 as [F0 V0], val_100 as [F100 V100].
  unfold health_in_range.
  rewrite (leb_val _ _ F0 Fh), (leb_val _ _ Fh F100).
  apply andb_true_iff. split; apply Z.leb_le; lia.
Qed.

Lemma inv_pollution_sign ss :
  campaign_inv ss -> pollution_non_negative ss = true.
Proof.
  intros (_ & (Fp & Vp) & _). destruct val_0 as [F0 V0].
  unfold pollution_non_negative.
  rewrite (leb_val _ _ F0 Fp), (ltb_val _ _ Fp F0).
  apply andb_true_iff. split; [apply Z.leb_le; lia|].
  apply negb_true_iff, Z.ltb_ge. lia.
Qed.

(** ** History bookkeeping *)

Lemma advance_history c ss :
  game_over ss = false ->
  let ss' := advance c ss in
  day ss' = day ss + 1 /\
  Day (history ss') = Day (history ss) ++ [day ss'] /\
  Pollution (history ss') = Pollution (history ss) ++ [pollution_level ss'] /\
  Oxygen (history ss') = Oxygen (history ss) ++ [dissolved_oxygen ss'] /\
  Health (history ss') = Health (history ss) ++ [aquatic_health ss'].
Proof.
  intros Hg. unfold advance, next_day.
  replace (game_over (set_policies (checkboxes c) ss)) with false
    by (symmetry; exact Hg).
  cbn. repeat split; reflexivity.
Qed.

Lemma advance_rejected c ss :
  game_over ss = true -> advance c ss = set_policies (checkboxes c) ss.
Proof.
  intros Hg. unfold advance, next_day.
  replace (game_over (set_policies (checkboxes c) ss)) with true
    by (symmetry; exact Hg).
  reflexivity.
Qed.

Lemma advance_log c ss :
  1 <= day ss -> history_length (history ss) (Z.to_nat (day ss)) ->
  1 <= day (advance c ss) /\
  history_length (history (advance c ss)) (Z.to_nat (day (advance c ss))).
Proof.
  intros Hd (H1 & H2 & H3 & H4).
  destruct (game_over ss) eqn:Hg.
  - rewrite (advance_rejected c ss Hg). cbn [day history set_policies].
    split; [exact Hd|]. repeat split; assumption.
  - destruct (advance_history c ss Hg) as (Ed & E1 & E2 & E3 & E4).
    cbv zeta in *. split; [lia|].
    unfold history_length. rewrite E1, E2, E3, E4, !length_app, Ed.
    cbn [List.length]. rewrite H1, H2, H3, H4. repeat split; lia.
Qed.

Lemma campaign_log cs : forall ss,
  1 <= day ss -> history_length (history ss) (Z.to_nat (day ss)) ->
  1 <= day (campaign cs ss) /\
  history_length (history (campaign cs ss)) (Z.to_nat (day (campaign cs ss))).
Proof.
  induction cs as [|c cs IH]; intros ss Hd Hl; cbn [campaign].
  - split; assumption.
  - destruct (advance_log c ss Hd Hl) as [Hd' Hl']. now apply IH.
Qed.

Lemma reachable_log ss :
  reachable ss ->
  1 <= day ss /\ history_length (history ss) (Z.to_nat (day ss)).
Proof.
  intros (cs & _ & ->). apply campaign_log.
  - cbn. lia.
  - repeat split; reflexivity.
Qed.

Lemma campaign_after_end cs : forall ss,
  game_over ss = true ->
  day (campaign cs ss) = day ss /\
  pollution_level (campaign cs ss) = pollution_level ss /\
  dissolved_oxygen (campaign cs ss) = dissolved_oxygen ss /\
  aquatic_health (campaign cs ss) = aquatic_health ss /\
  history (campaign cs ss) = history ss.
Proof.
  induction cs as [|c cs IH]; intros ss Hg; cbn [campaign].
  - repeat split; reflexivity.
  - rewrite (advance_rejected c ss Hg).
    destruct (IH (set_policies (checkboxes c) ss) Hg) as (E1 & E2 & E3 & E4 & E5).
    rewrite E1, E2, E3, E4, E5. repeat split; reflexivity.
Qed.

Lemma set_policies_same ss : set_policies (policies ss) ss = ss.
Proof. destruct ss; reflexivity. Qed.

(** ** Comparisons against the grade thresholds *)

Lemma leb_then_not_ltb a b c :
  fin b -> fin c -> val b <= val c ->
  (a <=? b)%float = true -> (c <? a)%float = false.
Proof.
  intros Fb Fc Hbc Hab.
  rewrite FloatAxioms.leb_spec in Hab. rewrite FloatAxioms.ltb_spec.
  pose proof (compare_val c) as Hc.
  pose proof (fun Fa => leb_val a b Fa Fb) as Hl.
  pose proof (fun Fa => ltb_val c a Fc Fa) as Hr.
  rewrite FloatAxioms.leb_spec in Hl. rewrite FloatAxioms.ltb_spec in Hr.
  unfold fin, val in *. unfold SFleb, SFltb in *.
  destruct (Prim2SF a) as [s|s| |s m e].
  - rewrite Hr by reflexivity. rewrite Hl in Hab by reflexivity.
    apply Z.leb_le in Hab. apply Z.ltb_ge. cbn [SFval] in *. lia.
  - destruct s.
    + destruct (Prim2SF c) as [[|]|[|]| |[|] ? ?]; try discriminate Fc;
        reflexivity.
    + destruct (Prim2SF b) as [[|]|[|]| |[|] ? ?]; try discriminate Fb;
        cbn in Hab; discriminate.
  - destruct (Prim2SF b); cbn in Hab; discriminate.
  - rewrite Hr by reflexivity. rewrite Hl in Hab by reflexivity.
    apply Z.leb_le in Hab. apply Z.ltb_ge. lia.
Qed.

Lemma val_40 : fin 40 /\ val 40 = 40 * ONE.
Proof. split; vm_compute; reflexivity. Qed.

Lemma val_70 : fin 70 /\ val 70 = 70 * ONE.
Proof. split; vm_compute; reflexivity. Qed.

Lemma val_90 : fin 90 /\ val 90 = 90 * ONE.
Proof. split; vm_compute; reflexivity. Qed.

Lemma grade_of_collapse avg fp :
  (avg <=? 40)%float = true -> fst (grade_of avg fp) = "F"%string.
Proof.
  intros H. destruct val_40 as [F40 V40], val_70 as [F70 V70],
    val_90 as [F90 V90]. pose proof ONE_pos as HO.
  unfold grade_of.
  rewrite (leb_then_not_ltb avg 40 90 F40 F90) by (auto; lia).
  rewrite (leb_then_not_ltb avg 40 70 F40 F70) by (auto; lia).
  rewrite (leb_then_not_ltb avg 40 40 F40 F40) by (auto; lia).
  reflexivity.
Qed.

Lemma advance_first_health c ss :
  hd_error (Health (history ss)) = Some 100.0%float ->
  hd_error (Health (history (advance c ss))) = Some 100.0%float.
Proof.
  intros Hs. destruct (game_over ss) eqn:Hg.
  - rewrite (advance_rejected c ss Hg). exact Hs.
  - destruct (advance_history c ss Hg) as (_ & _ & _ & _ & E).
    cbv zeta in E. rewrite E.
    destruct (Health (history ss)); [discriminate|exact Hs].
Qed.

Lemma last_cons_default {A : Type} (l : list A) : forall x d,
  last (x :: l) d = last l x.
Proof.
  induction l as [|y l IH]; intros x d; [reflexivity|].
  change (last (x :: y :: l) d) with (last (y :: l) d).
  rewrite (IH y d), (IH y x). reflexivity.
Qed.

(** ** Whole sessions *)

Lemma reset_seed p ss : reset p ss = set_policies p initial_session_state.
Proof. reflexivity. Qed.

Lemma click_first_health e ss :
  hd_error (Health (history ss)) = Some 100.0%float ->
  hd_error (Health (history (click e ss))) = Some 100.0%float.
Proof.
  intros Hs. destruct e as [c|p|p|p]; cbn [click].
  - now apply advance_first_health.
  - reflexivity.
  - exact Hs.
  - exact Hs.
Qed.

Lemma session_first_health es : forall ss,
  hd_error (Health (history ss)) = Some 100.0%float ->
  hd_error (Health (history (session es ss))) = Some 100.0%float.
Proof.
  induction es as [|e es IH]; intros ss Hs; cbn [session].
  - exact Hs.
  - apply IH. now apply click_first_health.
Qed.

Lemma dashboard_first_health ss :
  dashboard_shown ss -> hd_error (Health (history ss)) = Some 100.0%float.
Proof.
  intros (es & _ & -> & _). apply session_first_health. reflexivity.
Qed.

Lemma click_inv e ss :
  valid_event e -> campaign_inv ss -> campaign_inv (click e ss).
Proof.
  intros Hv Hinv. destruct e as [c|p|p|p]; cbn [click].
  - now apply advance_inv.
  - rewrite reset_seed. apply set_policies_inv, initial_inv.
  - exact Hinv.
  - apply set_policies_inv, Hinv.
Qed.

Lemma session_inv es : forall ss,
  Forall valid_event es -> campaign_inv ss -> campaign_inv (session es ss).
Proof.
  induction es as [|e es IH]; intros ss Hv Hinv; cbn [session].
  - exact Hinv.
  - inversion Hv as [|? ? He Hes]; subst.
    apply IH; [exact Hes|]. now apply click_inv.
Qed.

Lemma dashboard_inv ss : dashboard_shown ss -> campaign_inv ss.
Proof.
  intros (es & Hv & -> & _). apply session_inv; [exact Hv|exact initial_inv].
Qed.

Lemma campaign_started cs : forall ss,
  started (campaign cs ss) = started ss.
Proof.
  induction cs as [|c cs IH]; intros ss; cbn [campaign]; [reflexivity|].
  rewrite IH. unfold advance, next_day.
  destruct (negb (game_over (set_policies (checkboxes c) ss))); reflexivity.
Qed.

Lemma session_next_days cs : forall ss,
  session (map Next_Day cs) ss = campaign cs ss.
Proof.
  induction cs as [|c cs IH]; intros ss; cbn [map session campaign];
    [reflexivity|apply IH].
Qed.

(** A campaign that follows a click on "Start Simulation" on the fresh
    page ends in a state of the dashboard. *)
Lemma dashboard_after_start p cs :
  Forall valid_command cs ->
  dashboard_shown (campaign cs (start_simulation p initial_session_state)).
Proof.
  intros Hv. exists (Start_Simulation p :: map Next_Day cs). split; [|split].
  - constructor; [exact I|]. apply Forall_map.
    apply Forall_impl with (2 := Hv). intros c Hc. exact Hc.
  - cbn [session click]. symmetry. apply session_next_days.
  - apply campaign_started.
Qed.

Ltac valid_commands :=
  repeat (constructor; [unfold valid_command; cbn; lia|]); constructor.

(** * The claims *)

(** C1.  One advance step computes the next state by the algorithm of
    section 4.1: daily pollution [factory * 1.5 + farm * 1.0] scaled by 0.3
    under the treatment plant and by 0.6 under regulation, net pollution
    after the natural recovery [2.0 * (2.5 if cleanup else 1.0)], pollution
    floored at 0, the oxygen target [max(0.5, 8.0 - pollution * 0.15)], the
    smoothing step with factor 0.4, the three independent health branches
    and the clip of health to [0, 100]; the gate in front of the step only
    looks at the day. *)
Theorem run_simulation_step_follows_section_4_1 :
  forall (ss : session_state) (c : command),
    let pol := checkboxes c in
    let ss' :=
      run_simulation_step (factory_val c) (farm_val c) (set_policies pol ss) in
    let dailyPollution :=
      Spec.dailyPollution (factory_val c) (farm_val c)
        (Treatment_Plant pol) (Regulation pol) in
    let netPollution := Spec.netPollution dailyPollution (Cleanup_Drive pol) in
    let pollutionLevel' :=
      Spec.pollutionLevel' (pollution_level ss) netPollution in
    let targetDO := Spec.targetDO pollutionLevel' in
    let dissolvedOxygen' :=
      Spec.dissolvedOxygen' (dissolved_oxygen ss) targetDO in
    let healthImpact :=
      Spec.healthImpact dissolvedOxygen' pollutionLevel' (Cleanup_Drive pol) in
    advance c ss = (if game_over ss then set_policies pol ss else ss') /\
    net_pollution (factory_val c) (farm_val c) pol = netPollution /\
    pollution_level ss' = pollutionLevel' /\
    target_do (pollution_level ss') = targetDO /\
    dissolved_oxygen ss' = dissolvedOxygen' /\
    health_impact (dissolved_oxygen ss') (pollution_level ss') pol
      = healthImpact /\
    aquatic_health ss'
      = Spec.aquaticHealth' (aquatic_health ss) healthImpact /\
    day ss' = day ss + 1.
Proof.
  intros ss [f m [tp rg cd]]. cbv zeta.
  cbn [checkboxes factory_val farm_val Treatment_Plant Regulation Cleanup_Drive].
  split.
  { unfold advance, next_day. cbn [checkboxes factory_val farm_val].
    change (game_over (set_policies (mkPolicies tp rg cd) ss))
      with (game_over ss).
    destruct (game_over ss); reflexivity. }
  assert (Hnet : net_pollution f m (mkPolicies tp rg cd)
                 = Spec.netPollution (Spec.dailyPollution f m tp rg) cd).
  { unfold net_pollution, daily_pollution, Spec.netPollution,
      Spec.dailyPollution, Spec.decayBooster.
    cbn [Treatment_Plant Regulation Cleanup_Drive]. reflexivity. }
  assert (Himp : forall d p, health_impact d p (mkPolicies tp rg cd)
                             = Spec.healthImpact d p cd).
  { intros d p. unfold health_impact, Spec.healthImpact, Spec.recovery,
      Spec.toxicityPenalty, Spec.oxygenPenalty.
    cbn [Cleanup_Drive]. destruct cd; reflexivity. }
  unfold run_simulation_step.
  cbn [pollution_level dissolved_oxygen aquatic_health day policies
       set_policies].
  rewrite !Himp, !Hnet.
  repeat split; reflexivity.
Qed.

(** C2, as stated, fails: no sequence of valid advance calls from the seed
    state brings dissolved oxygen below 0.5.  The second part evaluates the
    worst case, 29 days of full discharge without any policy. *)
Lemma smoothing_never_dips_below_floor :
  ~ (exists cs, Forall valid_command cs /\
       Exists (fun ss => oxygen_below_floor ss = true)
         (trajectory cs initial_session_state)) /\
  map oxygen_below_floor
      (trajectory (repeat heavy_discharge 29) initial_session_state)
  = repeat false 29.
Proof.
  split; [|vm_compute; reflexivity].
  intros (cs & Hv & Hex).
  pose proof (trajectory_inv cs _ Hv initial_inv) as Hall.
  apply Exists_exists in Hex. destruct Hex as (ss & Hin & Hlow).
  rewrite Forall_forall in Hall.
  destruct (inv_oxygen_floor ss (Hall ss Hin)) as [_ Hno].
  congruence.
Qed.

(** C2, amended.  Along every sequence of valid advance calls from the seed
    state dissolved oxygen stays at or above 0.5: the smoothing step moves
    it between its old value and a target that is itself at least 0.5. *)
Theorem oxygen_stays_at_or_above_floor :
  forall cs, Forall valid_command cs ->
    Forall (fun ss => oxygen_at_least_floor ss = true)
      (trajectory cs initial_session_state).
Proof.
  intros cs Hv.
  apply Forall_impl with (2 := trajectory_inv cs _ Hv initial_inv).
  intros ss Hinv. exact (proj1 (inv_oxygen_floor ss Hinv)).
Qed.

Lemma oxygen_stays_at_or_above_floor_witness :
  Forall valid_command [heavy_discharge; heavy_discharge; scenario_1_command] /\
  Forall (fun ss => oxygen_at_least_floor ss = true)
    (trajectory [heavy_discharge; heavy_discharge; scenario_1_command]
       initial_session_state).
Proof.
  assert (H : Forall valid_command
                [heavy_discharge; heavy_discharge; scenario_1_command])
    by valid_commands.
  split; [exact H|]. exact (oxygen_stays_at_or_above_floor _ H).
Defined.

(** C3.  After every step of every sequence of valid advance calls from the
    seed state, aquatic health lies within [0, 100]. *)
Theorem aquatic_health_within_0_100 :
  forall cs, Forall valid_command cs ->
    Forall (fun ss => health_in_range ss = true)
      (trajectory cs initial_session_state).
Proof.
  intros cs Hv.
  apply Forall_impl with (2 := trajectory_inv cs _ Hv initial_inv).
  exact inv_health_range.
Qed.

Lemma aquatic_health_within_0_100_witness :
  Forall valid_command [heavy_discharge; scenario_1_command] /\
  Forall (fun ss => health_in_range ss = true)
    (trajectory [heavy_discharge; scenario_1_command] initial_session_state).
Proof.
  assert (H : Forall valid_command [heavy_discharge; scenario_1_command])
    by valid_commands.
  split; [exact H|]. exact (aquatic_health_within_0_100 _ H).
Defined.

(** C4.  After every step of every sequence of valid advance calls from the
    seed state, the pollution level is not negative. *)
Theorem pollution_level_never_negative :
  forall cs, Forall valid_command cs ->
    Forall (fun ss => pollution_non_negative ss = true)
      (trajectory cs initial_session_state).
Proof.
  intros cs Hv.
  apply Forall_impl with (2 := trajectory_inv cs _ Hv initial_inv).
  exact inv_pollution_sign.
Qed.

Lemma pollution_level_never_negative_witness :
  Forall valid_command [scenario_1_command; heavy_discharge] /\
  Forall (fun ss => pollution_non_negative ss = true)
    (trajectory [scenario_1_command; heavy_discharge] initial_session_state).
Proof.
  assert (H : Forall valid_command [scenario_1_command; heavy_discharge])
    by valid_commands.
  split; [exact H|]. exact (pollution_level_never_negative _ H).
Defined.

(** C5.  In every state reachable from the seed by valid advance calls the
    four history columns have exactly [day] entries (the seed entry of day 1
    included); an accepted advance increases [day] by exactly 1 and appends
    exactly one entry, the new day with the new values; a rejected one
    leaves day and history alone. *)
Theorem history_length_equals_day :
  forall ss, reachable ss ->
    (Z.of_nat (List.length (Day (history ss))) = day ss /\
     Z.of_nat (List.length (Pollution (history ss))) = day ss /\
     Z.of_nat (List.length (Oxygen (history ss))) = day ss /\
     Z.of_nat (List.length (Health (history ss))) = day ss) /\
    (forall c, game_over ss = false ->
       day (advance c ss) = day ss + 1 /\
       Day (history (advance c ss))
         = Day (history ss) ++ [day (advance c ss)] /\
       Pollution (history (advance c ss))
         = Pollution (history ss) ++ [pollution_level (advance c ss)] /\
       Oxygen (history (advance c ss))
         = Oxygen (history ss) ++ [dissolved_oxygen (advance c ss)] /\
       Health (history (advance c ss))
         = Health (history ss) ++ [aquatic_health (advance c ss)]) /\
    (forall c, game_over ss = true ->
       day (advance c ss) = day ss /\ history (advance c ss) = history ss).
Proof.
  intros ss Hr. destruct (reachable_log ss Hr) as (Hd & H1 & H2 & H3 & H4).
  split; [|split].
  - rewrite H1, H2, H3, H4. repeat split; lia.
  - intros c Hg. exact (advance_history c ss Hg).
  - intros c Hg. rewrite (advance_rejected c ss Hg). split; reflexivity.
Qed.

Lemma history_length_equals_day_witness :
  reachable (campaign [scenario_1_command; heavy_discharge]
               initial_session_state) /\
  Z.of_nat (List.length (Health (history
      (campaign [scenario_1_command; heavy_discharge]
         initial_session_state))))
  = day (campaign [scenario_1_command; heavy_discharge]
           initial_session_state).
Proof.
  assert (H : reachable (campaign [scenario_1_command; heavy_discharge]
                           initial_session_state)).
  { exists [scenario_1_command; heavy_discharge].
    split; [valid_commands|reflexivity]. }
  split; [exact H|].
  exact (proj2 (proj2 (proj2 (proj1 (history_length_equals_day _ H))))).
Defined.

(** C6, as stated, fails on the [policies] field: at day 30, reached by 29
    advances without any policy, an advance whose check-box "Build
    Treatment Plant" is checked leaves the five simulation fields as they
    are but switches the treatment plant on. *)
Lemma advance_at_day_30_rewrites_policies :
  let ss := campaign (repeat scenario_1_command 29) initial_session_state in
  let c := mkCommand 5 3 (mkPolicies true false false) in
  (30 <=? day ss) = true /\
  Treatment_Plant (policies ss) = false /\
  Treatment_Plant (policies (advance c ss)) = true /\
  advance c ss <> ss.
Proof.
  cbv zeta. split; [vm_compute; reflexivity|].
  split; [vm_compute; reflexivity|]. split; [vm_compute; reflexivity|].
  intros H. apply (f_equal (fun s => Treatment_Plant (policies s))) in H.
  vm_compute in H. discriminate.
Qed.

(** C6, amended.  From day 30 on an advance does not run the simulation
    step: it only writes the check-boxes of the command into [policies].
    So day, pollution, oxygen, health, history and [started] are unchanged
    by it and by every sequence of further commands, the campaign stays
    over, and the state is unchanged exactly when the check-boxes show the
    stored policies.  The click on "Next Day" alone changes nothing. *)
Theorem advance_rejected_from_day_30 :
  forall ss, 30 <= day ss ->
    (forall f m, next_day f m ss = ss) /\
    (forall c, advance c ss = set_policies (checkboxes c) ss) /\
    (forall c, advance c ss = ss <-> checkboxes c = policies ss) /\
    (forall cs,
       campaign cs ss
       = set_policies (last (map checkboxes cs) (policies ss)) ss /\
       day (campaign cs ss) = day ss /\
       pollution_level (campaign cs ss) = pollution_level ss /\
       dissolved_oxygen (campaign cs ss) = dissolved_oxygen ss /\
       aquatic_health (campaign cs ss) = aquatic_health ss /\
       history (campaign cs ss) = history ss /\
       started (campaign cs ss) = started ss /\
       policies (campaign cs ss) = last (map checkboxes cs) (policies ss) /\
       game_over (campaign cs ss) = true).
Proof.
  intros ss Hd.
  assert (Hg : game_over ss = true) by (apply Z.leb_le; exact Hd).
  split; [|split; [|split]].
  - intros f m. unfold next_day. rewrite Hg. reflexivity.
  - intros c. exact (advance_rejected c ss Hg).
  - intros c. rewrite (advance_rejected c ss Hg). split.
    + intros H. apply (f_equal policies) in H. exact H.
    + intros ->. apply set_policies_same.
  - intros cs.
    assert (E : campaign cs ss
                = set_policies (last (map checkboxes cs) (policies ss)) ss).
    { clear Hd. revert ss Hg.
      induction cs as [|c cs IH]; intros ss Hg; cbn [campaign].
      - cbn [map last]. symmetry. apply set_policies_same.
      - rewrite (advance_rejected c ss Hg).
        rewrite (IH (set_policies (checkboxes c) ss) Hg).
        cbn [map policies set_policies]. rewrite last_cons_default.
        reflexivity. }
    rewrite E. repeat split; try reflexivity. exact Hg.
Qed.

Lemma advance_rejected_from_day_30_witness :
  30 <= day (campaign (repeat scenario_1_command 29) initial_session_state) /\
  advance (mkCommand 5 3 (mkPolicies true false false))
    (campaign (repeat scenario_1_command 29) initial_session_state)
  = set_policies (mkPolicies true false false)
      (campaign (repeat scenario_1_command 29) initial_session_state).
Proof.
  assert (H : 30 <= day (campaign (repeat scenario_1_command 29)
                           initial_session_state))
    by (vm_compute; discriminate).
  split; [exact H|].
  exact (proj1 (proj2 (advance_rejected_from_day_30 _ H))
           (mkCommand 5 3 (mkPolicies true false false))).
Defined.

(** C7.  Once the campaign is over, in a session in which the dashboard is
    shown ("Start Simulation" was clicked), the report takes the mean of
    the whole health column (whose first entry is the day-1 seed value) and
    the current pollution level, and grades by the first matching rule:
    "A+" when the mean is above 90 and the pollution below 5, else "B"
    above 70, else "C" above 40, else "F".  The comparisons are strict: a
    mean of 90.0 is not an "A+", 90.01 with pollution below 5 is, and a
    mean of at most 40 is an "F". *)
Theorem final_report_grade :
  forall (np_mean : list float -> float) (ss : session_state),
    started ss = true -> 30 <= day ss ->
    exists r,
      final_report np_mean ss = Some r /\
      avg_health r = np_mean (Health (history ss)) /\
      final_pollution r = pollution_level ss /\
      grade r =
        (if (90 <? avg_health r)%float && (final_pollution r <? 5)%float
         then "A+"
         else if (70 <? avg_health r)%float then "B"
         else if (40 <? avg_health r)%float then "C"
         else "F")%string /\
      (grade r = "A+"%string <->
       (90 <? avg_health r)%float = true /\
       (final_pollution r <? 5)%float = true) /\
      ((avg_health r <=? 40)%float = true -> grade r = "F"%string) /\
      (dashboard_shown ss ->
       hd_error (Health (history ss)) = Some 100.0%float) /\
      (forall fp, fst (grade_of 90.0 fp) <> "A+"%string) /\
      (forall fp, (fp <? 5)%float = true ->
                  fst (grade_of 90.01 fp) = "A+"%string).
Proof.
  intros np_mean ss Hs Hd. unfold final_report. rewrite Hs. cbn [negb].
  replace (30 <=? day ss) with true by (symmetry; apply Z.leb_le; exact Hd).
  cbv zeta.
  set (avg := np_mean (Health (history ss))).
  set (fp := pollution_level ss).
  pose proof (grade_of_collapse avg fp) as Hcol.
  assert (Hfst : fst (grade_of avg fp) =
            (if (90 <? avg)%float && (fp <? 5)%float then "A+"
             else if (70 <? avg)%float then "B"
             else if (40 <? avg)%float then "C" else "F")%string).
  { unfold grade_of.
    destruct ((90 <? avg)%float && (fp <? 5)%float);
      [|destruct (70 <? avg)%float; [|destruct (40 <? avg)%float]];
      reflexivity. }
  destruct (grade_of avg fp) as [g d] eqn:Eg. cbn [fst] in *.
  eexists. split; [reflexivity|]. cbn [grade avg_health final_pollution].
  split; [reflexivity|]. split; [reflexivity|]. split; [exact Hfst|].
  split; [|split; [exact Hcol|split; [exact (dashboard_first_health ss)|split]]].
  - rewrite Hfst. split.
    + destruct ((90 <? avg)%float) eqn:Ea; destruct ((fp <? 5)%float) eqn:Ef;
        cbn [andb]; auto;
        destruct (70 <? avg)%float; try discriminate;
        destruct (40 <? avg)%float; discriminate.
    + intros [-> ->]. reflexivity.
  - intros fp'. unfold grade_of.
    replace ((90 <? 90.0)%float) with false by (vm_compute; reflexivity).
    replace ((70 <? 90.0)%float) with true by (vm_compute; reflexivity).
    cbn. discriminate.
  - intros fp' Hfp. unfold grade_of. rewrite Hfp.
    replace ((90 <? 90.01)%float) with true by (vm_compute; reflexivity).
    reflexivity.
Qed.

Lemma final_report_grade_witness :
  (started (campaign (repeat heavy_discharge 29)
              (start_simulation no_policies initial_session_state)) = true /\
   30 <= day (campaign (repeat heavy_discharge 29)
                (start_simulation no_policies initial_session_state))) /\
  exists r,
    final_report mean_left_to_right
      (campaign (repeat heavy_discharge 29)
         (start_simulation no_policies initial_session_state)) = Some r /\
    grade r = "F"%string.
Proof.
  assert (H0 : started (campaign (repeat heavy_discharge 29)
                          (start_simulation no_policies
                             initial_session_state)) = true)
    by (vm_compute; reflexivity).
  assert (H : 30 <= day (campaign (repeat heavy_discharge 29)
                           (start_simulation no_policies
                              initial_session_state)))
    by (vm_compute; discriminate).
  split; [split; [exact H0|exact H]|].
  destruct (final_report_grade mean_left_to_right _ H0 H)
    as (r & Hr & _ & _ & _ & _ & Hf & _).
  exists r. split; [exact Hr|]. apply Hf.
  assert (E : Some (avg_health r) = Some 9.8425999999999991%float).
  { change (Some (avg_health r)) with (option_map avg_health (Some r)).
    rewrite <- Hr. vm_compute. reflexivity. }
  injection E as ->. vm_compute. reflexivity.
Defined.



(** C9.  From the seed state, one advance with factory input 5, farm input 3
    and no policy gives pollution 18.5, oxygen target 5.225, dissolved
    oxygen 6.89, health 100 (103 before the clip) and day 2. *)
Theorem scenario_1_values :
  let s := advance scenario_1_command initial_session_state in
  pollution_level s = 18.5%float /\
  target_do (pollution_level s) = 5.225%float /\
  dissolved_oxygen s = 6.89%float /\
  health_impact (dissolved_oxygen s) (pollution_level s) no_policies
    = 3.0%float /\
  (aquatic_health initial_session_state
   + health_impact (dissolved_oxygen s) (pollution_level s) no_policies
   = 103)%float /\
  aquatic_health s = 100%float /\
  day s = 2 /\
  Day (history s) = [1; 2].
Proof. cbv zeta. repeat split; vm_compute; reflexivity. Qed.

(** Scenario 2 of the specification, on top of scenario 1: with treatment
    plant and regulation, full discharge adds 25 * 0.3 * 0.6 - 2.0 = 2.5. *)
Example scenario_2_pollution :
  pollution_level
    (advance (mkCommand 10 10 (mkPolicies true true false))
       (advance scenario_1_command initial_session_state))
  = 21.0%float.
Proof. vm_compute. reflexivity. Qed.

(** * Further properties of the script *)

(** ** The day counter and the history log *)

Lemma advance_day c ss :
  day (advance c ss) = if game_over ss then day ss else day ss + 1.
Proof.
  destruct (game_over ss) eqn:Hg.
  - rewrite (advance_rejected c ss Hg). reflexivity.
  - exact (proj1 (advance_history c ss Hg)).
Qed.

Lemma campaign_day cs : forall ss,
  day ss <= 30 ->
  day (campaign cs ss) = Z.min 30 (day ss + Z.of_nat (List.length cs)).
Proof.
  induction cs as [|c cs IH]; intros ss Hd; cbn [campaign List.length].
  - lia.
  - assert (Hn : day (advance c ss) <= 30 /\
                 Z.min 30 (day (advance c ss) + Z.of_nat (List.length cs))
                 = Z.min 30 (day ss + Z.of_nat (S (List.length cs)))).
    { rewrite advance_day. unfold game_over.
      destruct (Z.leb_spec 30 (day ss)); lia. }
    destruct Hn as [Hle <-]. now apply IH.
Qed.

Lemma advance_log_matches c ss :
  log_matches_state ss -> log_matches_state (advance c ss).
Proof.
  intros (Hd & HD & HP & HO & HH).
  destruct (game_over ss) eqn:Hg.
  - rewrite (advance_rejected c ss Hg). repeat split; assumption.
  - destruct (advance_history c ss Hg) as (Ed & E1 & E2 & E3 & E4).
    cbv zeta in *. unfold log_matches_state.
    rewrite E1, E2, E3, E4, !last_last, HD, Ed.
    repeat split; try lia.
    replace (Z.to_nat (day ss + 1)) with (S (Z.to_nat (day ss))) by lia.
    rewrite seq_S, map_app. cbn [map]. do 2 f_equal. lia.
Qed.

Lemma campaign_log_matches cs : forall ss,
  log_matches_state ss -> log_matches_state (campaign cs ss).
Proof.
  induction cs as [|c cs IH]; intros ss H; cbn [campaign]; auto.
  apply IH. now apply advance_log_matches.
Qed.

(** X1.  Whatever the commands, the day after a campaign from the seed is
    one plus the number of commands, capped at 30, and the campaign is over
    exactly from the 29th command on.  The final report is never computed
    on the welcome page; once "Start Simulation" was clicked, before or
    after the commands, it is computed exactly from the 29th command
    on. *)
Theorem day_counts_commands_up_to_30 :
  forall np_mean cs,
    day (campaign cs initial_session_state)
    = Z.min 30 (1 + Z.of_nat (List.length cs)) /\
    (game_over (campaign cs initial_session_state) = true
     <-> (29 <= List.length cs)%nat) /\
    final_report np_mean (campaign cs initial_session_state) = None /\
    (forall p,
       final_report np_mean
         (campaign cs (start_simulation p initial_session_state)) <> None
       <-> (29 <= List.length cs)%nat) /\
    (forall p,
       final_report np_mean
         (start_simulation p (campaign cs initial_session_state)) <> None
       <-> (29 <= List.length cs)%nat).
Proof.
  intros np_mean cs.
  assert (E : day (campaign cs initial_session_state)
              = Z.min 30 (1 + Z.of_nat (List.length cs))).
  { rewrite campaign_day; [reflexivity|cbn; lia]. }
  assert (R : forall ss, started ss = true ->
            day ss = Z.min 30 (1 + Z.of_nat (List.length cs)) ->
            final_report np_mean ss <> None <-> (29 <= List.length cs)%nat).
  { intros ss Hs Hd. unfold final_report. rewrite Hs, Hd. cbn [negb].
    destruct (Z.leb_spec 30 (Z.min 30 (1 + Z.of_nat (List.length cs))))
      as [Hge|Hlt].
    - split; [lia|]. intros _. destruct (grade_of _ _). discriminate.
    - split; [congruence|lia]. }
  split; [exact E|]. split; [|split; [|split]].
  - unfold game_over. rewrite E. split.
    + intros H. apply Z.leb_le in H. lia.
    + intros H. apply Z.leb_le. lia.
  - unfold final_report. rewrite campaign_started. reflexivity.
  - intros p. apply R.
    + rewrite campaign_started. reflexivity.
    + rewrite campaign_day; [reflexivity|cbn; lia].
  - intros p. apply R; [reflexivity|exact E].
Qed.

(** X2.  After any campaign from the seed the [Day] column of the history is
    1, 2, ..., day without gap or repeat, and the last row of the history is
    the current state: what the charts end on is what the metric cards
    show. *)
Theorem history_ends_on_current_state :
  forall cs,
    let ss := campaign cs initial_session_state in
    Day (history ss) = map Z.of_nat (seq 1 (Z.to_nat (day ss))) /\
    last (Day (history ss)) 0 = day ss /\
    last (Pollution (history ss)) 0%float = pollution_level ss /\
    last (Oxygen (history ss)) 0%float = dissolved_oxygen ss /\
    last (Health (history ss)) 0%float = aquatic_health ss.
Proof.
  intros cs ss.
  assert (H : log_matches_state ss).
  { apply campaign_log_matches. unfold log_matches_state. cbn.
    repeat split; try reflexivity; lia. }
  destruct H as (Hd & HD & HP & HO & HH).
  repeat split; auto. rewrite HD.
  replace (Z.to_nat (day ss)) with (S (Z.to_nat (day ss - 1))) by lia.
  rewrite seq_S, map_app. cbn [map]. rewrite last_last. lia.
Qed.

(** ** Net pollution and the policies *)

Lemma policies_help_true : policies_help = true.
Proof. vm_compute. reflexivity. Qed.

Lemma in_slider_values f : 0 <= f <= 10 -> In f slider_values.
Proof. intros H. unfold slider_values. simpl. lia. Qed.

Lemma in_all_policies p : In p all_policies.
Proof. destruct p as [[|] [|] [|]]; simpl; tauto. Qed.

(** X3.  For every position of the sliders and every choice of policies the
    net pollution of a day is between -5 and 25, and it is at least -2
    unless the cleanup drive is on. *)
Theorem net_pollution_between_minus_5_and_25 :
  forall f m p, 0 <= f <= 10 -> 0 <= m <= 10 ->
    (-5 <=? net_pollution f m p)%float = true /\
    (net_pollution f m p <=? 25)%float = true /\
    (Cleanup_Drive p = false -> (-2 <=? net_pollution f m p)%float = true).
Proof.
  intros f m p Hf Hm.
  pose proof net_pollution_in_range_true as H.
  unfold net_pollution_in_range in H.
  rewrite forallb_forall in H. specialize (H f (in_slider_values f Hf)).
  rewrite forallb_forall in H. specialize (H m (in_slider_values m Hm)).
  rewrite forallb_forall in H. specialize (H p (in_all_policies p)).
  apply andb_true_iff in H. destruct H as [H1 H2].
  split; [exact H1|]. split; [exact H2|]. intros Hc.
  pose proof policies_help_true as K. unfold policies_help in K.
  rewrite forallb_forall in K. specialize (K f (in_slider_values f Hf)).
  rewrite forallb_forall in K. specialize (K m (in_slider_values m Hm)).
  rewrite forallb_forall in K. specialize (K p (in_all_policies p)).
  apply andb_true_iff in K. destruct K as [K _].
  rewrite Hc in K. exact K.
Qed.

Lemma net_pollution_between_minus_5_and_25_witness :
  (0 <= 10 <= 10 /\ 0 <= 0 <= 10) /\
  (net_pollution 10 0 (mkPolicies true false true) <=? 25)%float = true.
Proof.
  assert (H1 : 0 <= 10 <= 10) by lia.
  assert (H2 : 0 <= 0 <= 10) by lia.
  split; [split; assumption|].
  exact (proj1 (proj2 (net_pollution_between_minus_5_and_25 10 0
                         (mkPolicies true false true) H1 H2))).
Defined.

(** X4.  Policies never hurt: for every position of the sliders, switching
    on more policies never gives a larger net pollution. *)
Theorem more_policies_never_more_pollution :
  forall f m p q, 0 <= f <= 10 -> 0 <= m <= 10 ->
    more_policies p q = true ->
    (net_pollution f m q <=? net_pollution f m p)%float = true.
Proof.
  intros f m p q Hf Hm Hpq.
  pose proof policies_help_true as K. unfold policies_help in K.
  rewrite forallb_forall in K. specialize (K f (in_slider_values f Hf)).
  rewrite forallb_forall in K. specialize (K m (in_slider_values m Hm)).
  rewrite forallb_forall in K. specialize (K p (in_all_policies p)).
  apply andb_true_iff in K. destruct K as [_ K].
  rewrite forallb_forall in K. specialize (K q (in_all_policies q)).
  rewrite Hpq in K. exact K.
Qed.

Lemma more_policies_never_more_pollution_witness :
  (0 <= 7 <= 10 /\ 0 <= 4 <= 10 /\
   more_policies (mkPolicies false true false)
                 (mkPolicies true true false) = true) /\
  (net_pollution 7 4 (mkPolicies true true false)
   <=? net_pollution 7 4 (mkPolicies false true false))%float = true.
Proof.
  assert (H1 : 0 <= 7 <= 10) by lia.
  assert (H2 : 0 <= 4 <= 10) by lia.
  assert (H3 : more_policies (mkPolicies false true false)
                 (mkPolicies true true false) = true) by reflexivity.
  split; [split; [exact H1|split; [exact H2|exact H3]]|].
  exact (more_policies_never_more_pollution 7 4 _ _ H1 H2 H3).
Defined.

(** ** Health from one day to the next *)

Lemma ltb_asym a b : (a <? b)%float = true -> (b <? a)%float = false.
Proof.
  intros H.
  destruct (SFfin (Prim2SF a)) eqn:Fa, (SFfin (Prim2SF b)) eqn:Fb.
  1: { rewrite ltb_val in * by assumption.
       apply Z.ltb_lt in H. apply Z.ltb_ge. lia. }
  all: rewrite FloatAxioms.ltb_spec in *; unfold SFltb in *.
  all: destruct (Prim2SF a) as [[|]|[|]| |[|] ? ?]; try discriminate Fa.
  all: destruct (Prim2SF b) as [[|]|[|]| |[|] ? ?]; try discriminate Fb.
  all: cbn in *; try reflexivity; discriminate.
Qed.

Lemma np_clip_val x :
  fin x ->
  fin (Py.np_clip x 0 100) /\
  val (Py.np_clip x 0 100) = Z.min (Z.max (val x) 0) (100 * ONE).
Proof.
  intros Fx. destruct val_0 as [F0 V0], val_100 as [F100 V100].
  pose proof ONE_pos as HO.
  unfold Py.np_clip, Py.np_maximum.
  rewrite (is_nan_fin x Fx), (ltb_val 0 x F0 Fx).
  set (y := if val 0 <? val x then x else 0%float).
  assert (Hy : fin y /\ val y = Z.max (val x) 0).
  { subst y. destruct (Z.ltb_spec (val 0) (val x)); split; auto; lia. }
  destruct Hy as [Fy Vy]. unfold Py.np_minimum.
  rewrite (is_nan_fin y Fy), (ltb_val y 100 Fy F100).
  destruct (Z.ltb_spec (val y) (val 100)); split; auto; lia.
Qed.

Lemma health_impact_clean d p pol :
  ((6.0 <? d) && (p <? 20))%float = true ->
  health_impact d p pol = (if Cleanup_Drive pol then 8.0 else 3.0)%float.
Proof.
  intros H. apply andb_true_iff in H. destruct H as [Hd Hp].
  unfold health_impact. cbv zeta.
  rewrite (ltb_asym _ _ Hd), (ltb_asym _ _ Hp), Hd, Hp. cbn [andb].
  destruct (Cleanup_Drive pol); vm_compute; reflexivity.
Qed.

Lemma health_impact_unclean d p pol :
  bnd 300 d -> bnd 1000 p ->
  ((6.0 <? d) && (p <? 20))%float = false ->
  fin (health_impact d p pol) /\
  -2000 * ONE <= val (health_impact d p pol) <= 0.
Proof.
  intros [Fd Vd] [Fp Vp] Hc.
  destruct val_0 as [F0 V0], val_6 as [F6 V6], val_2_5 as [F25 V25],
    val_20 as [F20 V20], val_0_5 as (F05 & _ & V05).
  pose proof ONE_pos as HO.
  unfold health_impact. cbv zeta. rewrite Hc.
  set (i1 := (if (d <? 6.0)%float then (0 - (6.0 - d) * 2.5)%float else 0%float)).
  assert (B1 : fin i1 /\ -1000 * ONE <= val i1 <= 0).
  { subst i1. rewrite (ltb_val d 6.0 Fd F6).
    destruct (Z.ltb_spec (val d) (val 6.0)) as [Hlt|Hge]; [|split; auto; lia].
    destruct (sub_bounds 6.0 d 0 (306 * ONE)) as [Fa Va]; auto;
      try apply in_format_0; try (apply in_format_ONE; lia); [lia|].
    destruct (mul_const_bounds (6.0 - d) 2.5 (5 * 2 ^ 54) 0 (1000 * ONE))
      as [Fb Vb]; auto;
      try apply in_format_0; try (apply in_format_ONE; lia); [lia|].
    apply sub_bounds; auto;
      try apply in_format_0; try (apply in_format_ONE; lia). lia. }
  destruct B1 as [F1 V1].
  rewrite (ltb_val 20 p F20 Fp).
  destruct (Z.ltb_spec (val 20) (val p)) as [Hlt|Hge]; [|split; auto; lia].
  destruct (sub_bounds p 20 0 (1000 * ONE)) as [Fa Va]; auto;
    try apply in_format_0; try (apply in_format_ONE; lia); [lia|].
  destruct (mul_const_bounds (p - 20) 0.5 (2 ^ 54) 0 (1000 * ONE))
    as [Fb Vb]; auto;
    try apply in_format_0; try (apply in_format_ONE; lia); [lia|].
  apply sub_bounds; auto;
    try apply in_format_0; try (apply in_format_ONE; lia). lia.
Qed.

Lemma advance_health c ss :
  game_over ss = false ->
  aquatic_health (advance c ss)
  = Py.np_clip
      (aquatic_health ss
       + health_impact (dissolved_oxygen (advance c ss))
           (pollution_level (advance c ss)) (checkboxes c))%float 0 100.
Proof.
  intros Hg. unfold advance, next_day.
  replace (game_over (set_policies (checkboxes c) ss)) with false
    by (symmetry; exact Hg).
  reflexivity.
Qed.

Lemma campaign_keeps_inv cs : forall ss,
  Forall valid_command cs -> campaign_inv ss -> campaign_inv (campaign cs ss).
Proof.
  induction cs as [|c cs IH]; intros ss Hv Hinv; cbn [campaign].
  - exact Hinv.
  - inversion Hv as [|? ? Hc Hcs]; subst.
    apply IH; [exact Hcs|]. now apply advance_inv.
Qed.

Lemma reachable_campaign_inv ss : reachable ss -> campaign_inv ss.
Proof.
  intros (cs & Hv & ->). apply campaign_keeps_inv; [exact Hv|].
  exact initial_inv.
Qed.

Lemma reachable_initial : reachable initial_session_state.
Proof. exists []. split; [constructor|reflexivity]. Qed.

(** X5.  On a clean day (oxygen above 6.0 and pollution below 20) the health
    impact is exactly the recovery bonus, +3 or +8 with the cleanup drive:
    the two penalty branches cannot fire together with the recovery
    branch.  This holds for all floats, finite or not. *)
Theorem clean_day_impact_is_the_bonus :
  forall d p pol,
    ((6.0 <? d) && (p <? 20))%float = true ->
    health_impact d p pol = (if Cleanup_Drive pol then 8.0 else 3.0)%float /\
    (d <? 6.0)%float = false /\ (20 <? p)%float = false.
Proof.
  intros d p pol H. split; [now apply health_impact_clean|].
  apply andb_true_iff in H. destruct H as [Hd Hp].
  split; now apply ltb_asym.
Qed.

Lemma clean_day_impact_is_the_bonus_witness :
  ((6.0 <? 7.5) && (12.25 <? 20))%float = true /\
  health_impact 7.5 12.25 (mkPolicies false false true) = 8.0%float.
Proof.
  assert (H : ((6.0 <? 7.5) && (12.25 <? 20))%float = true)
    by (vm_compute; reflexivity).
  split; [exact H|].
  exact (proj1 (clean_day_impact_is_the_bonus 7.5 12.25
                  (mkPolicies false false true) H)).
Defined.

(** X6.  In a reachable state an accepted advance moves health up only on a
    clean day and down only on another day: if the day ends with oxygen
    above 6.0 and pollution below 20 health does not fall, otherwise it
    does not rise. *)
Theorem health_rises_only_on_clean_days :
  forall ss c,
    reachable ss -> valid_command c -> game_over ss = false ->
    (clean_day (advance c ss) = true ->
     (aquatic_health ss <=? aquatic_health (advance c ss))%float = true) /\
    (clean_day (advance c ss) = false ->
     (aquatic_health (advance c ss) <=? aquatic_health ss)%float = true).
Proof.
  intros ss c Hr Hv Hg.
  pose proof (reachable_campaign_inv ss Hr) as Hinv.
  pose proof (advance_inv c ss Hv Hinv) as Hinv'.
  destruct Hinv as (Hday & _ & _ & (Fh & Vh)).
  destruct Hinv' as (Hday' & (Fp' & Vp') & (Fd' & Ld' & Ud') & (Fh' & Vh')).
  pose proof ONE_pos as HO.
  rewrite (leb_val _ _ Fh Fh'), (leb_val _ _ Fh' Fh).
  rewrite (advance_health c ss Hg) in *.
  set (d' := dissolved_oxygen (advance c ss)) in *.
  set (p' := pollution_level (advance c ss)) in *.
  unfold clean_day. fold d' p'.
  destruct val_3 as [F3 V3], val_8 as [F8 V8].
  split; intros Hc.
  - rewrite (health_impact_clean d' p' (checkboxes c) Hc) in *.
    set (r := (if Cleanup_Drive (checkboxes c) then 8.0 else 3.0)%float) in *.
    assert (Hr' : fin r /\ 0 <= val r <= 8 * ONE).
    { subst r. destruct (Cleanup_Drive (checkboxes c)); split; auto; lia. }
    destruct Hr' as [Fr Vr].
    destruct (add_bounds (aquatic_health ss) r (val (aquatic_health ss))
                (108 * ONE)) as [Fs Vs]; auto using val_in_format;
      try (apply in_format_ONE; lia); [lia|].
    destruct (np_clip_val _ Fs) as [_ ->]. apply Z.leb_le. lia.
  - destruct (health_impact_unclean d' p' (checkboxes c)) as [Fi Vi]; auto.
    { split; [exact Fd'|nia]. }
    { split; [exact Fp'|nia]. }
    destruct (add_bounds (aquatic_health ss)
                (health_impact d' p' (checkboxes c)) (-2000 * ONE)
                (val (aquatic_health ss))) as [Fs Vs];
      auto using val_in_format; try (apply in_format_ONE; lia); [lia|].
    destruct (np_clip_val _ Fs) as [_ ->]. apply Z.leb_le. lia.
Qed.

Lemma health_rises_only_on_clean_days_witness :
  (reachable initial_session_state /\ valid_command heavy_discharge /\
   game_over initial_session_state = false) /\
  (clean_day (advance heavy_discharge initial_session_state) = false ->
   (aquatic_health (advance heavy_discharge initial_session_state)
    <=? aquatic_health initial_session_state)%float = true).
Proof.
  assert (H1 : reachable initial_session_state) by exact reachable_initial.
  assert (H2 : valid_command heavy_discharge)
    by (unfold valid_command; cbn; lia).
  assert (H3 : game_over initial_session_state = false) by reflexivity.
  split; [split; [exact H1|split; [exact H2|exact H3]]|].
  exact (proj2 (health_rises_only_on_clean_days _ _ H1 H2 H3)).
Defined.

(** ** The water colour *)

Lemma val_200 : fin 200 /\ val 200 = 200 * ONE.
Proof. split; vm_compute; reflexivity. Qed.

Lemma val_80 : fin 80 /\ val 80 = 80 * ONE.
Proof. split; vm_compute; reflexivity. Qed.

Lemma val_60 : fin 60 /\ val 60 = 60 * ONE.
Proof. split; vm_compute; reflexivity. Qed.

Lemma val_1_6 : fin 1.6 /\ val 1.6 = 57646075230342352 * u.
Proof. split; vm_compute; reflexivity. Qed.

Lemma val_0_2 : fin 0.2 /\ val 0.2 = 7205759403792794 * u.
Proof. split; vm_compute; reflexivity. Qed.

Lemma builtin_min_val a b :
  fin a -> fin b ->
  fin (Builtin.min a b) /\ val (Builtin.min a b) = Z.min (val a) (val b).
Proof.
  intros Fa Fb. unfold Builtin.min. rewrite (ltb_val b a Fb Fa).
  destruct (Z.ltb_spec (val b) (val a)); split; auto; lia.
Qed.

Lemma py_max_keeps_first a b :
  fin a -> fin b -> val b <= val a -> Py.max a b = a.
Proof.
  intros Fa Fb H. unfold Py.max. rewrite (ltb_val a b Fa Fb).
  destruct (Z.ltb_spec (val a) (val b)); [lia|reflexivity].
Qed.

Lemma builtin_min_keeps_first a b :
  fin a -> fin b -> val a <= val b -> Builtin.min a b = a.
Proof.
  intros Fa Fb H. unfold Builtin.min. rewrite (ltb_val b a Fb Fa).
  destruct (Z.ltb_spec (val b) (val a)); [lia|reflexivity].
Qed.

(** The terms under [max] and [min], for a finite pollution level between
    [10 * n] and 1000. *)
Lemma hue_term p n :
  fin p -> 0 <= n <= 100 -> 10 * (n * ONE) <= val p <= 1000 * ONE ->
  fin (200 - p * 1.6)%float /\
  val (200 - p * 1.6)%float <= (200 - 16 * n) * ONE.
Proof.
  intros Fp Hn Vp. destruct val_200 as [F200 V200], val_1_6 as [F16 V16].
  pose proof ONE_pos as HO.
  assert (HnO : 0 <= n * ONE) by nia.
  destruct (mul_const_bounds p 1.6 57646075230342352
              (16 * n * ONE) (2000 * ONE))
    as [Fz Vz]; auto; try (apply in_format_ONE; lia); [lia|].
  destruct (sub_bounds 200 (p * 1.6)%float (-1800 * ONE)
              ((200 - 16 * n) * ONE)) as [Fy Vy]; auto;
    try (apply in_format_ONE; lia); [lia|].
  split; [exact Fy|lia].
Qed.

Lemma saturation_term p n :
  fin p -> 0 <= n <= 100 -> 10 * (n * ONE) <= val p <= 1000 * ONE ->
  fin (40 + p * 0.4)%float /\
  (40 + 4 * n) * ONE <= val (40 + p * 0.4)%float.
Proof.
  intros Fp Hn Vp. destruct val_40 as [F40 V40], val_0_4 as [F04 V04].
  pose proof ONE_pos as HO.
  assert (HnO : 0 <= n * ONE) by nia.
  destruct (mul_const_bounds p 0.4 14411518807585588
              (4 * n * ONE) (1000 * ONE))
    as [Fz Vz]; auto; try (apply in_format_ONE; lia); [lia|].
  destruct (add_bounds 40 (p * 0.4)%float ((40 + 4 * n) * ONE)
              (1040 * ONE)) as [Fy Vy]; auto;
    try (apply in_format_ONE; lia); [lia|].
  split; [exact Fy|lia].
Qed.

Lemma lightness_term p n :
  fin p -> 0 <= n <= 100 -> 10 * (n * ONE) <= val p <= 1000 * ONE ->
  fin (40 - p * 0.2)%float /\
  val (40 - p * 0.2)%float <= (40 - 2 * n) * ONE.
Proof.
  intros Fp Hn Vp. destruct val_40 as [F40 V40], val_0_2 as [F02 V02].
  pose proof ONE_pos as HO.
  assert (HnO : 0 <= n * ONE) by nia.
  destruct (mul_const_bounds p 0.2 7205759403792794
              (2 * n * ONE) (1000 * ONE))
    as [Fz Vz]; auto; try (apply in_format_ONE; lia); [lia|].
  destruct (sub_bounds 40 (p * 0.2)%float (-1000 * ONE)
              ((40 - 2 * n) * ONE)) as [Fy Vy]; auto;
    try (apply in_format_ONE; lia); [lia|].
  split; [exact Fy|lia].
Qed.

Lemma dashboard_pollution ss :
  dashboard_shown ss ->
  fin (pollution_level ss) /\ 0 <= val (pollution_level ss) <= 1000 * ONE.
Proof.
  intros Hr. destruct (dashboard_inv ss Hr) as (Hd & (Fp & Vp) & _).
  pose proof ONE_pos. split; [exact Fp|]. nia.
Qed.

Lemma dashboard_started_seed :
  dashboard_shown (start_simulation no_policies initial_session_state).
Proof. apply (dashboard_after_start no_policies []). constructor. Qed.

(** X7.  In every state in which the dashboard is shown the water colour
    is a proper HSL colour: the hue is within [40, 200], the saturation
    within [40, 80], the lightness within [20, 40], and the lighter stop of
    the gradient ([lightness + 20]) within [40, 60]. *)
Theorem water_colour_is_valid_hsl :
  forall ss, dashboard_shown ss ->
    ((40 <=? hue ss) && (hue ss <=? 200))%float = true /\
    ((40 <=? saturation ss) && (saturation ss <=? 80))%float = true /\
    ((20 <=? lightness ss) && (lightness ss <=? 40))%float = true /\
    ((40 <=? lightness ss + 20) && (lightness ss + 20 <=? 60))%float = true.
Proof.
  intros ss Hr. destruct (dashboard_pollution ss Hr) as [Fp Vp].
  destruct val_40 as [F40 V40], val_200 as [F200 V200], val_80 as [F80 V80],
    val_20 as [F20 V20], val_60 as [F60 V60].
  pose proof ONE_pos as HO.
  destruct (hue_term _ 0 Fp) as [Fh Vh]; [lia|lia|].
  destruct (saturation_term _ 0 Fp) as [Fs Vs]; [lia|lia|].
  destruct (lightness_term _ 0 Fp) as [Fl Vl]; [lia|lia|].
  destruct (py_max_val 40 _ F40 Fh) as [Fhue Vhue].
  destruct (builtin_min_val 80 _ F80 Fs) as [Fsat Vsat].
  destruct (py_max_val 20 _ F20 Fl) as [Flig Vlig].
  fold (hue ss) in Fhue, Vhue. fold (saturation ss) in Fsat, Vsat.
  fold (lightness ss) in Flig, Vlig.
  destruct (add_bounds (lightness ss) 20 (40 * ONE) (60 * ONE))
    as [Ftop Vtop]; auto; try (apply in_format_ONE; lia); [lia|].
  rewrite (leb_val _ _ F40 Fhue), (leb_val _ _ Fhue F200),
    (leb_val _ _ F40 Fsat), (leb_val _ _ Fsat F80),
    (leb_val _ _ F20 Flig), (leb_val _ _ Flig F40),
    (leb_val _ _ F40 Ftop), (leb_val _ _ Ftop F60).
  repeat split; apply andb_true_iff; split; apply Z.leb_le; lia.
Qed.

Lemma water_colour_is_valid_hsl_witness :
  dashboard_shown (start_simulation no_policies initial_session_state) /\
  ((40 <=? hue (start_simulation no_policies initial_session_state))
   && (hue (start_simulation no_policies initial_session_state) <=? 200))%float
  = true.
Proof.
  assert (H : dashboard_shown
                (start_simulation no_policies initial_session_state))
    by exact dashboard_started_seed.
  split; [exact H|].
  exact (proj1 (water_colour_is_valid_hsl _ H)).
Defined.

(** X8.  In a state in which the dashboard is shown, from a pollution
    level of 100 on the water has reached the murky end of the scale and
    stays there: hue 40, saturation 80, lightness 20. *)
Theorem water_is_murky_from_100 :
  forall ss, dashboard_shown ss ->
    (100 <=? pollution_level ss)%float = true ->
    hue ss = 40%float /\ saturation ss = 80%float /\
    lightness ss = 20%float.
Proof.
  intros ss Hr H100. destruct (dashboard_pollution ss Hr) as [Fp Vp].
  destruct val_40 as [F40 V40], val_80 as [F80 V80], val_20 as [F20 V20],
    val_100 as [F100 V100].
  pose proof ONE_pos as HO.
  rewrite (leb_val _ _ F100 Fp) in H100. apply Z.leb_le in H100.
  destruct (hue_term _ 10 Fp) as [Fh Vh]; [lia|lia|].
  destruct (saturation_term _ 10 Fp) as [Fs Vs]; [lia|lia|].
  destruct (lightness_term _ 10 Fp) as [Fl Vl]; [lia|lia|].
  unfold hue, saturation, lightness.
  rewrite (py_max_keeps_first 40 _ F40 Fh) by lia.
  rewrite (builtin_min_keeps_first 80 _ F80 Fs) by lia.
  rewrite (py_max_keeps_first 20 _ F20 Fl) by lia.
  repeat split; reflexivity.
Qed.

Lemma water_is_murky_from_100_witness :
  (dashboard_shown
     (campaign (repeat heavy_discharge 4)
        (start_simulation no_policies initial_session_state)) /\
   (100 <=? pollution_level
              (campaign (repeat heavy_discharge 4)
                 (start_simulation no_policies initial_session_state)))%float
   = true) /\
  hue (campaign (repeat heavy_discharge 4)
         (start_simulation no_policies initial_session_state)) = 40%float.
Proof.
  assert (H1 : dashboard_shown
                 (campaign (repeat heavy_discharge 4)
                    (start_simulation no_policies initial_session_state))).
  { apply dashboard_after_start. cbn [repeat]. valid_commands. }
  assert (H2 : (100 <=? pollution_level
                  (campaign (repeat heavy_discharge 4)
                     (start_simulation no_policies
                        initial_session_state)))%float = true)
    by (vm_compute; reflexivity).
  split; [split; [exact H1|exact H2]|].
  exact (proj1 (water_is_murky_from_100 _ H1 H2)).
Defined.

(** ** The smoothing step does not overshoot *)

Lemma in_format_pow2 k : 0 <= k <= 2045 -> in_format (2 ^ k).
Proof.
  intros Hk. exists 1, (k - 1074). split; [split; lia|]. left.
  replace (k - 1074 + 1074) with k by lia. lia.
Qed.

(** A power of two above [X] whose half is still below [X]. *)
Lemma pow2_above X :
  0 < X ->
  exists k, 0 <= k /\ X <= 2 ^ k /\
            ((k = 0 /\ X = 1) \/ (1 <= k /\ 2 ^ (k - 1) < X)).
Proof.
  intros HX. destruct (Z.eq_dec X 1) as [->|Hne].
  - exists 0. split; [lia|]. split; [cbn; lia|]. left. split; reflexivity.
  - assert (H1 : 1 < X) by lia.
    pose proof (Z.log2_up_spec X H1) as Hs.
    pose proof (Z.log2_up_pos X H1) as Hp.
    exists (Z.log2_up X). split; [lia|]. split; [lia|]. right. split; [lia|].
    replace (Z.log2_up X - 1) with (Z.pred (Z.log2_up X)) by lia. lia.
Qed.

Lemma pow2_le_bound X k :
  0 < X -> X <= 2 ^ 2040 -> 1 <= k -> 2 ^ (k - 1) < X -> k <= 2045.
Proof.
  intros HX Hb Hk Hlt.
  destruct (Z_le_gt_dec k 2045) as [|Hgt]; [assumption|exfalso].
  assert (2 ^ 2040 <= 2 ^ (k - 1)) by (apply pow2_le; lia). lia.
Qed.

(** Moving up: [d <= t]. *)
Lemma smoothing_up d t :
  fin d -> fin t -> val d <= val t -> val t - val d <= 2 ^ 2040 ->
  fin (d + (t - d) * 0.4) /\ val d <= val (d + (t - d) * 0.4) <= val t.
Proof.
  intros Fd Ft Hle Hb. destruct val_0_4 as [F04 V04].
  destruct (Z.eq_dec (val t) (val d)) as [E|NE].
  - destruct (sub_bounds t d 0 0) as [Fw Vw]; auto using in_format_0; [lia|].
    destruct (mul_const_bounds (t - d) 0.4 14411518807585588 0 0)
      as [Fv Vv]; auto using in_format_0; [lia|].
    destruct (add_bounds d ((t - d) * 0.4) (val d) (val t)) as [Fr Vr];
      auto using val_in_format; lia.
  - destruct (pow2_above (val t - val d)) as (k & Hk0 & Hup & Hlow); [lia|].
    set (H := if Z.eqb k 0 then 1 else 2 ^ (k - 1)).
    assert (Hk : k <= 2045).
    { destruct Hlow as [[-> _]|[Hk1 Hlt]]; [lia|].
      apply (pow2_le_bound (val t - val d)); auto; lia. }
    assert (HH : in_format H /\ 0 < H <= val t - val d /\ 2 ^ k <= 2 * H).
    { subst H. destruct Hlow as [[-> HX]|[Hk1 Hlt]].
      - cbn. split; [apply (in_format_pow2 0); lia|]. lia.
      - replace (k =? 0) with false by (symmetry; apply Z.eqb_neq; lia).
        split; [apply in_format_pow2; lia|].
        assert (0 < 2 ^ (k - 1)) by (apply pow2_pos; lia).
        split; [lia|].
        rewrite (pow2_split2 (k - 1) 1 k) by lia. change (2 ^ 1) with 2. lia. }
    destruct HH as (FH & HHX & HH2). clearbody H.
    destruct (sub_bounds t d 0 (2 ^ k)) as [Fw Vw]; auto using in_format_0;
      [apply in_format_pow2; lia|lia|].
    destruct (mul_const_bounds (t - d) 0.4 14411518807585588 0 H)
      as [Fv Vv]; auto using in_format_0.
    { assert (0 <= 2 ^ k) by (apply Z.pow_nonneg; lia).
      set (P := 2 ^ k) in *. lia. }
    destruct (add_bounds d ((t - d) * 0.4) (val d) (val t)) as [Fr Vr];
      auto using val_in_format; lia.
Qed.

(** Moving down: [t <= d]. *)
Lemma smoothing_down d t :
  fin d -> fin t -> val t <= val d -> val d - val t <= 2 ^ 2040 ->
  fin (d + (t - d) * 0.4) /\ val t <= val (d + (t - d) * 0.4) <= val d.
Proof.
  intros Fd Ft Hle Hb. destruct val_0_4 as [F04 V04].
  destruct (Z.eq_dec (val t) (val d)) as [E|NE].
  - destruct (sub_bounds t d 0 0) as [Fw Vw]; auto using in_format_0; [lia|].
    destruct (mul_const_bounds (t - d) 0.4 14411518807585588 0 0)
      as [Fv Vv]; auto using in_format_0; [lia|].
    destruct (add_bounds d ((t - d) * 0.4) (val t) (val d)) as [Fr Vr];
      auto using val_in_format; lia.
  - destruct (pow2_above (val d - val t)) as (k & Hk0 & Hup & Hlow); [lia|].
    set (H := if Z.eqb k 0 then 1 else 2 ^ (k - 1)).
    assert (Hk : k <= 2045).
    { destruct Hlow as [[-> _]|[Hk1 Hlt]]; [lia|].
      apply (pow2_le_bound (val d - val t)); auto; lia. }
    assert (HH : in_format H /\ 0 < H <= val d - val t /\ 2 ^ k <= 2 * H).
    { subst H. destruct Hlow as [[-> HX]|[Hk1 Hlt]].
      - cbn. split; [apply (in_format_pow2 0); lia|]. lia.
      - replace (k =? 0) with false by (symmetry; apply Z.eqb_neq; lia).
        split; [apply in_format_pow2; lia|].
        assert (0 < 2 ^ (k - 1)) by (apply pow2_pos; lia).
        split; [lia|].
        rewrite (pow2_split2 (k - 1) 1 k) by lia. change (2 ^ 1) with 2. lia. }
    destruct HH as (FH & HHX & HH2). clearbody H.
    destruct (sub_bounds t d (- 2 ^ k) 0) as [Fw Vw]; auto using in_format_0;
      [apply in_format_opp, in_format_pow2; lia|lia|].
    destruct (mul_const_bounds (t - d) 0.4 14411518807585588 (- H) 0)
      as [Fv Vv]; auto using in_format_0, in_format_opp.
    { assert (0 <= 2 ^ k) by (apply Z.pow_nonneg; lia).
      set (P := 2 ^ k) in *. lia. }
    destruct (add_bounds d ((t - d) * 0.4) (val t) (val d)) as [Fr Vr];
      auto using val_in_format; lia.
Qed.

Lemma val_1e15 : fin 1e15 /\ val 1e15 = 1000000000000000 * ONE.
Proof. split; vm_compute; reflexivity. Qed.

Lemma val_m1e15 : fin (-1e15) /\ val (-1e15) = -1000000000000000 * ONE.
Proof. split; vm_compute; reflexivity. Qed.

Lemma ONE_small : 2000000000000000 * ONE <= 2 ^ 2040.
Proof. vm_compute. discriminate. Qed.

(** X9.  The smoothing step of line 88 never overshoots.  From any state,
    reachable or not, in which the old dissolved oxygen and the target of
    the day are of magnitude up to 1e15, one simulation step leaves the
    new dissolved oxygen between the old value and the target, rounding
    included. *)
Theorem smoothing_never_overshoots :
  forall f m ss,
    let ss' := run_simulation_step f m ss in
    let d := dissolved_oxygen ss in
    let t := target_do (pollution_level ss') in
    ((-1e15 <=? d) && (d <=? 1e15))%float = true ->
    ((-1e15 <=? t) && (t <=? 1e15))%float = true ->
    ((d <=? t)%float = true ->
     ((d <=? dissolved_oxygen ss')
      && (dissolved_oxygen ss' <=? t))%float = true) /\
    ((t <=? d)%float = true ->
     ((t <=? dissolved_oxygen ss')
      && (dissolved_oxygen ss' <=? d))%float = true).
Proof.
  intros f m ss ss' d t Hd Ht.
  assert (E : dissolved_oxygen ss' = (d + (t - d) * 0.4)%float)
    by reflexivity.
  rewrite E. clearbody d t. clear E.
  destruct val_1e15 as [Fb Vb], val_m1e15 as [Fa Va].
  apply andb_true_iff in Hd, Ht. destruct Hd as [Hd1 Hd2], Ht as [Ht1 Ht2].
  destruct (between_fin _ _ d Fa Fb Hd1 Hd2) as [Fd Vd].
  destruct (between_fin _ _ t Fa Fb Ht1 Ht2) as [Ft Vt].
  pose proof ONE_small as Hs.
  split; intros Hc; rewrite leb_val in Hc by assumption;
    apply Z.leb_le in Hc.
  - destruct (smoothing_up d t Fd Ft Hc) as [Fr Vr]; [lia|].
    rewrite (leb_val _ _ Fd Fr), (leb_val _ _ Fr Ft).
    apply andb_true_iff. split; apply Z.leb_le; lia.
  - destruct (smoothing_down d t Fd Ft Hc) as [Fr Vr]; [lia|].
    rewrite (leb_val _ _ Ft Fr), (leb_val _ _ Fr Fd).
    apply andb_true_iff. split; apply Z.leb_le; lia.
Qed.

Lemma smoothing_never_overshoots_witness :
  (((-1e15 <=? dissolved_oxygen initial_session_state)
    && (dissolved_oxygen initial_session_state <=? 1e15))%float = true /\
   ((-1e15 <=? target_do (pollution_level
                            (run_simulation_step 10 10 initial_session_state)))
    && (target_do (pollution_level
                     (run_simulation_step 10 10 initial_session_state))
        <=? 1e15))%float = true /\
   (target_do (pollution_level
                 (run_simulation_step 10 10 initial_session_state))
    <=? dissolved_oxygen initial_session_state)%float = true) /\
  ((target_do (pollution_level
                 (run_simulation_step 10 10 initial_session_state))
    <=? dissolved_oxygen (run_simulation_step 10 10 initial_session_state))
   && (dissolved_oxygen (run_simulation_step 10 10 initial_session_state)
       <=? dissolved_oxygen initial_session_state))%float = true.
Proof.
  assert (H1 : ((-1e15 <=? dissolved_oxygen initial_session_state)
                && (dissolved_oxygen initial_session_state <=? 1e15))%float
               = true) by (vm_compute; reflexivity).
  assert (H2 : ((-1e15 <=? target_do (pollution_level
                   (run_simulation_step 10 10 initial_session_state)))
                && (target_do (pollution_level
                      (run_simulation_step 10 10 initial_session_state))
                    <=? 1e15))%float = true) by (vm_compute; reflexivity).
  assert (H3 : (target_do (pollution_level
                  (run_simulation_step 10 10 initial_session_state))
                <=? dissolved_oxygen initial_session_state)%float = true)
    by (vm_compute; reflexivity).
  split; [split; [exact H1|split; [exact H2|exact H3]]|].
  exact (proj2 (smoothing_never_overshoots 10 10 initial_session_state H1 H2)
           H3).
Defined.

(** ** Dissolved oxygen stays within [0.5, 8] *)

Lemma advance_oxygen_max c ss :
  valid_command c -> campaign_inv ss -> oxygen_at_most_8 ss ->
  oxygen_at_most_8 (advance c ss).
Proof.
  intros [Hf Hm] Hinv Hmax. unfold oxygen_at_most_8 in *.
  unfold advance, next_day, game_over. cbn [day set_policies].
  destruct (Z.leb_spec 30 (day ss)); cbn [negb]; [exact Hmax|].
  destruct Hinv as (Hday & (Fp & Vp) & (Fd & Ld & Ud) & _).
  pose proof ONE_pos as HO.
  destruct (net_pollution_range (factory_val c) (farm_val c) (checkboxes c)
              Hf Hm) as [Fn Vn].
  destruct (pollution_step (pollution_level ss)
              (net_pollution (factory_val c) (farm_val c) (checkboxes c))
              (10 + 25 * (day ss - 1))) as [Fp' Vp']; auto; try lia.
  unfold run_simulation_step.
  cbn [dissolved_oxygen pollution_level policies set_policies].
  set (p' := Py.max 0 (pollution_level ss
               + net_pollution (factory_val c) (farm_val c) (checkboxes c))) in *.
  destruct (target_do_range p' Fp') as (Ft & Lt & Ut); [lia|].
  pose proof ONE_small as Hs.
  destruct (Z_le_gt_dec (val (dissolved_oxygen ss)) (val (target_do p')))
    as [Hup|Hdown].
  - destruct (smoothing_up _ _ Fd Ft Hup) as [_ Vr]; lia.
  - destruct (smoothing_down (dissolved_oxygen ss) (target_do p') Fd Ft)
      as [_ Vr]; lia.
Qed.

Lemma trajectory_oxygen_max cs : forall ss,
  Forall valid_command cs -> campaign_inv ss -> oxygen_at_most_8 ss ->
  Forall (fun s => campaign_inv s /\ oxygen_at_most_8 s) (trajectory cs ss).
Proof.
  induction cs as [|c cs IH]; intros ss Hv Hinv Hmax; cbn [trajectory].
  - constructor.
  - inversion Hv as [|? ? Hc Hcs]; subst.
    assert (Hn : campaign_inv (advance c ss)) by now apply advance_inv.
    assert (Hm : oxygen_at_most_8 (advance c ss))
      by now apply advance_oxygen_max.
    constructor; [split; assumption|]. now apply IH.
Qed.

(** X10.  After every step of every sequence of valid advance calls from
    the seed state, dissolved oxygen is at most 8.0, its seed value and the
    largest possible target: together with the floor it stays within
    [0.5, 8.0]. *)
Theorem oxygen_stays_within_half_and_8 :
  forall cs, Forall valid_command cs ->
    Forall (fun ss =>
              ((0.5 <=? dissolved_oxygen ss)
               && (dissolved_oxygen ss <=? 8.0))%float = true)
      (trajectory cs initial_session_state).
Proof.
  intros cs Hv. destruct val_8 as [F8 V8], val_0_5 as (F05 & V05 & _).
  assert (H0 : oxygen_at_most_8 initial_session_state).
  { unfold oxygen_at_most_8. cbn [dissolved_oxygen initial_session_state].
    lia. }
  apply Forall_impl
    with (2 := trajectory_oxygen_max cs _ Hv initial_inv H0).
  intros ss [(_ & _ & (Fd & Ld & _) & _) Hmax]. unfold oxygen_at_most_8 in Hmax.
  rewrite (leb_val _ _ F05 Fd), (leb_val _ _ Fd F8).
  apply andb_true_iff. split; apply Z.leb_le; lia.
Qed.

Lemma oxygen_stays_within_half_and_8_witness :
  Forall valid_command [scenario_1_command; heavy_discharge; heavy_discharge] /\
  Forall (fun ss =>
            ((0.5 <=? dissolved_oxygen ss)
             && (dissolved_oxygen ss <=? 8.0))%float = true)
    (trajectory [scenario_1_command; heavy_discharge; heavy_discharge]
       initial_session_state).
Proof.
  assert (H : Forall valid_command
                [scenario_1_command; heavy_discharge; heavy_discharge])
    by valid_commands.
  split; [exact H|]. exact (oxygen_stays_within_half_and_8 _ H).
Defined.

(** ** Division

    The quotient of two finite numbers is first truncated to an integer
    mantissa with a location, then rounded as the other results are.  The
    exact value is [N / D * 2 ^ e]; the facts below compare it to format
    numbers without leaving the integers. *)

Lemma quotient_floor q dq e N D mr er O :
  0 < D -> 0 <= q -> N < (q + 1) * D ->
  (q = 0 /\ dq = 0) \/ (1 <= dq /\ 2 ^ (dq - 1) <= q) ->
  e <= fexp prec emax (dq + e) ->
  1074 <= O -> 0 <= e + O ->
  fmt mr er ->
  mr * 2 ^ (er + O) * D <= N * 2 ^ (e + O) ->
  mr * 2 ^ (er + O) <= q * 2 ^ (e + O).
Proof.
  intros HD Hq HN Hdq Hpre HO HeO [Hmr Her] Hle.
  rewrite fexp_eq in Hpre.
  assert (HA : 0 < 2 ^ (e + O)) by (apply pow2_pos; lia).
  destruct (Z_le_gt_dec e er) as [Hge|Hlt].
  - rewrite (pow2_split2 (er - e) (e + O) (er + O)) in * by lia.
    set (K := 2 ^ (er - e)) in *. set (A := 2 ^ (e + O)) in *.
    assert (HK : 0 < K) by (apply pow2_pos; lia).
    assert (H1 : mr * K * D <= N).
    { apply (le_cancel _ _ A); [lia|].
      replace (mr * K * D * A) with (mr * (K * A) * D) by ring. exact Hle. }
    assert (H2 : mr * K < q + 1) by (apply (lt_cancel _ _ D); lia).
    assert (H3 : mr * K <= q) by lia.
    apply (Z.mul_le_mono_nonneg_r _ _ A) in H3; lia.
  - destruct Hdq as [[_ ->]|[Hd1 Hd]]; [lia|].
    assert (Hd53 : 53 <= dq) by lia.
    assert (H52 : 2 ^ 52 <= q).
    { apply Z.le_trans with (2 := Hd). apply pow2_le; lia. }
    assert (H4 : 2 ^ (er + O) * 2 <= 2 ^ (e + O)).
    { change 2 with (2 ^ 1) at 2.
      rewrite <- (pow2_split2 (er + O) 1 (er + O + 1)) by lia.
      apply pow2_le; lia. }
    set (A := 2 ^ (e + O)) in *. set (B := 2 ^ (er + O)) in *.
    assert (0 < B) by (apply pow2_pos; lia).
    change (2 ^ 53) with (2 ^ 52 * 2) in Hmr.
    set (C := 2 ^ 52) in *.
    assert (H1 : mr * B <= C * 2 * B)
      by (apply Z.mul_le_mono_nonneg_r; lia).
    assert (H2 : C * A <= q * A)
      by (apply Z.mul_le_mono_nonneg_r; lia).
    assert (H3 : C * (B * 2) <= C * A)
      by (apply Z.mul_le_mono_nonneg_l; [subst C; lia|lia]).
    lia.
Qed.

Lemma quotient_ceil q dq e n m1 m2 N D mr er O :
  0 < D -> 0 <= q -> q * D <= N ->
  (q = 0 /\ dq = 0) \/ (1 <= dq /\ 2 ^ (dq - 1) <= q) ->
  e <= fexp prec emax (dq + e) ->
  n = Z.max (fexp prec emax (dq + e) - e) 0 ->
  0 <= m1 -> m1 * 2 ^ n <= q ->
  (m2 = m1 \/ (m2 = m1 + 1 /\ m1 * 2 ^ n * D < N)) ->
  1074 <= O -> 0 <= e + O ->
  fmt mr er ->
  N * 2 ^ (e + O) <= mr * 2 ^ (er + O) * D ->
  m2 * 2 ^ (e + n + O) <= mr * 2 ^ (er + O).
Proof.
  intros HD Hq HN Hdq Hpre Hn Hm1 Hfl Hm2 HO HeO [Hmr Her] Hle.
  rewrite fexp_eq in *.
  assert (HA : 0 < 2 ^ (e + O)) by (apply pow2_pos; lia).
  assert (Hn0 : 0 <= n) by lia.
  assert (HNn : 0 < 2 ^ n) by (apply pow2_pos; lia).
  destruct (Z_le_gt_dec (e + n) er) as [Hge|Hlt].
  - rewrite (pow2_split3 (er - (e + n)) n (e + O) (er + O)) in * by lia.
    rewrite (pow2_split2 n (e + O) (e + n + O)) by lia.
    set (K := 2 ^ (er - (e + n))) in *.
    set (P := 2 ^ n) in *. set (A := 2 ^ (e + O)) in *.
    assert (HK : 0 < K) by (apply pow2_pos; lia).
    assert (H1 : N <= mr * K * P * D).
    { apply (le_cancel _ _ A); [lia|].
      replace (mr * K * P * D * A) with (mr * (K * P * A) * D) by ring.
      exact Hle. }
    assert (HPD : 0 < P * D) by (apply Z.mul_pos_pos; lia).
    assert (H3 : m2 <= mr * K).
    { destruct Hm2 as [->|[-> Hlt]].
      - apply (le_cancel _ _ (P * D)); [exact HPD|].
        assert (m1 * P * D <= q * D)
          by (apply Z.mul_le_mono_nonneg_r; lia).
        lia.
      - assert (m1 < mr * K).
        { apply (lt_cancel _ _ (P * D)); [exact HPD|]. lia. }
        lia. }
    apply (Z.mul_le_mono_nonneg_r _ _ (P * A)) in H3; [lia|].
    apply Z.mul_nonneg_nonneg; lia.
  - exfalso.
    destruct Hdq as [[_ ->]|[Hd1 Hd]]; [lia|].
    assert (Ht : e + n = dq + e - 53) by lia.
    assert (H4 : 2 ^ (er + O) * 2 ^ 53 <= 2 ^ (dq - 1) * 2 ^ (e + O)).
    { rewrite <- (pow2_split2 (dq - 1) (e + O) (dq - 1 + (e + O))) by lia.
      rewrite <- (pow2_split2 (er + O) 53 (er + O + 53)) by lia.
      apply pow2_le; lia. }
    set (A := 2 ^ (e + O)) in *. set (B := 2 ^ (er + O)) in *.
    set (Q := 2 ^ (dq - 1)) in *.
    assert (0 < B) by (apply pow2_pos; lia).
    set (C := 2 ^ 53) in *.
    assert (H1 : mr * B * D < B * C * D).
    { apply Z.mul_lt_mono_pos_r; [lia|].
      rewrite (Z.mul_comm B C). apply Z.mul_lt_mono_pos_r; lia. }
    assert (H2 : Q * A * D <= q * A * D).
    { apply Z.mul_le_mono_nonneg_r; [lia|].
      apply Z.mul_le_mono_nonneg_r; lia. }
    assert (H3 : B * C * D <= Q * A * D)
      by (apply Z.mul_le_mono_nonneg_r; lia).
    assert (H5 : q * D * A <= N * A)
      by (apply Z.mul_le_mono_nonneg_r; lia).
    lia.
Qed.

(** The first right shift, started from a location. *)
Lemma shr_fexp_loc_rel q e lx :
  0 <= q ->
  exists r,
    let n := Z.max (fexp prec emax (Zdigits2 q + e) - e) 0 in
    shr_fexp prec emax q e lx = (r, e + n) /\
    0 <= shr_m r /\ shr_m r * 2 ^ n <= q < (shr_m r + 1) * 2 ^ n /\
    (orb (shr_r r) (shr_s r) = true ->
     shr_m r * 2 ^ n < q \/ lx <> loc_Exact).
Proof.
  intros Hq. destruct lx as [|c].
  - destruct (shr_fexp_rel q e Hq) as (r & E & H0 & Hb & Hx).
    exists r. cbv zeta. split; [exact E|]. split; [exact H0|].
    split; [exact Hb|]. intros H. left. now apply Hx.
  - unfold shr_fexp, shr.
    set (r0 := shr_record_of_loc q (loc_Inexact c)).
    assert (Em : shr_m r0 = q) by (subst r0; destruct c; reflexivity).
    assert (H0 : shr_rel (2 * q + 1) 1 r0).
    { unfold shr_rel. rewrite Em. change (2 ^ 1) with 2.
      repeat split; try lia. }
    destruct (fexp prec emax (Zdigits2 q + e) - e) as [|p|p] eqn:En.
    + exists r0. cbv zeta. rewrite Em. cbn [Z.max Z.compare].
      rewrite Z.add_0_r. change (2 ^ 0) with 1.
      split; [reflexivity|]. split; [lia|]. split; [lia|].
      intros _. right. discriminate.
    + exists (iter_pos shr_1 p r0). cbv zeta.
      rewrite Z.max_l by lia. split; [reflexivity|].
      destruct (iter_pos_shr_rel (2 * q + 1) p 1 r0) as (Hm & Hb & _);
        [lia|exact H0|].
      rewrite (pow2_split2 1 (Zpos p) (1 + Zpos p)) in Hb by lia.
      change (2 ^ 1) with 2 in Hb.
      assert (0 < 2 ^ Zpos p) by (apply pow2_pos; lia).
      set (P := 2 ^ Zpos p) in *.
      set (m := shr_m (iter_pos shr_1 p r0)) in *.
      split; [exact Hm|]. split; [nia|].
      intros _. right. discriminate.
    + exists r0. cbv zeta. rewrite Em, Z.max_r by lia.
      rewrite Z.add_0_r. change (2 ^ 0) with 1.
      split; [reflexivity|]. split; [lia|]. split; [lia|].
      intros _. right. discriminate.
Qed.

Lemma Zdigits2_cases q :
  0 <= q ->
  (q = 0 /\ Zdigits2 q = 0) \/
  (1 <= Zdigits2 q /\ 2 ^ (Zdigits2 q - 1) <= q).
Proof.
  intros Hq. destruct (Z.eq_dec q 0) as [->|Hne]; [left; split; reflexivity|].
  right. destruct (Zdigits2_pos_bounds q) as [H1 H2]; lia.
Qed.

Lemma round_aux_loc_spec sx q e lx N D O :
  0 < D -> 0 <= q -> q * D <= N < (q + 1) * D ->
  (lx <> loc_Exact -> q * D < N) ->
  1074 <= O -> 0 <= e + O ->
  e <= fexp prec emax (Zdigits2 q + e) ->
  let z := binary_round_aux prec emax sx q e lx in
  sign_is sx z /\
  (forall mr er, fmt mr er ->
     mr * 2 ^ (er + O) * D <= N * 2 ^ (e + O) ->
     SFfin z = true -> mr * 2 ^ (er + O) <= mag O z) /\
  (forall mr er, fmt mr er ->
     N * 2 ^ (e + O) <= mr * 2 ^ (er + O) * D ->
     SFfin z = true /\ mag O z <= mr * 2 ^ (er + O)).
Proof.
  intros HD Hq HN Hlx HO HeO Hpre z. subst z. unfold binary_round_aux.
  destruct (shr_fexp_loc_rel q e lx Hq) as (r1 & R1). cbv zeta in R1.
  destruct R1 as (E1 & Hm1 & Hb1 & Hx1).
  rewrite E1. cbv beta iota.
  pose proof (Zdigits2_cases q Hq) as Hdq.
  set (d := Zdigits2 q) in *.
  set (n1 := Z.max (fexp prec emax (d + e) - e) 0) in *.
  pose proof (round_nearest_even_cases r1) as Hr. cbv zeta in Hr.
  set (m1 := shr_m r1) in *.
  set (m2 := round_nearest_even m1 (loc_of_shr_record r1)) in *.
  assert (Hn1 : 0 <= n1) by (subst n1; lia).
  assert (HP1 : 0 < 2 ^ n1) by (apply pow2_pos; lia).
  assert (Hm2c : m2 = m1 \/ (m2 = m1 + 1 /\ m1 * 2 ^ n1 * D < N)).
  { destruct Hr as [Hr|[Hr Hi]]; [now left|right; split; auto].
    assert (m1 * 2 ^ n1 * D <= q * D)
      by (apply Z.mul_le_mono_nonneg_r; lia).
    destruct (Hx1 Hi) as [Hlt|Hne].
    - assert (m1 * 2 ^ n1 * D < q * D)
        by (apply Z.mul_lt_mono_pos_r; lia).
      lia.
    - specialize (Hlx Hne). lia. }
  assert (Hm2 : 0 <= m2) by lia.
  assert (He1 : -1074 <= e + n1) by (subst n1; rewrite fexp_eq; lia).
  destruct (shr_fexp_rel m2 (e + n1) Hm2) as (r2 & E2 & R2).
  rewrite E2.
  set (n2 := Z.max (fexp prec emax (Zdigits2 m2 + (e + n1)) - (e + n1)) 0) in *.
  assert (Hn2 : 0 <= n2) by (subst n2; lia).
  destruct R2 as (Hm3 & Hb2 & _).
  set (m3 := shr_m r2) in *.
  assert (Hq0 : q = 0 -> e + n1 = -1074 /\ m1 = 0).
  { intros Eq.
    assert (Ed : d = 0) by (subst d; rewrite Eq; reflexivity).
    assert (Ee : e + n1 = -1074) by (subst n1; rewrite fexp_eq in *; lia).
    split; [exact Ee|]. destruct Hb1 as [Hb1 _]. rewrite Eq in Hb1. nia. }
  assert (Hfloor : forall mr er, fmt mr er ->
            mr * 2 ^ (er + O) * D <= N * 2 ^ (e + O) ->
            mr * 2 ^ (er + O) <= m3 * 2 ^ (e + n1 + n2 + O)).
  { intros mr er Hf Hle.
    assert (H0 : mr * 2 ^ (er + O) <= q * 2 ^ (e + O)).
    { apply (quotient_floor q d e N D mr er O); auto; lia. }
    assert (H1 : mr * 2 ^ (er + O) <= m1 * 2 ^ (e + n1 + O)).
    { destruct (Z.eq_dec q 0) as [Eq|Nq].
      - destruct (Hq0 Eq) as [_ ->]. rewrite Eq in H0. lia.
      - destruct (Zdigits2_pos_bounds q) as [Hd1 Hdb]; [lia|].
        apply (floor_stage q d e n1 m1 mr er O); auto. }
    assert (H2 : mr * 2 ^ (er + O) <= m2 * 2 ^ (e + n1 + O)).
    { apply Z.le_trans with (1 := H1).
      apply Z.mul_le_mono_nonneg_r; [apply Z.pow_nonneg|]; lia. }
    destruct (Z.eq_dec m2 0) as [Ez|Nz].
    - rewrite Ez in *. assert (m3 = 0).
      { assert (0 < 2 ^ n2) by (apply pow2_pos; lia). nia. }
      lia.
    - destruct (Zdigits2_pos_bounds m2) as [Hd2 Hdb2]; [lia|].
      apply (floor_stage m2 (Zdigits2 m2) (e + n1) n2 m3 mr er O); auto; lia. }
  assert (Hceil : forall mr er, fmt mr er ->
            N * 2 ^ (e + O) <= mr * 2 ^ (er + O) * D ->
            m3 * 2 ^ (e + n1 + n2 + O) <= mr * 2 ^ (er + O)).
  { intros mr er Hf Hle.
    assert (H1 : m2 * 2 ^ (e + n1 + O) <= mr * 2 ^ (er + O)).
    { apply (quotient_ceil q d e n1 m1 m2 N D mr er O); auto; lia. }
    apply Z.le_trans with (2 := H1).
    rewrite (pow2_split2 n2 (e + n1 + O) (e + n1 + n2 + O)) by lia.
    assert (0 <= 2 ^ (e + n1 + O)) by (apply Z.pow_nonneg; lia).
    rewrite Z.mul_assoc. apply Z.mul_le_mono_nonneg_r; lia. }
  assert (Htop : -1074 < e + n1 + n2 -> 0 < m2 -> 2 ^ 52 <= m3).
  { intros Hbig Hpos.
    destruct (Zdigits2_pos_bounds m2) as [Hd2 Hdb2]; [lia|].
    apply (stage_top m2 (Zdigits2 m2) (e + n1) n2 m3); auto; try lia.
    rewrite fexp_eq.
    destruct (Z_le_gt_dec (e + n1) (-1074)); [lia|].
    assert (Nq : q <> 0) by (intros Eq; destruct (Hq0 Eq); lia).
    destruct (Zdigits2_pos_bounds q) as [Hd1 Hdb]; [lia|].
    assert (2 ^ 52 <= m1).
    { apply (stage_top q d e n1 m1); auto; lia. }
    assert (52 < Zdigits2 m2).
    { apply (Z.pow_lt_mono_r_iff 2); lia. }
    lia. }
  cbv beta iota. fold m3.
  destruct m3 as [|p3|p3] eqn:Em3; [| |lia].
  - cbn [sign_is SFfin mag]. split; [reflexivity|]. split.
    + intros mr er Hf Hle _. rewrite (Hfloor mr er Hf Hle). lia.
    + intros mr er Hf Hle. split; [reflexivity|].
      destruct Hf as [Hmr _].
      apply Z.mul_nonneg_nonneg; [lia|apply Z.pow_nonneg; lia].
  - destruct (e + n1 + n2 <=? emax - prec) eqn:Eov.
    + apply Z.leb_le in Eov. cbn [sign_is SFfin mag].
      split; [split; [reflexivity|lia]|]. split.
      * intros mr er Hf Hle _. apply Hfloor; auto.
      * intros mr er Hf Hle. split; [reflexivity|]. apply Hceil; auto.
    + apply Z.leb_gt in Eov. change (emax - prec) with 971 in Eov.
      cbn [sign_is SFfin mag]. split; [reflexivity|]. split.
      * intros mr er Hf Hle Hfin. discriminate.
      * intros mr er Hf Hle. exfalso.
        pose proof (Hceil mr er Hf Hle) as Hc.
        assert (Hp2 : 0 < m2).
        { assert (0 < 2 ^ n2) by (apply pow2_pos; lia). nia. }
        assert (Ht := Htop ltac:(lia) Hp2).
        destruct Hf as [Hmr Her].
        assert (H4 : 2 ^ (er + O) * 2 <= 2 ^ (e + n1 + n2 + O)).
        { change 2 with (2 ^ 1) at 2.
          rewrite <- (pow2_split2 (er + O) 1 (er + O + 1)) by lia.
          apply pow2_le; lia. }
        set (A := 2 ^ (e + n1 + n2 + O)) in *.
        set (B := 2 ^ (er + O)) in *.
        assert (0 < B) by (apply pow2_pos; lia).
        change (2 ^ 53) with (2 ^ 52 * 2) in Hmr.
        set (C := 2 ^ 52) in *.
        assert (H1 : mr * B < C * 2 * B)
          by (apply Z.mul_lt_mono_pos_r; lia).
        assert (H2 : C * A <= Zpos p3 * A)
          by (apply Z.mul_le_mono_nonneg_r; lia).
        assert (H3 : C * (B * 2) <= C * A)
          by (apply Z.mul_le_mono_nonneg_l; [subst C; lia|lia]).
        lia.
Qed.

(** The interval form of the two one-sided facts, for an exact value
    [cond_Zopp s (N / D)] scaled by [2 ^ J]. *)
Lemma round_result_bounds_div s z N D J lo hi :
  0 <= J -> 0 < D -> 0 < N ->
  sign_is s z ->
  (forall mr er, fmt mr er ->
     mr * 2 ^ (er + (1074 + J)) * D <= N ->
     SFfin z = true -> mr * 2 ^ (er + (1074 + J)) <= mag (1074 + J) z) ->
  (forall mr er, fmt mr er ->
     N <= mr * 2 ^ (er + (1074 + J)) * D ->
     SFfin z = true /\ mag (1074 + J) z <= mr * 2 ^ (er + (1074 + J))) ->
  in_format lo -> in_format hi ->
  lo * 2 ^ J * D <= cond_Zopp s N <= hi * 2 ^ J * D ->
  SFfin z = true /\ lo <= SFval z <= hi.
Proof.
  intros HJ HD HN Hs Hge Hle Hlo Hhi Hb.
  assert (HP : 0 < 2 ^ J) by (apply pow2_pos; lia).
  assert (HPD : 0 < 2 ^ J * D) by (apply Z.mul_pos_pos; lia).
  assert (Hsh : mag (1074 + J) z = mag 1074 z * 2 ^ J).
  { apply mag_shift; auto. destruct s; auto. }
  rewrite (SFval_mag s z Hs).
  pose proof (mag_nonneg 1074 z) as Hm0.
  assert (Hsplit : forall mr er, fmt mr er ->
            mr * 2 ^ (er + (1074 + J)) = mr * 2 ^ (er + 1074) * 2 ^ J).
  { intros mr er [_ He].
    rewrite (pow2_split2 (er + 1074) J (er + (1074 + J))) by lia. ring. }
  assert (Hnn : forall mr er, fmt mr er ->
            0 <= mr * 2 ^ (er + 1074) * (2 ^ J * D)).
  { intros mr er [[Hmr _] [He _]].
    apply Z.mul_nonneg_nonneg; [|lia].
    apply Z.mul_nonneg_nonneg; [lia|apply Z.pow_nonneg; lia]. }
  assert (Hup : forall b, in_format b -> N <= b * (2 ^ J * D) ->
            SFfin z = true /\ mag 1074 z <= b).
  { intros b (mr & er & Hf & [->| ->]) Hxb.
    - destruct (Hle mr er Hf) as [Hfin Hmag].
      + rewrite Hsplit by auto. lia.
      + split; [exact Hfin|]. rewrite Hsh, Hsplit in Hmag by auto.
        now apply (le_cancel _ _ (2 ^ J)).
    - exfalso. pose proof (Hnn mr er Hf). lia. }
  assert (Hdown : forall b, in_format b -> b * (2 ^ J * D) <= N ->
            SFfin z = true -> b <= mag 1074 z).
  { intros b (mr & er & Hf & [->| ->]) Hxb Hfin.
    - pose proof (Hge mr er Hf) as Hmag.
      rewrite Hsh, Hsplit in Hmag by auto.
      apply (le_cancel _ _ (2 ^ J)); auto. apply Hmag; [lia|exact Hfin].
    - destruct Hf as [[Hmr _] [He _]].
      assert (0 <= mr * 2 ^ (er + 1074))
        by (apply Z.mul_nonneg_nonneg; [lia|apply Z.pow_nonneg; lia]).
      lia. }
  destruct s; cbn [cond_Zopp] in *.
  - destruct (Hup (- lo)) as [Hfin Hm]; [now apply in_format_opp|lia|].
    split; [exact Hfin|]. split; [lia|].
    pose proof (Hdown (- hi) (in_format_opp _ Hhi)) as Hd.
    assert (- hi <= mag 1074 z) by (apply Hd; [lia|exact Hfin]). lia.
  - destruct (Hup hi) as [Hfin Hm]; [exact Hhi|lia|].
    split; [exact Hfin|]. split; [|lia].
    apply Hdown; auto; lia.
Qed.

Lemma new_location_inexact D r : new_location D r <> loc_Exact -> r <> 0.
Proof.
  intros H ->. apply H.
  unfold new_location, new_location_even, new_location_odd.
  destruct (Z.even D); reflexivity.
Qed.

(** The integer quotient that [SFdiv] rounds. *)
Lemma SFdiv_core_spec mx ex my ey :
  -1074 <= ex <= 971 -> -1074 <= ey <= 971 ->
  exists q e' lx s,
    SFdiv_core_binary prec emax (Zpos mx) ex (Zpos my) ey = (q, e', lx) /\
    0 <= s /\ s + e' = ex - ey /\ -2045 <= e' /\ 0 <= q /\
    q * Zpos my <= Zpos mx * 2 ^ s < (q + 1) * Zpos my /\
    (lx <> loc_Exact -> q * Zpos my < Zpos mx * 2 ^ s) /\
    e' <= fexp prec emax (Zdigits2 q + e').
Proof.
  intros Hex Hey. unfold SFdiv_core_binary. cbv zeta.
  cbn [Zdigits2].
  pose proof (digits2_bounds mx) as Bx.
  pose proof (digits2_bounds my) as By.
  set (d1 := Zpos (digits2_pos mx)) in *.
  set (d2 := Zpos (digits2_pos my)) in *.
  assert (Hd1 : 1 <= d1) by (subst d1; lia).
  assert (Hd2 : 1 <= d2) by (subst d2; lia).
  set (e' := Z.min (fexp prec emax (d1 + ex - (d2 + ey))) (ex - ey)).
  assert (He' : e' = Z.min (Z.max (d1 + ex - (d2 + ey) - 53) (-1074)) (ex - ey))
    by (subst e'; rewrite fexp_eq; reflexivity).
  clearbody e'.
  set (s := ex - ey - e').
  assert (Es : s + e' = ex - ey) by (subst s; lia).
  assert (Hs : 0 <= s) by lia.
  set (m' := match s with
             | 0 => Zpos mx
             | Zpos _ => Z.shiftl (Zpos mx) s
             | Zneg _ => 0
             end).
  assert (Em : m' = Zpos mx * 2 ^ s).
  { subst m'. destruct s as [|p|p]; [|apply Z.shiftl_mul_pow2|]; lia. }
  clearbody m' s.
  pose proof (Z_div_mod m' (Zpos my) ltac:(lia)) as Hdiv.
  destruct (Z.div_eucl m' (Zpos my)) as [q r]. destruct Hdiv as [Eq Hr].
  assert (HP : 0 < 2 ^ s) by (apply pow2_pos; lia).
  assert (Hm'0 : 0 < m') by (rewrite Em; apply Z.mul_pos_pos; lia).
  assert (Hq : 0 <= q) by nia.
  exists q, e', (new_location (Zpos my) r), s.
  split; [reflexivity|]. split; [exact Hs|]. split; [lia|].
  split; [lia|]. split; [exact Hq|]. rewrite <- Em.
  split; [lia|]. split.
  { intros Hl. apply new_location_inexact in Hl. lia. }
  rewrite fexp_eq.
  destruct (Z_le_gt_dec e' (-1074)) as [Hlow|Hhigh]; [lia|].
  (* the quotient has at least 53 digits *)
  assert (Hs53 : 53 + d2 - d1 <= s) by lia.
  assert (Hbig : 2 ^ 52 * Zpos my < m').
  { rewrite Em.
    apply Z.lt_le_trans with (2 ^ 52 * 2 ^ d2);
      [apply Z.mul_lt_mono_pos_l; [apply pow2_pos|]; lia|].
    apply Z.le_trans with (2 ^ (d1 - 1) * 2 ^ s).
    - rewrite <- (pow2_split2 52 d2 (52 + d2)) by lia.
      rewrite <- (pow2_split2 (d1 - 1) s (d1 - 1 + s)) by lia.
      apply pow2_le; lia.
    - apply Z.mul_le_mono_nonneg_r; lia. }
  assert (H52 : 2 ^ 52 <= q).
  { assert (2 ^ 52 < q + 1); [|lia].
    apply (lt_cancel _ _ (Zpos my)); lia. }
  destruct (Zdigits2_pos_bounds q) as [Hdq Hdb]; [lia|].
  assert (52 < Zdigits2 q) by (apply (Z.pow_lt_mono_r_iff 2); lia).
  lia.
Qed.

Lemma SFdiv_bounds x y lo hi :
  valid_binary x = true -> valid_binary y = true ->
  SFfin x = true -> SFfin y = true -> 0 < SFval y ->
  in_format lo -> in_format hi ->
  lo * SFval y <= SFval x * 2 ^ 1074 <= hi * SFval y ->
  SFfin (SF64div x y) = true /\ lo <= SFval (SF64div x y) <= hi.
Proof.
  intros Vx Vy Fx Fy Hy Hlo Hhi Hb.
  assert (HU : 0 < 2 ^ 1074) by (apply pow2_pos; lia).
  destruct y as [sy|sy| |sy my ey]; try discriminate;
    cbn [SFval] in Hy; try lia.
  assert (Esy : sy = false).
  { destruct sy; [|reflexivity]. exfalso. cbn [cond_Zopp] in Hy.
    assert (0 <= 2 ^ (ey + 1074)) by (apply Z.pow_nonneg; lia). nia. }
  subst sy. cbn [cond_Zopp] in *.
  destruct x as [sx|sx| |sx mx ex]; try discriminate;
    unfold SF64div, SFdiv.
  - cbn [SFfin SFval cond_Zopp] in *. split; [reflexivity|].
    rewrite Z.mul_0_l in Hb.
    set (V := Zpos my * 2 ^ (ey + 1074)) in *.
    split; [apply (le_cancel _ _ V)|apply (le_cancel _ _ V)]; lia.
  - apply bounded_spec in Vx, Vy. cbn [SFval cond_Zopp] in Hb.
    destruct Vx as (Hex & _), Vy as (Hey & _).
    destruct (SFdiv_core_spec mx ex my ey Hex Hey)
      as (q & e' & lx & s & E & Hs & Hse & He' & Hq & HN & Hlx & Hpre).
    rewrite E. rewrite xorb_false_r.
    destruct (round_aux_loc_spec sx q e' lx (Zpos mx * 2 ^ s) (Zpos my)
                (1074 + 1074)) as (Hsg & Hge & Hle); auto; try lia.
    assert (HT : 0 < 2 ^ (ey + 1074)) by (apply pow2_pos; lia).
    assert (HS : 0 < 2 ^ s) by (apply pow2_pos; lia).
    assert (HE : 0 < 2 ^ (e' + (1074 + 1074))) by (apply pow2_pos; lia).
    assert (HNp : 0 < Zpos mx * 2 ^ s * 2 ^ (e' + (1074 + 1074)))
      by (apply Z.mul_pos_pos; [apply Z.mul_pos_pos|]; lia).
    apply (round_result_bounds_div sx _
             (Zpos mx * 2 ^ s * 2 ^ (e' + (1074 + 1074))) (Zpos my) 1074
             lo hi); auto; try lia.
    assert (EN : Zpos mx * 2 ^ s * 2 ^ (e' + (1074 + 1074)) * 2 ^ (ey + 1074)
                 = Zpos mx * 2 ^ (ex + 1074) * 2 ^ 1074 * 2 ^ 1074).
    { rewrite <- !Z.mul_assoc. f_equal.
      rewrite <- !Z.pow_add_r by lia. f_equal. lia. }
    set (N := Zpos mx * 2 ^ s * 2 ^ (e' + (1074 + 1074))) in *.
    set (T := 2 ^ (ey + 1074)) in *. set (U := 2 ^ 1074) in *.
    set (X := Zpos mx * 2 ^ (ex + 1074)) in *.
    assert (EX : forall b, b * U * Zpos my * T = b * (Zpos my * T) * U)
      by (intros; ring).
    destruct Hb as [Hb1 Hb2].
    apply (Z.mul_le_mono_nonneg_r _ _ U) in Hb1; [|lia].
    apply (Z.mul_le_mono_nonneg_r _ _ U) in Hb2; [|lia].
    split; apply (le_cancel _ _ T); try exact HT; rewrite EX.
    + apply Z.le_trans with (1 := Hb1).
      destruct sx; cbn [cond_Zopp]; lia.
    + apply Z.le_trans with (2 := Hb2).
      destruct sx; cbn [cond_Zopp]; lia.
Qed.

Lemma div_bounds a b lo hi :
  fin a -> fin b -> 0 < val b -> in_format lo -> in_format hi ->
  lo * val b <= val a * ONE <= hi * val b ->
  fin (a / b) /\ lo <= val (a / b) <= hi.
Proof.
  intros Fa Fb Hb Hlo Hhi H. unfold fin, val in *.
  rewrite FloatAxioms.div_spec. rewrite ONE_eq in H.
  apply SFdiv_bounds; auto using Prim2SF_valid.
Qed.

(** ** The dashboard: scum, fish and bubbles *)

Lemma val_0_8 : fin 0.8 /\ val 0.8 = 28823037615171176 * u.
Proof. split; vm_compute; reflexivity. Qed.

Lemma val_1 : fin 1 /\ val 1 = ONE.
Proof. split; vm_compute; reflexivity. Qed.

Lemma val_2 : fin 2 /\ val 2 = 2 * ONE.
Proof. split; vm_compute; reflexivity. Qed.

Lemma val_8_int : fin 8 /\ val 8 = 8 * ONE.
Proof. split; vm_compute; reflexivity. Qed.

Lemma dashboard_health ss :
  dashboard_shown ss ->
  fin (aquatic_health ss) /\ 0 <= val (aquatic_health ss) <= 100 * ONE.
Proof.
  intros Hr. destruct (dashboard_inv ss Hr) as (_ & _ & _ & H).
  exact H.
Qed.

Lemma campaign_oxygen_max cs : forall ss,
  Forall valid_command cs -> campaign_inv ss -> oxygen_at_most_8 ss ->
  oxygen_at_most_8 (campaign cs ss).
Proof.
  induction cs as [|c cs IH]; intros ss Hv Hinv Hmax; cbn [campaign].
  - exact Hmax.
  - inversion Hv as [|? ? Hc Hcs]; subst.
    apply IH; [exact Hcs|now apply advance_inv|now apply advance_oxygen_max].
Qed.

Lemma reachable_oxygen ss :
  reachable ss ->
  fin (dissolved_oxygen ss) /\
  ONE <= 2 * val (dissolved_oxygen ss) /\
  val (dissolved_oxygen ss) <= 8 * ONE.
Proof.
  intros Hr. destruct (reachable_campaign_inv ss Hr) as (_ & _ & (Fd & Ld & _) & _).
  split; [exact Fd|]. split; [exact Ld|].
  destruct Hr as (cs & Hv & ->).
  apply campaign_oxygen_max; [exact Hv|exact initial_inv|].
  destruct val_8 as [_ V8]. unfold oxygen_at_most_8.
  cbn [dissolved_oxygen initial_session_state]. lia.
Qed.

Lemma seed_oxygen_max : oxygen_at_most_8 initial_session_state.
Proof.
  destruct val_8 as [_ V8]. unfold oxygen_at_most_8.
  cbn [dissolved_oxygen initial_session_state]. lia.
Qed.

Lemma click_oxygen_max e ss :
  valid_event e -> campaign_inv ss -> oxygen_at_most_8 ss ->
  oxygen_at_most_8 (click e ss).
Proof.
  intros Hv Hinv Hmax. destruct e as [c|p|p|p]; cbn [click].
  - now apply advance_oxygen_max.
  - exact seed_oxygen_max.
  - exact Hmax.
  - exact Hmax.
Qed.

Lemma session_oxygen_max es : forall ss,
  Forall valid_event es -> campaign_inv ss -> oxygen_at_most_8 ss ->
  oxygen_at_most_8 (session es ss).
Proof.
  induction es as [|e es IH]; intros ss Hv Hinv Hmax; cbn [session].
  - exact Hmax.
  - inversion Hv as [|? ? He Hes]; subst.
    apply IH; [exact Hes|now apply click_inv|now apply click_oxygen_max].
Qed.

Lemma dashboard_oxygen ss :
  dashboard_shown ss ->
  fin (dissolved_oxygen ss) /\
  ONE <= 2 * val (dissolved_oxygen ss) /\
  val (dissolved_oxygen ss) <= 8 * ONE.
Proof.
  intros Hr. destruct (dashboard_inv ss Hr) as (_ & _ & (Fd & Ld & _) & _).
  split; [exact Fd|]. split; [exact Ld|].
  destruct Hr as (es & Hv & -> & _).
  apply session_oxygen_max; [exact Hv|exact initial_inv|].
  exact seed_oxygen_max.
Qed.

(** [int] on a finite float that is not negative is the floor. *)
Lemma builtin_int_floor a :
  fin a -> 0 <= val a ->
  exists n, Builtin.int a = Some n /\ n * ONE <= val a < (n + 1) * ONE.
Proof.
  unfold fin, val, Builtin.int. intros Fa Ha.
  pose proof (Prim2SF_valid a) as Va. pose proof ONE_pos as HO.
  destruct (Prim2SF a) as [s|s| |s m e]; try discriminate Fa.
  - exists 0. cbn [SFval]. split; [reflexivity|lia].
  - apply bounded_spec in Va. destruct Va as (He & _).
    cbn [SFval] in *.
    assert (HT : 0 < 2 ^ (e + 1074)) by (apply pow2_pos; lia).
    assert (Es : s = false).
    { destruct s; [|reflexivity]. exfalso. cbn [cond_Zopp] in Ha. nia. }
    subst s. cbn [cond_Zopp] in *.
    exists (Z.shiftl (Zpos m) e). split; [reflexivity|]. rewrite ONE_eq.
    destruct (Z_le_gt_dec 0 e) as [Hpos|Hneg].
    + rewrite Z.shiftl_mul_pow2 by lia.
      rewrite (pow2_split2 e 1074 (e + 1074)) by lia.
      assert (0 < 2 ^ 1074) by (apply pow2_pos; lia).
      assert (0 < 2 ^ e) by (apply pow2_pos; lia). nia.
    + rewrite Z.shiftl_div_pow2 by lia.
      rewrite (pow2_split2 (- e) (e + 1074) 1074) by lia.
      assert (HP : 0 < 2 ^ (- e)) by (apply pow2_pos; lia).
      pose proof (Z.mul_div_le (Zpos m) (2 ^ (- e)) HP) as H1.
      pose proof (Z.mul_succ_div_gt (Zpos m) (2 ^ (- e)) HP) as H2.
      set (P := 2 ^ (- e)) in *. set (T := 2 ^ (e + 1074)) in *.
      set (n := Zpos m / P) in *.
      split.
      * replace (n * (P * T)) with (P * n * T) by ring.
        apply Z.mul_le_mono_nonneg_r; lia.
      * replace ((n + 1) * (P * T)) with (P * Z.succ n * T) by ring.
        apply Z.mul_lt_mono_pos_r; lia.
Qed.

(** The value under [int]: between two numbers of fish when the health is
    between the two matching multiples of 12.5. *)
Lemma fish_value h klo khi :
  fin h -> 0 <= klo -> klo <= khi -> khi <= 8 ->
  25 * klo * ONE <= 2 * val h <= 25 * khi * ONE ->
  fin (h / 100.0 * 8) /\ klo * ONE <= val (h / 100.0 * 8) <= khi * ONE.
Proof.
  intros Fh H0 H1 H8 Hb.
  destruct val_100 as [F100 V100], val_8_int as [F8 V8].
  pose proof ONE_pos as HO. pose proof u_pos as Hu.
  assert (E8 : ONE = 8 * 2 ^ 1071) by (rewrite ONE_eq; reflexivity).
  assert (HQ : 0 < 2 ^ 1071) by (apply pow2_pos; lia).
  assert (Hfmt : forall k, 0 <= k <= 8 -> in_format (k * 2 ^ 1071)).
  { intros k Hk. exists k, (-3). split; [split; lia|]. left. reflexivity. }
  destruct (div_bounds h 100.0 (klo * 2 ^ 1071) (khi * 2 ^ 1071))
    as [Fq Vq]; auto; try (apply Hfmt; lia); try lia.
  apply mul_bounds; auto; try (apply in_format_ONE; lia).
  rewrite V8. set (Q := 2 ^ 1071) in *.
  split.
  - replace (val (h / 100.0) * (8 * ONE))
      with (val (h / 100.0) * 8 * ONE) by ring.
    apply Z.mul_le_mono_nonneg_r; lia.
  - replace (val (h / 100.0) * (8 * ONE))
      with (val (h / 100.0) * 8 * ONE) by ring.
    apply Z.mul_le_mono_nonneg_r; lia.
Qed.

Lemma fish_threshold k :
  0 <= k <= 8 ->
  fin (Py.float_of_int k * 12.5) /\
  2 * val (Py.float_of_int k * 12.5) = 25 * k * ONE.
Proof.
  intros Hk.
  assert (H : k = 0 \/ k = 1 \/ k = 2 \/ k = 3 \/ k = 4 \/ k = 5 \/ k = 6
              \/ k = 7 \/ k = 8) by lia.
  repeat (destruct H as [->|H]); [..|subst k]; split; vm_compute; reflexivity.
Qed.

Lemma fish_opacities_shape n :
  0 <= n <= 8 ->
  fish_opacities n
  = repeat "1"%string (Z.to_nat n) ++ repeat "0"%string (8 - Z.to_nat n).
Proof.
  intros Hn.
  assert (H : n = 0 \/ n = 1 \/ n = 2 \/ n = 3 \/ n = 4 \/ n = 5 \/ n = 6
              \/ n = 7 \/ n = 8) by lia.
  repeat (destruct H as [->|H]); [..|subst n]; reflexivity.
Qed.

(** X11.  In every state in which the dashboard is shown [int] does not
    raise and the fish count is between 0 and 8; it follows the health in steps of 12.5: with a
    health of at least [12.5 * k] at least [k] fish are counted, with a
    health of at most [12.5 * k] at most [k]; and the page shows exactly
    the first [fish_count] of the eight fish. *)
Theorem fish_count_follows_health :
  forall ss, dashboard_shown ss ->
    exists n,
      fish_count ss = Some n /\ 0 <= n <= 8 /\
      (forall k, 0 <= k <= 8 ->
         ((Py.float_of_int k * 12.5 <=? aquatic_health ss)%float = true ->
          k <= n) /\
         ((aquatic_health ss <=? Py.float_of_int k * 12.5)%float = true ->
          n <= k)) /\
      fish_opacities n
      = repeat "1"%string (Z.to_nat n) ++ repeat "0"%string (8 - Z.to_nat n).
Proof.
  intros ss Hr. destruct (dashboard_health ss Hr) as [Fh Vh].
  pose proof ONE_pos as HO.
  destruct (fish_value (aquatic_health ss) 0 8 Fh) as [Fv Vv]; try lia.
  destruct (builtin_int_floor _ Fv) as (n & En & Hn); [lia|].
  exists n. split; [exact En|].
  assert (Hn8 : 0 <= n <= 8) by nia.
  split; [exact Hn8|]. split; [|now apply fish_opacities_shape].
  intros k Hk. destruct (fish_threshold k Hk) as [Fk Vk].
  rewrite (leb_val _ _ Fk Fh), (leb_val _ _ Fh Fk).
  split; intros Hc; apply Z.leb_le in Hc.
  - destruct (fish_value (aquatic_health ss) k 8 Fh) as [_ Vk']; try lia.
    assert (k * ONE < (n + 1) * ONE) by lia.
    assert (k < n + 1) by (apply (lt_cancel _ _ ONE); lia). lia.
  - destruct (fish_value (aquatic_health ss) 0 k Fh) as [_ Vk']; try lia.
    apply (le_cancel _ _ ONE); lia.
Qed.

Lemma fish_count_follows_health_witness :
  dashboard_shown (start_simulation no_policies initial_session_state) /\
  exists n,
    fish_count (start_simulation no_policies initial_session_state) = Some n /\
    0 <= n <= 8 /\
    (forall k, 0 <= k <= 8 ->
       ((Py.float_of_int k * 12.5
         <=? aquatic_health
               (start_simulation no_policies initial_session_state))%float
        = true -> k <= n) /\
       ((aquatic_health (start_simulation no_policies initial_session_state)
         <=? Py.float_of_int k * 12.5)%float
        = true -> n <= k)) /\
    fish_opacities n
    = repeat "1"%string (Z.to_nat n) ++ repeat "0"%string (8 - Z.to_nat n).
Proof.
  assert (H : dashboard_shown
                (start_simulation no_policies initial_session_state))
    by exact dashboard_started_seed.
  split; [exact H|]. exact (fish_count_follows_health _ H).
Defined.

(** X12.  In every state in which the dashboard is shown the scum layer has
    a valid opacity between 0 and 0.8, and from a pollution level of 100 on
    it is at its cap 0.8. *)
Theorem scum_opacity_between_0_and_cap :
  forall ss, dashboard_shown ss ->
    ((0 <=? scum_opacity ss) && (scum_opacity ss <=? 0.8))%float = true /\
    ((100 <=? pollution_level ss)%float = true ->
     scum_opacity ss = 0.8%float).
Proof.
  intros ss Hr. destruct (dashboard_pollution ss Hr) as [Fp Vp].
  destruct val_0 as [F0 V0], val_0_8 as [F08 V08], val_100 as [F100 V100],
    val_1 as [F1 V1].
  pose proof ONE_pos as HO. pose proof u_pos as Hu.
  assert (H08 : 0 < val 0.8 < ONE) by (rewrite V08; unfold ONE; lia).
  destruct (div_bounds (pollution_level ss) 100.0 0 (10 * ONE))
    as [Fq Vq]; auto using in_format_0; try (apply in_format_ONE; lia);
    try lia.
  { rewrite V100. split; [nia|].
    replace (10 * ONE * (100 * ONE)) with (1000 * ONE * ONE) by ring.
    apply Z.mul_le_mono_nonneg_r; lia. }
  destruct (builtin_min_val 0.8 _ F08 Fq) as [Fs Vs].
  fold (scum_opacity ss) in Fs, Vs.
  split.
  - rewrite (leb_val _ _ F0 Fs), (leb_val _ _ Fs F08).
    apply andb_true_iff. split; apply Z.leb_le; lia.
  - intros H100. rewrite (leb_val _ _ F100 Fp) in H100.
    apply Z.leb_le in H100.
    destruct (div_bounds (pollution_level ss) 100.0 ONE (10 * ONE))
      as [_ Vq']; auto; try (apply (in_format_ONE 1); lia);
      try (apply in_format_ONE; lia); try lia.
    { rewrite V100. split.
      - replace (ONE * (100 * ONE)) with (100 * ONE * ONE) by ring.
        apply Z.mul_le_mono_nonneg_r; lia.
      - replace (10 * ONE * (100 * ONE)) with (1000 * ONE * ONE) by ring.
        apply Z.mul_le_mono_nonneg_r; lia. }
    unfold scum_opacity. apply builtin_min_keeps_first; auto. lia.
Qed.

Lemma scum_opacity_between_0_and_cap_witness :
  dashboard_shown (start_simulation no_policies initial_session_state) /\
  ((0 <=? scum_opacity (start_simulation no_policies initial_session_state))
   && (scum_opacity (start_simulation no_policies initial_session_state)
       <=? 0.8))%float = true.
Proof.
  assert (H : dashboard_shown
                (start_simulation no_policies initial_session_state))
    by exact dashboard_started_seed.
  split; [exact H|]. exact (proj1 (scum_opacity_between_0_and_cap _ H)).
Defined.

(** X13.  In every state in which the dashboard is shown the oxygen bubbles
    have a valid opacity between 0 and 1, and they are invisible (opacity
    0) whenever dissolved oxygen is at most 2. *)
Theorem bubble_opacity_is_valid :
  forall ss, dashboard_shown ss ->
    ((0 <=? bubble_opacity ss) && (bubble_opacity ss <=? 1))%float = true /\
    ((dissolved_oxygen ss <=? 2)%float = true ->
     bubble_opacity ss = 0%float).
Proof.
  intros ss Hr. destruct (dashboard_oxygen ss Hr) as (Fd & Ld & Ud).
  destruct val_0 as [F0 V0], val_1 as [F1 V1], val_2 as [F2 V2],
    val_10 as [F10 V10].
  pose proof ONE_pos as HO.
  destruct (sub_bounds (dissolved_oxygen ss) 2 (-2 * ONE) (6 * ONE))
    as [Fx Vx]; auto; try (apply in_format_ONE; lia); [lia|].
  destruct (div_bounds (dissolved_oxygen ss - 2) 10 (- (1 * ONE)) (1 * ONE))
    as [Fq Vq]; auto; try (apply in_format_opp);
    try (apply in_format_ONE; lia); try lia.
  { rewrite V10. nia. }
  destruct (py_max_val 0 _ F0 Fq) as [Fb Vb].
  fold (bubble_opacity ss) in Fb, Vb.
  split.
  - rewrite (leb_val _ _ F0 Fb), (leb_val _ _ Fb F1).
    apply andb_true_iff. split; apply Z.leb_le; lia.
  - intros H2. rewrite (leb_val _ _ Fd F2) in H2. apply Z.leb_le in H2.
    destruct (sub_bounds (dissolved_oxygen ss) 2 (-2 * ONE) 0)
      as [_ Vx']; auto using in_format_0; try (apply in_format_ONE; lia);
      [lia|].
    destruct (div_bounds (dissolved_oxygen ss - 2) 10 (- (1 * ONE)) 0)
      as [_ Vq']; auto using in_format_0; try (apply in_format_opp);
      try (apply in_format_ONE; lia); try lia.
    { rewrite V10. nia. }
    unfold bubble_opacity. apply py_max_keeps_first; auto. lia.
Qed.

Lemma bubble_opacity_is_valid_witness :
  dashboard_shown (start_simulation no_policies initial_session_state) /\
  ((0 <=? bubble_opacity (start_simulation no_policies initial_session_state))
   && (bubble_opacity (start_simulation no_policies initial_session_state)
       <=? 1))%float = true.
Proof.
  assert (H : dashboard_shown
                (start_simulation no_policies initial_session_state))
    by exact dashboard_started_seed.
  split; [exact H|]. exact (proj1 (bubble_opacity_is_valid _ H)).
Defined.

(** ** The grade ladder is monotone *)

Lemma ltb_leb_trans c a b :
  fin c -> (c <? a)%float = true -> (a <=? b)%float = true ->
  (c <? b)%float = true.
Proof.
  intros Fc H1 H2.
  destruct (SFfin (Prim2SF a)) eqn:Fa, (SFfin (Prim2SF b)) eqn:Fb.
  1: { rewrite ltb_val in * by assumption. rewrite leb_val in * by assumption.
       apply Z.ltb_lt in H1. apply Z.leb_le in H2. apply Z.ltb_lt. lia. }
  all: rewrite FloatAxioms.ltb_spec in *; rewrite FloatAxioms.leb_spec in *.
  all: unfold fin, SFltb, SFleb in *.
  all: destruct (Prim2SF a) as [[|]|[|]| |[|] ? ?]; try discriminate Fa.
  all: destruct (Prim2SF b) as [[|]|[|]| |[|] ? ?]; try discriminate Fb.
  all: destruct (Prim2SF c) as [[|]|[|]| |[|] ? ?]; try discriminate Fc.
  all: cbn in *; try reflexivity; discriminate.
Qed.

Lemma leb_ltb_trans c a b :
  fin c -> (b <=? a)%float = true -> (a <? c)%float = true ->
  (b <? c)%float = true.
Proof.
  intros Fc H2 H1.
  destruct (SFfin (Prim2SF a)) eqn:Fa, (SFfin (Prim2SF b)) eqn:Fb.
  1: { rewrite ltb_val in * by assumption. rewrite leb_val in * by assumption.
       apply Z.ltb_lt in H1. apply Z.leb_le in H2. apply Z.ltb_lt. lia. }
  all: rewrite FloatAxioms.ltb_spec in *; rewrite FloatAxioms.leb_spec in *.
  all: unfold fin, SFltb, SFleb in *.
  all: destruct (Prim2SF a) as [[|]|[|]| |[|] ? ?]; try discriminate Fa.
  all: destruct (Prim2SF b) as [[|]|[|]| |[|] ? ?]; try discriminate Fb.
  all: destruct (Prim2SF c) as [[|]|[|]| |[|] ? ?]; try discriminate Fc.
  all: cbn in *; try reflexivity; discriminate.
Qed.

(** X14.  The grade ladder is monotone: a higher average health together
    with a lower final pollution never gives a worse grade.  This holds for
    all floats that compare, infinities included. *)
Theorem better_river_never_worse_grade :
  forall a1 a2 p1 p2,
    (a1 <=? a2)%float = true -> (p2 <=? p1)%float = true ->
    (grade_rank (fst (grade_of a1 p1)) <= grade_rank (fst (grade_of a2 p2)))%nat.
Proof.
  intros a1 a2 p1 p2 Ha Hp.
  destruct val_90 as [F90 _], val_70 as [F70 _], val_40 as [F40 _].
  assert (F5 : fin 5) by (vm_compute; reflexivity).
  pose proof (fun H => ltb_leb_trans 90 a1 a2 F90 H Ha) as T90.
  pose proof (fun H => ltb_leb_trans 70 a1 a2 F70 H Ha) as T70.
  pose proof (fun H => ltb_leb_trans 40 a1 a2 F40 H Ha) as T40.
  pose proof (fun H => leb_ltb_trans 5 p1 p2 F5 Hp H) as T5.
  unfold grade_of.
  destruct (90 <? a1)%float eqn:E90, (p1 <? 5)%float eqn:E5,
    (70 <? a1)%float eqn:E70, (40 <? a1)%float eqn:E40;
    rewrite ?(T90 eq_refl), ?(T5 eq_refl), ?(T70 eq_refl), ?(T40 eq_refl);
    cbn [andb fst grade_rank];
    repeat match goal with
           | |- context [if ?c then _ else _] => destruct c
           end;
    cbn; lia.
Qed.

Lemma better_river_never_worse_grade_witness :
  ((65.5 <=? 91.25)%float = true /\ (3.5 <=? 48.0)%float = true) /\
  (grade_rank (fst (grade_of 65.5 48.0))
   <= grade_rank (fst (grade_of 91.25 3.5)))%nat.
Proof.
  assert (H1 : (65.5 <=? 91.25)%float = true) by (vm_compute; reflexivity).
  assert (H2 : (3.5 <=? 48.0)%float = true) by (vm_compute; reflexivity).
  split; [split; [exact H1|exact H2]|].
  exact (better_river_never_worse_grade 65.5 91.25 48.0 3.5 H1 H2).
Defined.

(** ** Where the oxygen goes *)

Lemma advance_oxygen c ss :
  game_over ss = false ->
  dissolved_oxygen (advance c ss)
  = (dissolved_oxygen ss
     + (target_do (pollution_level (advance c ss)) - dissolved_oxygen ss)
       * 0.4)%float.
Proof.
  intros Hg. unfold advance, next_day.
  replace (game_over (set_policies (checkboxes c) ss)) with false
    by (symmetry; exact Hg).
  reflexivity.
Qed.

Lemma target_do_toxic p :
  fin p -> 51 * ONE <= val p <= 1000 * ONE -> target_do p = 0.5%float.
Proof.
  intros Fp Vp.
  destruct val_0_15 as [F15 V15], val_8 as [F8 V8],
    val_0_5 as (F05 & V05 & _).
  pose proof ONE_pos as HO.
  assert (Hfmt : in_format (15 * 2 ^ 1073)).
  { exists 15, (-1). split; [split; lia|]. left. reflexivity. }
  assert (E2 : ONE = 2 * 2 ^ 1073) by (rewrite ONE_eq; reflexivity).
  assert (HQ : 0 < 2 ^ 1073) by (apply pow2_pos; lia).
  destruct (mul_const_bounds p 0.15 5404319552844595 (15 * 2 ^ 1073)
              (1000 * ONE)) as [Fz Vz]; auto;
    try (apply in_format_ONE; lia).
  { set (Q := 2 ^ 1073) in *. lia. }
  destruct (sub_bounds 8.0 (p * 0.15) (-1000 * ONE) (val 0.5))
    as [Fy Vy]; auto using val_in_format; try (apply in_format_ONE; lia).
  { set (Q := 2 ^ 1073) in *. lia. }
  unfold target_do. apply py_max_keeps_first; auto. lia.
Qed.

Lemma target_do_clean p :
  fin p -> val p = 0 ->
  fin (target_do p) /\ val (target_do p) = 8 * ONE.
Proof.
  intros Fp Vp.
  destruct val_0_15 as [F15 V15], val_8 as [F8 V8],
    val_0_5 as (F05 & V05 & _).
  pose proof ONE_pos as HO.
  destruct (mul_const_bounds p 0.15 5404319552844595 0 0) as [Fz Vz];
    auto using in_format_0; [lia|].
  destruct (sub_bounds 8.0 (p * 0.15) (8 * ONE) (8 * ONE)) as [Fy Vy];
    auto; try (apply in_format_ONE; lia); [lia|].
  unfold target_do.
  destruct (py_max_val 0.5 (8.0 - p * 0.15) F05 Fy) as [Fm Vm].
  split; [exact Fm|]. rewrite Vm. lia.
Qed.

(** X15.  Oxygen follows the water: when an accepted advance from a
    reachable state ends with a pollution level of 51 or more, the target
    is the floor 0.5 and dissolved oxygen does not rise; when it ends with
    no pollution left, dissolved oxygen does not fall. *)
Theorem oxygen_follows_the_water :
  forall ss c,
    reachable ss -> valid_command c -> game_over ss = false ->
    ((51 <=? pollution_level (advance c ss))%float = true ->
     target_do (pollution_level (advance c ss)) = 0.5%float /\
     (dissolved_oxygen (advance c ss) <=? dissolved_oxygen ss)%float = true) /\
    ((pollution_level (advance c ss) <=? 0)%float = true ->
     (dissolved_oxygen ss <=? dissolved_oxygen (advance c ss))%float = true).
Proof.
  intros ss c Hr Hv Hg.
  pose proof (reachable_campaign_inv ss Hr) as Hinv.
  pose proof (advance_inv c ss Hv Hinv) as Hinv'.
  destruct (reachable_oxygen ss Hr) as (Fd & Ld & Ud).
  destruct Hinv' as (Hday' & (Fp' & Vp') & (Fd' & _) & _).
  destruct val_0 as [F0 V0], val_0_5 as (F05 & V05 & _).
  assert (F51 : fin 51 /\ val 51 = 51 * ONE) by (split; vm_compute; reflexivity).
  destruct F51 as [F51 V51].
  pose proof ONE_pos as HO. pose proof ONE_small as Hs.
  rewrite (leb_val _ _ F51 Fp'), (leb_val _ _ Fp' F0),
    (leb_val _ _ Fd' Fd), (leb_val _ _ Fd Fd').
  rewrite (advance_oxygen c ss Hg) in *.
  set (p' := pollution_level (advance c ss)) in *.
  split; intros Hc; apply Z.leb_le in Hc.
  - assert (Et : target_do p' = 0.5%float)
      by (apply target_do_toxic; [exact Fp'|nia]).
    split; [exact Et|]. rewrite Et.
    destruct (smoothing_down (dissolved_oxygen ss) 0.5 Fd F05) as [_ Vr];
      [lia|lia|].
    apply Z.leb_le. lia.
  - destruct (target_do_clean p' Fp') as [Ft Vt]; [lia|].
    destruct (smoothing_up (dissolved_oxygen ss) (target_do p') Fd Ft)
      as [_ Vr]; [lia|lia|].
    apply Z.leb_le. lia.
Qed.

Lemma oxygen_follows_the_water_witness :
  (reachable (campaign (repeat heavy_discharge 2) initial_session_state) /\
   valid_command heavy_discharge /\
   game_over (campaign (repeat heavy_discharge 2) initial_session_state)
   = false /\
   (51 <=? pollution_level
             (advance heavy_discharge
                (campaign (repeat heavy_discharge 2) initial_session_state)))%float
   = true) /\
  (dissolved_oxygen
     (advance heavy_discharge
        (campaign (repeat heavy_discharge 2) initial_session_state))
   <=? dissolved_oxygen
         (campaign (repeat heavy_discharge 2) initial_session_state))%float
  = true.
Proof.
  assert (H1 : reachable (campaign (repeat heavy_discharge 2)
                            initial_session_state)).
  { exists (repeat heavy_discharge 2). split; [|reflexivity].
    cbn [repeat]. valid_commands. }
  assert (H2 : valid_command heavy_discharge)
    by (unfold valid_command; cbn; lia).
  assert (H3 : game_over (campaign (repeat heavy_discharge 2)
                            initial_session_state) = false)
    by (vm_compute; reflexivity).
  assert (H4 : (51 <=? pollution_level
                         (advance heavy_discharge
                            (campaign (repeat heavy_discharge 2)
                               initial_session_state)))%float = true)
    by (vm_compute; reflexivity).
  split; [split; [exact H1|split; [exact H2|split; [exact H3|exact H4]]]|].
  exact (proj2 (proj1 (oxygen_follows_the_water _ _ H1 H2 H3) H4)).
Defined.

(** ** The rows of the charts *)

Lemma inv_rows_ok ss :
  campaign_inv ss -> oxygen_at_most_8 ss ->
  pollution_row_ok (pollution_level ss) = true /\
  oxygen_row_ok (dissolved_oxygen ss) = true /\
  health_row_ok (aquatic_health ss) = true.
Proof.
  intros (_ & (Fp & Vp) & (Fd & Ld & _) & (Fh & Vh)) Hmax.
  unfold oxygen_at_most_8 in Hmax.
  destruct val_0 as [F0 V0], val_0_5 as (F05 & V05 & _), val_8 as [F8 V8],
    val_100 as [F100 V100].
  unfold pollution_row_ok, oxygen_row_ok, health_row_ok.
  rewrite (leb_val _ _ F0 Fp), (leb_val _ _ F05 Fd), (leb_val _ _ Fd F8),
    (leb_val _ _ F0 Fh), (leb_val _ _ Fh F100).
  repeat split; rewrite ?andb_true_iff; repeat split; apply Z.leb_le; lia.
Qed.

Lemma advance_rows c ss :
  valid_command c -> campaign_inv ss -> oxygen_at_most_8 ss ->
  chart_rows_in_range (history ss) = true ->
  chart_rows_in_range (history (advance c ss)) = true.
Proof.
  intros Hv Hinv Hmax Hrows.
  destruct (game_over ss) eqn:Hg.
  - rewrite (advance_rejected c ss Hg). exact Hrows.
  - destruct (advance_history c ss Hg) as (_ & _ & E2 & E3 & E4).
    cbv zeta in *.
    destruct (inv_rows_ok (advance c ss)) as (R1 & R2 & R3);
      [now apply advance_inv|now apply advance_oxygen_max|].
    unfold chart_rows_in_range in *.
    rewrite E2, E3, E4, !forallb_app. cbn [forallb].
    rewrite R1, R2, R3, !andb_true_r. exact Hrows.
Qed.

Lemma campaign_rows cs : forall ss,
  Forall valid_command cs -> campaign_inv ss -> oxygen_at_most_8 ss ->
  chart_rows_in_range (history ss) = true ->
  chart_rows_in_range (history (campaign cs ss)) = true.
Proof.
  induction cs as [|c cs IH]; intros ss Hv Hinv Hmax Hrows; cbn [campaign].
  - exact Hrows.
  - inversion Hv as [|? ? Hc Hcs]; subst.
    apply IH; [exact Hcs|now apply advance_inv|now apply advance_oxygen_max|].
    now apply advance_rows.
Qed.

(** X16.  In every reachable state every row of the history, not only the
    last one, is in range: pollution at least 0, dissolved oxygen within
    [0.5, 8] and health within [0, 100].  The charts never plot a value
    outside these ranges. *)
Theorem chart_rows_stay_in_range :
  forall ss, reachable ss -> chart_rows_in_range (history ss) = true.
Proof.
  intros ss (cs & Hv & ->).
  apply campaign_rows; [exact Hv|exact initial_inv| |vm_compute; reflexivity].
  destruct val_8 as [_ V8]. unfold oxygen_at_most_8.
  cbn [dissolved_oxygen initial_session_state]. lia.
Qed.

Lemma chart_rows_stay_in_range_witness :
  reachable (campaign (repeat heavy_discharge 4) initial_session_state) /\
  chart_rows_in_range
    (history (campaign (repeat heavy_discharge 4) initial_session_state))
  = true.
Proof.
  assert (H : reachable (campaign (repeat heavy_discharge 4)
                           initial_session_state)).
  { exists (repeat heavy_discharge 4). split; [|reflexivity].
    cbn [repeat]. valid_commands. }
  split; [exact H|]. exact (chart_rows_stay_in_range _ H).
Defined.
